(** * Hydia formations backend: quiz scoring, attempt numbering, formation
      fetch and update, quiz authoring

    A shallow embedding of [FormationService] and [FormationController]
    (Backend-Hydia/src) and of the parts of the Supabase client they call.

    - JavaScript numbers that are counters or database integers are kept
      as [nat] or [Z]; the score, which is the result of a division, is an
      IEEE 754 binary64 value ([spec_float] at precision 53), as a
      JavaScript [number] is.
    - The service threads two effects: a thrown exception and the tables
      behind the Supabase client.  Both are explicit in the monad [M].
    - The Supabase client answers every request with either [data] or
      [error]; a request may fail for reasons the program does not
      control, which the field [faults] of the world schedules. *)

From Stdlib Require Import List ZArith Bool String Lia PeanoNat.
From Stdlib Require Import Floats.SpecFloat.
From Stdlib Require Import Ascii Sorted Permutation.
Import ListNotations.

Local Open Scope string_scope.
Local Open Scope Z_scope.

(* ================================================================== *)
(** ** JavaScript numbers *)
(* ================================================================== *)

Module Number.

(** A JavaScript [number]: binary64. *)
Definition t : Type := spec_float.

Definition prec : Z := 53.
Definition emax : Z := 1024.

(** The number denoting an integer (exact below 2^53). *)
Definition of_Z (n : Z) : t := binary_normalize prec emax n 0 false.
Definition of_nat (n : nat) : t := of_Z (Z.of_nat n).

Definition div : t -> t -> t := SFdiv prec emax.
Definition mul : t -> t -> t := SFmul prec emax.

(** [x >= y] *)
Definition geb (x y : t) : bool := SFleb y x.

Definition one : t := of_Z 1.
Definition hundred : t := of_Z 100.

End Number.

(* ================================================================== *)
(** ** Data model (types/formation.types, SQL scripts) *)
(* ================================================================== *)

Definition uuid : Type := string.

(** [a === b] on strings. *)
Definition strict_eq (a b : string) : bool := String.eqb a b.

Inductive QuestionType : Type := multiple_choice | true_false | text.
Inductive FormationType : Type := video | ppt | pdf | article.
Inductive FormationStatus : Type := draft | active | inactive.

Module QuizAnswer.
Record t : Type := mk {
  id : uuid;
  question_id : uuid;
  answer_text : string;
  is_correct : bool;
  order_index : Z
}.
End QuizAnswer.

Module QuizQuestion.
Record t : Type := mk {
  id : uuid;
  quiz_id : uuid;
  question_text : string;
  question_type : QuestionType;
  points : Z;
  order_index : Z;
  (** the embedded resource of a nested select; absent in a plain row *)
  quiz_answers : option (list QuizAnswer.t)
}.

Definition with_points (p : Z) (q : t) : t :=
  mk (id q) (quiz_id q) (question_text q) (question_type q) p
     (order_index q) (quiz_answers q).

Definition with_quiz_answers (a : option (list QuizAnswer.t)) (q : t) : t :=
  mk (id q) (quiz_id q) (question_text q) (question_type q) (points q)
     (order_index q) a.
End QuizQuestion.

Module Quiz.
Record t : Type := mk {
  id : uuid;
  formation_id : uuid;
  title : string;
  description : option string;
  (** INTEGER DEFAULT 70, nullable *)
  passing_score : option Z;
  max_attempts : option Z;
  time_limit_minutes : option Z;
  quiz_questions : option (list QuizQuestion.t)
}.

Definition with_quiz_questions (qs : option (list QuizQuestion.t)) (q : t) : t :=
  mk (id q) (formation_id q) (title q) (description q) (passing_score q)
     (max_attempts q) (time_limit_minutes q) qs.
End Quiz.

(** One element of the [answers] array of a submission
    ([submitQuizSchema]). *)
Module SubmittedAnswer.
Record t : Type := mk {
  questionId : uuid;
  answerId : option uuid;
  textAnswer : option string
}.

Definition with_textAnswer (s : option string) (a : t) : t :=
  mk (questionId a) (answerId a) s.
End SubmittedAnswer.

Module UserQuizResult.
Record t : Type := mk {
  id : uuid;
  user_id : uuid;
  quiz_id : uuid;
  score : Number.t;
  total_questions : nat;
  correct_answers : nat;
  time_taken_minutes : option Z;
  passed : bool;
  attempt_number : Z;
  answers_data : list SubmittedAnswer.t
}.
End UserQuizResult.

(* ================================================================== *)
(** ** Scoring (FormationService.submitQuizResult, "Calculer le score") *)
(* ================================================================== *)

(** [userAnswer.answerId === correctAnswer.id]; an absent [answerId] is
    [undefined], which is not [===] to any string. *)
Definition answerId_is (userAnswer : SubmittedAnswer.t) (correctAnswer : QuizAnswer.t) : bool :=
  match SubmittedAnswer.answerId userAnswer with
  | Some a => strict_eq a (QuizAnswer.id correctAnswer)
  | None => false
  end.

(** The body of the [forEach] callback: the value of [correctAnswers]
    after the callback ran on [question]. *)
Definition forEach_body (answers : list SubmittedAnswer.t)
    (correctAnswers : nat) (question : QuizQuestion.t) : nat :=
  let userAnswer :=
    find (fun a => strict_eq (SubmittedAnswer.questionId a) (QuizQuestion.id question)) answers in
  match userAnswer, QuizQuestion.quiz_answers question with
  | Some userAnswer, Some quiz_answers =>
      let correctAnswer := find QuizAnswer.is_correct quiz_answers in
      match correctAnswer with
      | Some correctAnswer =>
          if answerId_is userAnswer correctAnswer
          then S correctAnswers
          else correctAnswers
      | None => correctAnswers
      end
  | _, _ => correctAnswers
  end.

(** [quiz.quiz_questions?.length || 0] *)
Definition totalQuestions_of (quiz : Quiz.t) : nat :=
  match Quiz.quiz_questions quiz with
  | Some qs => List.length qs
  | None => 0%nat
  end.

(** [let correctAnswers = 0; quiz.quiz_questions?.forEach(...)] *)
Definition correctAnswers_of (quiz : Quiz.t) (answers : list SubmittedAnswer.t) : nat :=
  match Quiz.quiz_questions quiz with
  | Some qs => fold_left (forEach_body answers) qs 0%nat
  | None => 0%nat
  end.

(** [totalQuestions > 0 ? (correctAnswers / totalQuestions) * 100 : 0] *)
Definition score_of (correctAnswers totalQuestions : nat) : Number.t :=
  if (0 <? totalQuestions)%nat
  then Number.mul (Number.div (Number.of_nat correctAnswers) (Number.of_nat totalQuestions))
                  Number.hundred
  else Number.of_Z 0.

(** [quiz.passing_score || 70]: [null], [undefined] and [0] are falsy. *)
Definition passing_score_or_default (quiz : Quiz.t) : Z :=
  match Quiz.passing_score quiz with
  | Some p => if p =? 0 then 70 else p
  | None => 70
  end.

(** [score >= (quiz.passing_score || 70)] *)
Definition passed_of (quiz : Quiz.t) (score : Number.t) : bool :=
  Number.geb score (Number.of_Z (passing_score_or_default quiz)).

Module Formation.
Record t : Type := mk {
  id : uuid;
  organization_id : uuid;
  name : string;
  type : FormationType;
  description : option string;
  duration_minutes : Z;
  status : FormationStatus;
  file_url : option string;
  file_name : option string;
  file_size : option Z;
  created_by : uuid;
  (** timestamps: instants counted from the epoch, on one scale for the
      server and the database *)
  created_at : Z;
  updated_at : Z;
  (** embedded by the nested select of [getFormationById] *)
  quizzes : option (list Quiz.t)
}.

Definition with_quizzes (qs : option (list Quiz.t)) (f : t) : t :=
  mk (id f) (organization_id f) (name f) (type f) (description f)
     (duration_minutes f) (status f) (file_url f) (file_name f) (file_size f)
     (created_by f) (created_at f) (updated_at f) qs.

Definition with_updated_at (v : Z) (f : t) : t :=
  mk (id f) (organization_id f) (name f) (type f) (description f)
     (duration_minutes f) (status f) (file_url f) (file_name f) (file_size f)
     (created_by f) (created_at f) v (quizzes f).
End Formation.

(** [Partial<Formation>]: the payload of an update.  [None] is a key that
    is absent (or [undefined], which the JSON body of the request drops). *)
Module PartialFormation.
Record t : Type := mk {
  id : option uuid;
  organization_id : option uuid;
  name : option string;
  type : option FormationType;
  description : option string;
  duration_minutes : option Z;
  status : option FormationStatus;
  file_url : option string;
  file_name : option string;
  file_size : option Z;
  created_by : option uuid;
  created_at : option Z;
  updated_at : option Z
}.

Definition empty : t :=
  mk None None None None None None None None None None None None None.

(** [{ ...updateData, updated_at: v }] *)
Definition with_updated_at (v : Z) (p : t) : t :=
  mk (id p) (organization_id p) (name p) (type p) (description p)
     (duration_minutes p) (status p) (file_url p) (file_name p) (file_size p)
     (created_by p) (created_at p) (Some v).
End PartialFormation.

(** [Partial<Quiz>], [Partial<QuizQuestion>], [Partial<QuizAnswer>]: what
    the authoring functions of the service receive. *)
Module PartialQuiz.
Record t : Type := mk {
  title : option string;
  description : option string;
  passing_score : option Z;
  max_attempts : option Z;
  time_limit_minutes : option Z
}.
End PartialQuiz.

Module PartialQuizQuestion.
Record t : Type := mk {
  question_text : option string;
  question_type : option QuestionType;
  points : option Z;
  order_index : option Z
}.
End PartialQuizQuestion.

Module PartialQuizAnswer.
Record t : Type := mk {
  answer_text : option string;
  is_correct : option bool;
  order_index : option Z
}.
End PartialQuizAnswer.

(** The objects handed to [insert]. *)
Module QuizInsert.
Record t : Type := mk {
  formation_id : uuid;
  title : option string;
  description : option string;
  passing_score : Z;
  max_attempts : Z;
  time_limit_minutes : option Z
}.
End QuizInsert.

Module QuizQuestionInsert.
Record t : Type := mk {
  quiz_id : uuid;
  question_text : option string;
  question_type : QuestionType;
  points : Z;
  order_index : Z
}.
End QuizQuestionInsert.

Module QuizAnswerInsert.
Record t : Type := mk {
  question_id : uuid;
  answer_text : option string;
  is_correct : bool;
  order_index : Z
}.
End QuizAnswerInsert.

(** The object handed to [insert] by [createFormation]. *)
Module FormationInsert.
Record t : Type := mk {
  organization_id : uuid;
  name : option string;
  type : option FormationType;
  description : option string;
  duration_minutes : Z;
  status : FormationStatus;
  file_url : option string;
  file_name : option string;
  file_size : option Z;
  created_by : uuid
}.
End FormationInsert.

(** [quizzes(id, title, passing_score)], the resource embedded in the list
    of formations. *)
Module QuizSummary.
Record t : Type := mk {
  id : uuid;
  title : string;
  passing_score : option Z
}.
End QuizSummary.

(** One element of the list [getFormations] returns. *)
Module FormationListItem.
Record t : Type := mk {
  formation : Formation.t;
  quizzes : list QuizSummary.t
}.
End FormationListItem.

(* ================================================================== *)
(** ** The world: tables, scheduled faults, clocks *)
(* ================================================================== *)

(** The Supabase client is not code of the repository.  It is modelled
    by what its requests do to in-memory tables, as the SQL scripts of the
    repository declare them:
    - a table is the list of its rows; a select without ORDER BY returns
      them in the order of the list, which is one of the orders the
      database may return them in;
    - a request that the database refuses is a fault of the schedule
      below, whatever the reason for the refusal: an unreachable service,
      a foreign key that matches no row, a value that does not fit the
      type of its column (the scripts declare [score] INTEGER in two places
      and DECIMAL(5,2) in a third, and [attempt_number] INTEGER); only
      NOT NULL is decided by the model itself.  A request that is not
      refused stores the values it is handed as they are (the rounding to
      two decimals that a DECIMAL(5,2) column applies to a score is left
      out: the row is the one handed to [insert]);
    - the trigger [update_updated_at_column] and the ON DELETE CASCADE of
      the foreign keys are those of the scripts;
    - a nested select embeds the child rows under their parent;
    - [.single()] answers with an error unless exactly one row results. *)
Module Supabase.

Record PostgrestError : Type := { message : string }.

(** What a request resolves to: [{ data, error: null }] or
    [{ data: null, error }]. *)
Inductive Response (T : Type) : Type :=
| Success (data : T)
| Failure (error : PostgrestError).
Arguments Success {T} data.
Arguments Failure {T} error.

(** [const { data } = await ...]: [null] when the request failed. *)
Definition data_of {T} (r : Response T) : option T :=
  match r with Success d => Some d | Failure _ => None end.

Record World : Type := mkWorld {
  formations : list Formation.t;
  quizzes : list Quiz.t;
  quiz_questions : list QuizQuestion.t;
  quiz_answers : list QuizAnswer.t;
  user_quiz_results : list UserQuizResult.t;
  (** number of identifiers the database generated so far *)
  uuid_counter : nat;
  (** outcome scheduled for the coming requests: [Some e] makes the
      request fail with [e] before it reaches the tables; an exhausted
      schedule means no fault *)
  faults : list (option PostgrestError);
  (** the reading of [new Date()], the clock of the server *)
  clock : Z;
  (** the reading of [NOW()], the clock of the database *)
  NOW : Z
}.

Definition with_formations (x : list Formation.t) (w : World) : World :=
  mkWorld x (quizzes w) (quiz_questions w) (quiz_answers w)
          (user_quiz_results w) (uuid_counter w) (faults w) (clock w) (NOW w).
Definition with_quizzes (x : list Quiz.t) (w : World) : World :=
  mkWorld (formations w) x (quiz_questions w) (quiz_answers w)
          (user_quiz_results w) (uuid_counter w) (faults w) (clock w) (NOW w).
Definition with_quiz_questions (x : list QuizQuestion.t) (w : World) : World :=
  mkWorld (formations w) (quizzes w) x (quiz_answers w)
          (user_quiz_results w) (uuid_counter w) (faults w) (clock w) (NOW w).
Definition with_quiz_answers (x : list QuizAnswer.t) (w : World) : World :=
  mkWorld (formations w) (quizzes w) (quiz_questions w) x
          (user_quiz_results w) (uuid_counter w) (faults w) (clock w) (NOW w).
Definition with_user_quiz_results (x : list UserQuizResult.t) (w : World) : World :=
  mkWorld (formations w) (quizzes w) (quiz_questions w) (quiz_answers w)
          x (uuid_counter w) (faults w) (clock w) (NOW w).
Definition with_uuid_counter (x : nat) (w : World) : World :=
  mkWorld (formations w) (quizzes w) (quiz_questions w) (quiz_answers w)
          (user_quiz_results w) x (faults w) (clock w) (NOW w).
Definition with_faults (x : list (option PostgrestError)) (w : World) : World :=
  mkWorld (formations w) (quizzes w) (quiz_questions w) (quiz_answers w)
          (user_quiz_results w) (uuid_counter w) x (clock w) (NOW w).

(** The five tables, without the bookkeeping of the model. *)
Definition same_tables (w w' : World) : Prop :=
  formations w' = formations w /\ quizzes w' = quizzes w /\
  quiz_questions w' = quiz_questions w /\ quiz_answers w' = quiz_answers w /\
  user_quiz_results w' = user_quiz_results w.

(** [uuid_generate_v4()], made deterministic: the n-th identifier. *)
Fixpoint uuid_generate_v4 (n : nat) : uuid :=
  match n with
  | O => "uuid"
  | S n => "+" ++ uuid_generate_v4 n
  end.

(** PGRST116: [.single()] on a result that is not exactly one row. *)
Definition PGRST116 : PostgrestError :=
  {| message := "JSON object requested, multiple (or no) rows returned" |}.

Definition single {T} (rows : list T) : Response T :=
  match rows with
  | [r] => Success r
  | _ => Failure PGRST116
  end.

(** A request first meets the fault scheduled for it, if any. *)
Definition request {T} (run : World -> Response T * World) (w : World)
  : Response T * World :=
  match faults w with
  | Some e :: rest => (Failure e, with_faults rest w)
  | None :: rest => run (with_faults rest w)
  | [] => run w
  end.

(** [quiz_answers(id, answer_text, is_correct, order_index)] nested
    under a question, in the order of the table (the select sets none). *)
Definition embed_quiz_answers (w : World) (q : QuizQuestion.t) : QuizQuestion.t :=
  QuizQuestion.with_quiz_answers
    (Some (filter (fun a => strict_eq (QuizAnswer.question_id a) (QuizQuestion.id q))
                  (quiz_answers w))) q.

(** [quiz_questions(..., quiz_answers(...))] nested under a quiz, in the
    order of the table (the select sets none). *)
Definition embed_quiz_questions (w : World) (z : Quiz.t) : Quiz.t :=
  Quiz.with_quiz_questions
    (Some (map (embed_quiz_answers w)
               (filter (fun q => strict_eq (QuizQuestion.quiz_id q) (Quiz.id z))
                       (quiz_questions w)))) z.

(** [quizzes(..., quiz_questions(..., quiz_answers(...)))] nested under
    a formation. *)
Definition embed_quizzes (w : World) (f : Formation.t) : Formation.t :=
  Formation.with_quizzes
    (Some (map (embed_quiz_questions w)
               (filter (fun z => strict_eq (Quiz.formation_id z) (Formation.id f))
                       (quizzes w)))) f.

(** [from('quizzes').select(`*, quiz_questions(...)`).eq('id', quizId).single()] *)
Definition select_quiz (quizId : uuid) : World -> Response Quiz.t * World :=
  request (fun w =>
    (single (map (embed_quiz_questions w)
                 (filter (fun z => strict_eq (Quiz.id z) quizId) (quizzes w))), w)).

(** [from('formations').select(`*, quizzes(...)`).eq('id', formationId).single()] *)
Definition select_formation (formationId : uuid) : World -> Response Formation.t * World :=
  request (fun w =>
    (single (map (embed_quizzes w)
                 (filter (fun f => strict_eq (Formation.id f) formationId) (formations w))), w)).

(** [ORDER BY attempt_number DESC], by insertion. *)
Fixpoint insert_desc (a : Z) (l : list Z) : list Z :=
  match l with
  | [] => [a]
  | b :: l' => if b <=? a then a :: l else b :: insert_desc a l'
  end.

Definition order_desc (l : list Z) : list Z := fold_right insert_desc [] l.

(** The rows of a user on a quiz. *)
Definition attempts_of (userId quizId : uuid) (w : World) : list UserQuizResult.t :=
  filter (fun r => strict_eq (UserQuizResult.user_id r) userId &&
                   strict_eq (UserQuizResult.quiz_id r) quizId)
         (user_quiz_results w).

(** [from('user_quiz_results').select('attempt_number').eq('user_id', userId)
     .eq('quiz_id', quizId).order('attempt_number', { ascending: false }).limit(1)] *)
Definition select_previous_attempts (userId quizId : uuid)
  : World -> Response (list Z) * World :=
  request (fun w =>
    (Success (firstn 1 (order_desc (map UserQuizResult.attempt_number
                                        (attempts_of userId quizId w)))), w)).

(** [from('user_quiz_results').insert({...}).select().single()]: unless
    the request is refused (a fault of the schedule), the database
    completes the row with its identifier and appends it. *)
Definition insert_user_quiz_result (row : uuid -> UserQuizResult.t)
  : World -> Response UserQuizResult.t * World :=
  request (fun w =>
    let r := row (uuid_generate_v4 (uuid_counter w)) in
    (Success r,
     with_uuid_counter (S (uuid_counter w))
       (with_user_quiz_results (user_quiz_results w ++ [r]) w))).

(** [value ?? old]: the column after [UPDATE ... SET]. *)
Definition set_column {A} (new : option A) (old : A) : A :=
  match new with Some v => v | None => old end.

Definition set_nullable {A} (new : option A) (old : option A) : option A :=
  match new with Some v => Some v | None => old end.

(** [UPDATE formations SET <the keys of the payload>] on one row. *)
Definition patch_formation (p : PartialFormation.t) (f : Formation.t) : Formation.t :=
  Formation.mk
    (set_column (PartialFormation.id p) (Formation.id f))
    (set_column (PartialFormation.organization_id p) (Formation.organization_id f))
    (set_column (PartialFormation.name p) (Formation.name f))
    (set_column (PartialFormation.type p) (Formation.type f))
    (set_nullable (PartialFormation.description p) (Formation.description f))
    (set_column (PartialFormation.duration_minutes p) (Formation.duration_minutes f))
    (set_column (PartialFormation.status p) (Formation.status f))
    (set_nullable (PartialFormation.file_url p) (Formation.file_url f))
    (set_nullable (PartialFormation.file_name p) (Formation.file_name f))
    (set_nullable (PartialFormation.file_size p) (Formation.file_size f))
    (set_column (PartialFormation.created_by p) (Formation.created_by f))
    (set_column (PartialFormation.created_at p) (Formation.created_at f))
    (set_column (PartialFormation.updated_at p) (Formation.updated_at f))
    (Formation.quizzes f).

(** [update_updated_at_column()], the function of the trigger the
    migration declares on formations, BEFORE UPDATE, FOR EACH ROW:
    [NEW.updated_at = NOW()].  It runs after the SET of the statement, so
    the [updated_at] of the payload never reaches the table. *)
Definition update_updated_at_column (w : World) (new : Formation.t) : Formation.t :=
  Formation.with_updated_at (NOW w) new.

(** The row an UPDATE writes in place of [f]. *)
Definition updated_row (payload : PartialFormation.t) (w : World) (f : Formation.t)
  : Formation.t :=
  update_updated_at_column w (patch_formation payload f).

(** [from('formations').update(payload).eq('id', formationId).select().single()] *)
Definition update_formation (payload : PartialFormation.t) (formationId : uuid)
  : World -> Response Formation.t * World :=
  request (fun w =>
    let hit := fun f => strict_eq (Formation.id f) formationId in
    (single (map (updated_row payload w) (filter hit (formations w))),
     with_formations
       (map (fun f => if hit f then updated_row payload w f else f) (formations w)) w)).

(** 23502: a NOT NULL column received no value. *)
Definition not_null_violation (column : string) : PostgrestError :=
  {| message := "null value in column " ++ column ++ " violates not-null constraint" |}.

(** [from('quizzes').insert({...}).select().single()] *)
Definition insert_quiz (q : QuizInsert.t) : World -> Response Quiz.t * World :=
  request (fun w =>
    match QuizInsert.title q with
    | None => (Failure (not_null_violation "title"), w)
    | Some title =>
        let r := Quiz.mk (uuid_generate_v4 (uuid_counter w)) (QuizInsert.formation_id q)
                   title (QuizInsert.description q) (Some (QuizInsert.passing_score q))
                   (Some (QuizInsert.max_attempts q)) (QuizInsert.time_limit_minutes q) None in
        (Success r, with_uuid_counter (S (uuid_counter w)) (with_quizzes (quizzes w ++ [r]) w))
    end).

(** The rows of a bulk insert, numbered from [n]; [None] when a row
    violates a constraint (the statement then inserts nothing). *)
Fixpoint question_rows (n : nat) (l : list QuizQuestionInsert.t) : option (list QuizQuestion.t) :=
  match l with
  | [] => Some []
  | q :: l' =>
      match QuizQuestionInsert.question_text q, question_rows (S n) l' with
      | Some txt, Some rows =>
          Some (QuizQuestion.mk (uuid_generate_v4 n) (QuizQuestionInsert.quiz_id q) txt
                  (QuizQuestionInsert.question_type q) (QuizQuestionInsert.points q)
                  (QuizQuestionInsert.order_index q) None :: rows)
      | _, _ => None
      end
  end.

Fixpoint answer_rows (n : nat) (l : list QuizAnswerInsert.t) : option (list QuizAnswer.t) :=
  match l with
  | [] => Some []
  | a :: l' =>
      match QuizAnswerInsert.answer_text a, answer_rows (S n) l' with
      | Some txt, Some rows =>
          Some (QuizAnswer.mk (uuid_generate_v4 n) (QuizAnswerInsert.question_id a) txt
                  (QuizAnswerInsert.is_correct a) (QuizAnswerInsert.order_index a) :: rows)
      | _, _ => None
      end
  end.

(** [from('quiz_questions').insert(questionsToInsert).select()] *)
Definition insert_quiz_questions (l : list QuizQuestionInsert.t)
  : World -> Response (list QuizQuestion.t) * World :=
  request (fun w =>
    match question_rows (uuid_counter w) l with
    | None => (Failure (not_null_violation "question_text"), w)
    | Some rows =>
        (Success rows,
         with_uuid_counter (uuid_counter w + List.length rows)%nat
           (with_quiz_questions (quiz_questions w ++ rows) w))
    end).

(** [from('quiz_answers').insert(answersToInsert).select()] *)
Definition insert_quiz_answers (l : list QuizAnswerInsert.t)
  : World -> Response (list QuizAnswer.t) * World :=
  request (fun w =>
    match answer_rows (uuid_counter w) l with
    | None => (Failure (not_null_violation "answer_text"), w)
    | Some rows =>
        (Success rows,
         with_uuid_counter (uuid_counter w + List.length rows)%nat
           (with_quiz_answers (quiz_answers w ++ rows) w))
    end).

(** [from('formations').insert({...}).select().single()]: the database
    completes the row with its identifier and with [NOW()], the default
    of both timestamps. *)
Definition insert_formation (f : FormationInsert.t) : World -> Response Formation.t * World :=
  request (fun w =>
    match FormationInsert.name f, FormationInsert.type f with
    | Some nm, Some ty =>
        let r := Formation.mk (uuid_generate_v4 (uuid_counter w))
                   (FormationInsert.organization_id f) nm ty
                   (FormationInsert.description f) (FormationInsert.duration_minutes f)
                   (FormationInsert.status f) (FormationInsert.file_url f)
                   (FormationInsert.file_name f) (FormationInsert.file_size f)
                   (FormationInsert.created_by f) (NOW w) (NOW w) None in
        (Success r,
         with_uuid_counter (S (uuid_counter w)) (with_formations (formations w ++ [r]) w))
    | None, _ => (Failure (not_null_violation "name"), w)
    | _, None => (Failure (not_null_violation "type"), w)
    end).

(** The text a [status] column holds. *)
Definition status_name (st : FormationStatus) : string :=
  match st with
  | draft => "draft"
  | active => "active"
  | inactive => "inactive"
  end.

Definition quiz_summary (z : Quiz.t) : QuizSummary.t :=
  QuizSummary.mk (Quiz.id z) (Quiz.title z) (Quiz.passing_score z).

Definition embed_quiz_summaries (w : World) (f : Formation.t) : FormationListItem.t :=
  FormationListItem.mk f
    (map quiz_summary
         (filter (fun z => strict_eq (Quiz.formation_id z) (Formation.id f)) (quizzes w))).

Definition item_created_at (x : FormationListItem.t) : Z :=
  Formation.created_at (FormationListItem.formation x).

(** [ORDER BY created_at DESC], by insertion. *)
Fixpoint insert_by_created_at (x : FormationListItem.t) (l : list FormationListItem.t)
  : list FormationListItem.t :=
  match l with
  | [] => [x]
  | y :: l' =>
      if item_created_at y <=? item_created_at x
      then x :: l
      else y :: insert_by_created_at x l'
  end.

Definition order_by_created_at_desc (l : list FormationListItem.t) : list FormationListItem.t :=
  fold_right insert_by_created_at [] l.

(** The rows [.eq('organization_id', organizationId)] and, when the
    filter is set, [.eq('status', status)] keep. *)
Definition formation_matches (organizationId : uuid) (status : option string)
    (f : Formation.t) : bool :=
  strict_eq (Formation.organization_id f) organizationId &&
  match status with
  | Some st => strict_eq (status_name (Formation.status f)) st
  | None => true
  end.

(** [from('formations').select(`*, quizzes(id, title, passing_score)`)
     .eq('organization_id', organizationId)[.eq('status', status)]
     .order('created_at', { ascending: false })] *)
Definition select_formations (organizationId : uuid) (status : option string)
  : World -> Response (list FormationListItem.t) * World :=
  request (fun w =>
    (Success (order_by_created_at_desc
                (map (embed_quiz_summaries w)
                     (filter (formation_matches organizationId status) (formations w)))), w)).

(** A row that references, by [key], one of the rows [parents]. *)
Definition references {A B} (key : A -> uuid) (id_of : B -> uuid) (parents : list B) (x : A)
  : bool :=
  existsb (fun p => strict_eq (key x) (id_of p)) parents.

(** [from('formations').delete().eq('id', formationId)], with the
    [ON DELETE CASCADE] of the foreign keys the scripts declare between
    the tables of this model: the quizzes of a deleted formation go with
    it, and so do the questions, the answers and the results of a deleted
    quiz.  The rows of [user_progress], which reference the formation with
    the same clause, are no table of this model: nothing is stated about
    them. *)
Definition delete_formation (formationId : uuid) : World -> Response unit * World :=
  request (fun w =>
    let gone_f := filter (fun f => strict_eq (Formation.id f) formationId) (formations w) in
    let gone_z := filter (references Quiz.formation_id Formation.id gone_f) (quizzes w) in
    let gone_q := filter (references QuizQuestion.quiz_id Quiz.id gone_z) (quiz_questions w) in
    (Success tt,
     mkWorld
       (filter (fun f => negb (strict_eq (Formation.id f) formationId)) (formations w))
       (filter (fun z => negb (references Quiz.formation_id Formation.id gone_f z)) (quizzes w))
       (filter (fun q => negb (references QuizQuestion.quiz_id Quiz.id gone_z q))
               (quiz_questions w))
       (filter (fun a => negb (references QuizAnswer.question_id QuizQuestion.id gone_q a))
               (quiz_answers w))
       (filter (fun r => negb (references UserQuizResult.quiz_id Quiz.id gone_z r))
               (user_quiz_results w))
       (uuid_counter w) (faults w) (clock w) (NOW w))).

End Supabase.

Import Supabase.

(* ================================================================== *)
(** ** Exceptions and the monad of the service *)
(* ================================================================== *)

Inductive Exn : Type :=
| ZodError (errors : list string)
| Error (message : string).

Definition M (A : Type) : Type := World -> (Exn + A) * World.

Definition ret {A} (a : A) : M A := fun w => (inr a, w).

Definition throw {A} (e : Exn) : M A := fun w => (inl e, w).

Definition bind {A B} (c : M A) (k : A -> M B) : M B :=
  fun w =>
    match c w with
    | (inl e, w') => (inl e, w')
    | (inr a, w') => k a w'
    end.

(** [await request]: a request never rejects, it resolves to a response. *)
Definition await {T} (r : World -> Response T * World) : M (Response T) :=
  fun w => let (x, w') := r w in (inr x, w').

(** [new Date()] *)
Definition Date_now : M Z := fun w => (inr (clock w), w).

Notation "x <- c ;; k" := (bind c (fun x => k))
  (at level 61, c at next level, right associativity).

(* ================================================================== *)
(** ** JavaScript [||] on the values the service defaults *)
(* ================================================================== *)

(** [v || d] for a number that may be absent: [undefined], [null] and [0]
    are falsy. *)
Definition number_or (v : option Z) (d : Z) : Z :=
  match v with
  | Some n => if n =? 0 then d else n
  | None => d
  end.

(** [v || false] *)
Definition bool_or_false (v : option bool) : bool :=
  match v with Some b => b | None => false end.

(** [v || d] for a string: [undefined] and the empty string are falsy. *)
Definition string_or (v : string) (d : string) : string :=
  if String.eqb v "" then d else v.

(** [array.map((x, index) => f(x, index))] *)
Fixpoint map_index_from {A B} (f : A -> nat -> B) (index : nat) (l : list A) : list B :=
  match l with
  | [] => []
  | x :: l' => f x index :: map_index_from f (S index) l'
  end.

Definition map_index {A B} (f : A -> nat -> B) (l : list A) : list B :=
  map_index_from f 0%nat l.

(* ================================================================== *)
(** ** FormationService: the domain service *)
(* ================================================================== *)

Module FormationService.

Definition getQuizById (quizId : uuid) : M (option Quiz.t) :=
  r <- await (select_quiz quizId) ;;
  match r with
  | Failure error => ret None
  | Success data => ret (Some data)
  end.

Definition getFormationById (formationId : uuid) : M (option Formation.t) :=
  r <- await (select_formation formationId) ;;
  match r with
  | Failure error => ret None
  | Success data => ret (Some data)
  end.

(** [previousAttempts && previousAttempts.length > 0
      ? previousAttempts[0].attempt_number + 1 : 1] *)
Definition attemptNumber_of (previousAttempts : option (list Z)) : Z :=
  match previousAttempts with
  | Some (a :: _) => a + 1
  | _ => 1
  end.

Definition submitQuizResult (userId quizId : uuid)
    (answers : list SubmittedAnswer.t) (timeSpent : option Z)
  : M UserQuizResult.t :=
  quiz <- getQuizById quizId ;;
  match quiz with
  | None => throw (Error "Quiz non trouvé")
  | Some quiz =>
      let correctAnswers := correctAnswers_of quiz answers in
      let totalQuestions := totalQuestions_of quiz in
      let score := score_of correctAnswers totalQuestions in
      let passed := passed_of quiz score in
      previous <- await (select_previous_attempts userId quizId) ;;
      let previousAttempts := data_of previous in
      let attemptNumber := attemptNumber_of previousAttempts in
      r <- await (insert_user_quiz_result (fun id =>
             UserQuizResult.mk id userId quizId score totalQuestions
               correctAnswers timeSpent passed attemptNumber answers)) ;;
      match r with
      | Failure error =>
          throw (Error ("Erreur lors de la soumission du quiz: " ++ message error))
      | Success data => ret data
      end
  end.

Definition updateFormation (formationId : uuid) (updateData : PartialFormation.t)
  : M Formation.t :=
  now <- Date_now ;;
  r <- await (update_formation (PartialFormation.with_updated_at now updateData)
                               formationId) ;;
  match r with
  | Failure error =>
      throw (Error ("Erreur lors de la mise à jour de la formation: " ++ message error))
  | Success data => ret data
  end.

Definition createQuiz (formationId : uuid) (quizData : PartialQuiz.t) : M Quiz.t :=
  r <- await (insert_quiz
                (QuizInsert.mk formationId
                   (PartialQuiz.title quizData)
                   (PartialQuiz.description quizData)
                   (number_or (PartialQuiz.passing_score quizData) 70)
                   (number_or (PartialQuiz.max_attempts quizData) 3)
                   (PartialQuiz.time_limit_minutes quizData))) ;;
  match r with
  | Failure error =>
      throw (Error ("Erreur lors de la création du quiz: " ++ message error))
  | Success data => ret data
  end.

Definition addQuizQuestions (quizId : uuid) (questions : list PartialQuizQuestion.t)
  : M (list QuizQuestion.t) :=
  let questionsToInsert :=
    map_index (fun q index =>
      QuizQuestionInsert.mk quizId
        (PartialQuizQuestion.question_text q)
        (match PartialQuizQuestion.question_type q with
         | Some ty => ty
         | None => multiple_choice
         end)
        (number_or (PartialQuizQuestion.points q) 1)
        (number_or (PartialQuizQuestion.order_index q) (Z.of_nat index)))
      questions in
  r <- await (insert_quiz_questions questionsToInsert) ;;
  match r with
  | Failure error =>
      throw (Error ("Erreur lors de l'ajout des questions: " ++ message error))
  | Success data => ret data
  end.

Definition addQuizAnswers (questionId : uuid) (answers : list PartialQuizAnswer.t)
  : M (list QuizAnswer.t) :=
  let answersToInsert :=
    map_index (fun a index =>
      QuizAnswerInsert.mk questionId
        (PartialQuizAnswer.answer_text a)
        (bool_or_false (PartialQuizAnswer.is_correct a))
        (number_or (PartialQuizAnswer.order_index a) (Z.of_nat index)))
      answers in
  r <- await (insert_quiz_answers answersToInsert) ;;
  match r with
  | Failure error =>
      throw (Error ("Erreur lors de l'ajout des réponses: " ++ message error))
  | Success data => ret data
  end.

Definition createFormation (organizationId : uuid) (formationData : PartialFormation.t)
    (createdBy : uuid) : M Formation.t :=
  r <- await (insert_formation
                (FormationInsert.mk organizationId
                   (PartialFormation.name formationData)
                   (PartialFormation.type formationData)
                   (PartialFormation.description formationData)
                   (number_or (PartialFormation.duration_minutes formationData) 0)
                   (match PartialFormation.status formationData with
                    | Some st => st
                    | None => draft
                    end)
                   (PartialFormation.file_url formationData)
                   (PartialFormation.file_name formationData)
                   (PartialFormation.file_size formationData)
                   createdBy)) ;;
  match r with
  | Failure error =>
      throw (Error ("Erreur lors de la création de la formation: " ++ message error))
  | Success data => ret data
  end.

(** [if (status) { query = query.eq('status', status); }]: [undefined]
    and the empty string set no filter. *)
Definition status_filter (status : option string) : option string :=
  match status with
  | Some st => if String.eqb st "" then None else Some st
  | None => None
  end.

Definition getFormations (organizationId : uuid) (status : option string)
  : M (list FormationListItem.t) :=
  r <- await (select_formations organizationId (status_filter status)) ;;
  match r with
  | Failure error =>
      throw (Error ("Erreur lors de la récupération des formations: " ++ message error))
  | Success data => ret data
  end.

Definition deleteFormation (formationId : uuid) : M unit :=
  r <- await (delete_formation formationId) ;;
  match r with
  | Failure error =>
      throw (Error ("Erreur lors de la suppression de la formation: " ++ message error))
  | Success _ => ret tt
  end.

(** [c.toLowerCase()] on a character of the ASCII range; the others are
    left as they are (no character outside ASCII lowers to a string that
    is a key of [contentTypes]: the only one that lowers into ASCII is the
    Kelvin sign, to k, and no key has a k). *)
Definition toLowerCase_ascii (c : ascii) : ascii :=
  let n := N_of_ascii c in
  if (65 <=? n)%N && (n <=? 90)%N then ascii_of_N (n + 32) else c.

Fixpoint toLowerCase (s : string) : string :=
  match s with
  | EmptyString => EmptyString
  | String c s' => String (toLowerCase_ascii c) (toLowerCase s')
  end.

(** What [contentTypes[key] || 'application/octet-stream'] evaluates to:
    a string, or, for the two lower-case names every object inherits, the
    member of [Object.prototype] found under it. *)
Inductive ContentType : Type :=
| mime (s : string)
| Object_constructor
| Object_prototype.

Definition contentTypes : list (string * string) :=
  [("pdf", "application/pdf");
   ("ppt", "application/vnd.ms-powerpoint");
   ("pptx", "application/vnd.openxmlformats-officedocument.presentationml.presentation");
   ("mp4", "video/mp4");
   ("avi", "video/x-msvideo");
   ("mov", "video/quicktime");
   ("wmv", "video/x-ms-wmv");
   ("jpg", "image/jpeg");
   ("jpeg", "image/jpeg");
   ("png", "image/png");
   ("gif", "image/gif")].

Definition getContentType (extension : string) : ContentType :=
  let key := toLowerCase extension in
  match find (fun kv => String.eqb (fst kv) key) contentTypes with
  | Some kv => mime (snd kv)
  | None =>
      if String.eqb key "constructor" then Object_constructor
      else if String.eqb key "__proto__" then Object_prototype
      else mime "application/octet-stream"
  end.

End FormationService.

(* ================================================================== *)
(** ** FormationController: the request layer *)
(* ================================================================== *)

(** What [res.status(s).json({ success, data, message, errors })] sends. *)
Record HttpResponse (T : Type) : Type := mkHttp {
  status : nat;
  success : bool;
  data : option T;
  http_message : string;
  errors : list string
}.
Arguments mkHttp {T} status success data http_message errors.
Arguments status {T} h.
Arguments success {T} h.
Arguments data {T} h.
Arguments http_message {T} h.
Arguments errors {T} h.

(** [req.params], [req.user] and the outcome of [schema.parse(req.body)]:
    either the issues of the [ZodError] it throws or the validated value. *)
Record Request (B : Type) : Type := mkRequest {
  param : string;
  userId : uuid;
  organizationId : uuid;
  body : list string + B
}.
Arguments mkRequest {B} param userId organizationId body.
Arguments param {B} r.
Arguments userId {B} r.
Arguments organizationId {B} r.
Arguments body {B} r.

Module SubmitQuizDTO.
Record t : Type := mk {
  answers : list SubmittedAnswer.t;
  timeSpent : option Z
}.
End SubmitQuizDTO.

(** The validated body of [createQuizSchema]: the schema fills the
    defaults of [question_type], [points], [passing_score] and
    [max_attempts]; [order_index] stays optional. *)
Module AnswerDTO.
Record t : Type := mk {
  answer_text : string;
  is_correct : bool;
  order_index : option Z
}.
End AnswerDTO.

Module QuestionDTO.
Record t : Type := mk {
  question_text : string;
  question_type : QuestionType;
  points : Z;
  order_index : option Z;
  answers : list AnswerDTO.t
}.
End QuestionDTO.

Module CreateQuizDTO.
Record t : Type := mk {
  title : string;
  description : option string;
  passing_score : Z;
  max_attempts : Z;
  time_limit_minutes : option Z;
  questions : list QuestionDTO.t
}.
End CreateQuizDTO.

Module FormationController.

(** [schema.parse(req.body)] *)
Definition parse {B} (b : list string + B) : M B :=
  match b with
  | inl issues => throw (ZodError issues)
  | inr v => ret v
  end.

(** [try { ... } catch (error) { ... }] around a handler. *)
Definition try_catch {R} (handler : M R) (on_error : Exn -> R) : World -> R * World :=
  fun w =>
    match handler w with
    | (inr r, w') => (r, w')
    | (inl e, w') => (on_error e, w')
    end.

(** The [catch] block shared by the handlers that validate a body. *)
Definition catch_validated {T} (fallback : string) (error : Exn) : HttpResponse T :=
  match error with
  | ZodError issues => mkHttp 400 false None "Données invalides" issues
  | Error m => mkHttp 500 false None (string_or m fallback) []
  end.

(** The [catch] block of the handlers that validate nothing.  A
    [ZodError] cannot reach them; its [message] is its issues. *)
Definition catch_plain {T} (fallback : string) (error : Exn) : HttpResponse T :=
  match error with
  | ZodError issues => mkHttp 500 false None (string_or (String.concat "," issues) fallback) []
  | Error m => mkHttp 500 false None (string_or m fallback) []
  end.

Definition getFormationById (req : Request unit)
  : World -> HttpResponse Formation.t * World :=
  try_catch
    (formation <- FormationService.getFormationById (param req) ;;
     match formation with
     | None => ret (mkHttp 404 false None "Formation non trouvée" [])
     | Some formation =>
         ret (mkHttp 200 true (Some formation) "Formation récupérée avec succès" [])
     end)
    (catch_plain "Erreur lors de la récupération de la formation").

Definition updateFormation (req : Request PartialFormation.t)
  : World -> HttpResponse Formation.t * World :=
  try_catch
    (validatedData <- parse (body req) ;;
     formation <- FormationService.updateFormation (param req) validatedData ;;
     ret (mkHttp 200 true (Some formation) "Formation mise à jour avec succès" []))
    (catch_validated "Erreur lors de la mise à jour de la formation").

Definition submitQuiz (req : Request SubmitQuizDTO.t)
  : World -> HttpResponse UserQuizResult.t * World :=
  try_catch
    (validatedData <- parse (body req) ;;
     result <- FormationService.submitQuizResult (userId req) (param req)
                 (SubmitQuizDTO.answers validatedData)
                 (SubmitQuizDTO.timeSpent validatedData) ;;
     ret (mkHttp 200 true (Some result) "Quiz soumis avec succès" []))
    (catch_validated "Erreur lors de la soumission du quiz").

(** The validated objects seen through the [Partial<...>] parameters of
    the service. *)
Definition quizData_of (d : CreateQuizDTO.t) : PartialQuiz.t :=
  PartialQuiz.mk (Some (CreateQuizDTO.title d)) (CreateQuizDTO.description d)
    (Some (CreateQuizDTO.passing_score d)) (Some (CreateQuizDTO.max_attempts d))
    (CreateQuizDTO.time_limit_minutes d).

Definition questionData_of (q : QuestionDTO.t) : PartialQuizQuestion.t :=
  PartialQuizQuestion.mk (Some (QuestionDTO.question_text q))
    (Some (QuestionDTO.question_type q)) (Some (QuestionDTO.points q))
    (QuestionDTO.order_index q).

Definition answerData_of (a : AnswerDTO.t) : PartialQuizAnswer.t :=
  PartialQuizAnswer.mk (Some (AnswerDTO.answer_text a)) (Some (AnswerDTO.is_correct a))
    (AnswerDTO.order_index a).

(** [for (const questionData of validatedData.questions) { ... }] *)
Fixpoint for_questions (quizId : uuid) (questions : list QuestionDTO.t) : M unit :=
  match questions with
  | [] => ret tt
  | questionData :: rest =>
      inserted <- FormationService.addQuizQuestions quizId [questionData_of questionData] ;;
      _ <- match inserted with
           | question :: _ =>
               _ <- FormationService.addQuizAnswers (QuizQuestion.id question)
                      (map answerData_of (QuestionDTO.answers questionData)) ;;
               ret tt
           | [] => ret tt
           end ;;
      for_questions quizId rest
  end.

Definition createQuiz (req : Request CreateQuizDTO.t)
  : World -> HttpResponse (option Quiz.t) * World :=
  try_catch
    (validatedData <- parse (body req) ;;
     quiz <- FormationService.createQuiz (param req) (quizData_of validatedData) ;;
     _ <- for_questions (Quiz.id quiz) (CreateQuizDTO.questions validatedData) ;;
     completeQuiz <- FormationService.getQuizById (Quiz.id quiz) ;;
     ret (mkHttp 201 true (Some completeQuiz) "Quiz créé avec succès" []))
    (catch_validated "Erreur lors de la création du quiz").

(** [createFormationSchema] validated: the schema fills the defaults of
    [duration_minutes] and [status]. *)
Definition formationData_of (name : string) (type : FormationType)
    (description : option string) (duration_minutes : Z) (status : FormationStatus)
  : PartialFormation.t :=
  PartialFormation.mk None None (Some name) (Some type) description
    (Some duration_minutes) (Some status) None None None None None None.

Definition createFormation (req : Request PartialFormation.t)
  : World -> HttpResponse Formation.t * World :=
  try_catch
    (validatedData <- parse (body req) ;;
     formation <- FormationService.createFormation (organizationId req) validatedData
                    (userId req) ;;
     ret (mkHttp 201 true (Some formation) "Formation créée avec succès" []))
    (catch_validated "Erreur lors de la création de la formation").

(** [req.query.status] is the second argument. *)
Definition getFormations (req : Request unit) (status : option string)
  : World -> HttpResponse (list FormationListItem.t) * World :=
  try_catch
    (formations <- FormationService.getFormations (organizationId req) status ;;
     ret (mkHttp 200 true (Some formations) "Formations récupérées avec succès" []))
    (catch_plain "Erreur lors de la récupération des formations").

Definition deleteFormation (req : Request unit) : World -> HttpResponse unit * World :=
  try_catch
    (_ <- FormationService.deleteFormation (param req) ;;
     ret (mkHttp 200 true None "Formation supprimée avec succès" []))
    (catch_plain "Erreur lors de la suppression de la formation").

Definition getQuiz (req : Request unit) : World -> HttpResponse Quiz.t * World :=
  try_catch
    (quiz <- FormationService.getQuizById (param req) ;;
     match quiz with
     | None => ret (mkHttp 404 false None "Quiz non trouvé" [])
     | Some quiz => ret (mkHttp 200 true (Some quiz) "Quiz récupéré avec succès" [])
     end)
    (catch_plain "Erreur lors de la récupération du quiz").

(** The [fileFilter] of the multer configuration: [cb(null, true)] or
    [cb(new Error(...))]. *)
Definition allowedTypes : list string :=
  ["application/pdf";
   "application/vnd.ms-powerpoint";
   "application/vnd.openxmlformats-officedocument.presentationml.presentation";
   "video/mp4";
   "video/x-msvideo";
   "video/quicktime";
   "video/x-ms-wmv"].

Definition fileFilter (mimetype : string) : Exn + bool :=
  if existsb (String.eqb mimetype) allowedTypes
  then inr true
  else inl (Error "Type de fichier non autorisé").

End FormationController.

(* ================================================================== *)
(** ** Vocabulary of the specification *)
(* ================================================================== *)

Definition questions_of (quiz : Quiz.t) : list QuizQuestion.t :=
  match Quiz.quiz_questions quiz with
  | Some qs => qs
  | None => []
  end.

(** The submitted answer of a question: the entry of the submission found
    by its [questionId]. *)
Definition submitted_answer (answers : list SubmittedAnswer.t) (question : QuizQuestion.t)
  : option SubmittedAnswer.t :=
  find (fun a => strict_eq (SubmittedAnswer.questionId a) (QuizQuestion.id question)) answers.

(** The designated correct answer of a question: its answer flagged
    [is_correct]. *)
Definition designated_answer (question : QuizQuestion.t) : option QuizAnswer.t :=
  match QuizQuestion.quiz_answers question with
  | Some l => find QuizAnswer.is_correct l
  | None => None
  end.

(** A question whose submitted [answerId] is the id of its designated
    correct answer. *)
Definition AnsweredCorrectly (answers : list SubmittedAnswer.t) (question : QuizQuestion.t) : Prop :=
  exists userAnswer correctAnswer,
    submitted_answer answers question = Some userAnswer /\
    designated_answer question = Some correctAnswer /\
    SubmittedAnswer.answerId userAnswer = Some (QuizAnswer.id correctAnswer).

Definition answered_correctly (answers : list SubmittedAnswer.t) (question : QuizQuestion.t) : bool :=
  match submitted_answer answers question, designated_answer question with
  | Some userAnswer, Some correctAnswer =>
      match SubmittedAnswer.answerId userAnswer with
      | Some a => String.eqb a (QuizAnswer.id correctAnswer)
      | None => false
      end
  | _, _ => false
  end.

(** The number of questions answered correctly. *)
Definition correct_count (answers : list SubmittedAnswer.t) (questions : list QuizQuestion.t) : nat :=
  List.length (filter (answered_correctly answers) questions).

Definition is_text (question : QuizQuestion.t) : bool :=
  match QuizQuestion.question_type question with
  | text => true
  | _ => false
  end.

(** The tables after the [points] of every question were rewritten. *)
Definition repoint (f : QuizQuestion.t -> Z) (w : World) : World :=
  Supabase.with_quiz_questions
    (map (fun q => QuizQuestion.with_points (f q) q) (quiz_questions w)) w.

(** The highest of a list of attempt numbers, if there is one. *)
Fixpoint highest (l : list Z) : option Z :=
  match l with
  | [] => None
  | a :: l' => Some (match highest l' with Some b => Z.max a b | None => a end)
  end.

(** The highest attempt number a user has on a quiz. *)
Definition highest_attempt (userId quizId : uuid) (w : World) : option Z :=
  highest (map UserQuizResult.attempt_number (attempts_of userId quizId w)).

(** The read of the previous attempts is the second request of a
    submission: whether the answer scheduled for it is an error. *)
Definition read_of_attempts_fails (w : World) : bool :=
  match faults w with
  | _ :: Some _ :: _ => true
  | _ => false
  end.

(** Submissions handled one after the other, each to completion. *)
Record Submission : Type := mkSubmission {
  by_user : uuid;
  on_quiz : uuid;
  with_answers : list SubmittedAnswer.t;
  in_time : option Z
}.

Fixpoint submit_all (trace : list Submission) (w : World)
  : list (Submission * (Exn + UserQuizResult.t)) * World :=
  match trace with
  | [] => ([], w)
  | s :: rest =>
      let (o, w1) := FormationService.submitQuizResult (by_user s) (on_quiz s)
                       (with_answers s) (in_time s) w in
      let (log, w2) := submit_all rest w1 in
      ((s, o) :: log, w2)
  end.

Definition is_submission_of (userId quizId : uuid) (s : Submission) : bool :=
  strict_eq (by_user s) userId && strict_eq (on_quiz s) quizId.

(** The attempt numbers recorded for the submissions of a user on a quiz,
    in the order of the submissions; [None] for one that recorded nothing. *)
Definition attempts_logged (userId quizId : uuid)
    (log : list (Submission * (Exn + UserQuizResult.t))) : list (option Z) :=
  map (fun so => match snd so with
                 | inr r => Some (UserQuizResult.attempt_number r)
                 | inl _ => None
                 end)
      (filter (fun so => is_submission_of userId quizId (fst so)) log).

(** The columns of [formations], and the value a row holds in each. *)
Inductive Column : Type :=
| c_id | c_organization_id | c_name | c_type | c_description
| c_duration_minutes | c_status | c_file_url | c_file_name | c_file_size
| c_created_by | c_created_at | c_updated_at.

Inductive Value : Type :=
| v_string (s : string)
| v_nullable_string (s : option string)
| v_integer (n : Z)
| v_nullable_integer (n : option Z)
| v_type (ty : FormationType)
| v_status (st : FormationStatus).

Definition column_of (c : Column) (f : Formation.t) : Value :=
  match c with
  | c_id => v_string (Formation.id f)
  | c_organization_id => v_string (Formation.organization_id f)
  | c_name => v_string (Formation.name f)
  | c_type => v_type (Formation.type f)
  | c_description => v_nullable_string (Formation.description f)
  | c_duration_minutes => v_integer (Formation.duration_minutes f)
  | c_status => v_status (Formation.status f)
  | c_file_url => v_nullable_string (Formation.file_url f)
  | c_file_name => v_nullable_string (Formation.file_name f)
  | c_file_size => v_nullable_integer (Formation.file_size f)
  | c_created_by => v_string (Formation.created_by f)
  | c_created_at => v_integer (Formation.created_at f)
  | c_updated_at => v_integer (Formation.updated_at f)
  end.

(** The value the payload carries for a column, if the key is present. *)
Definition payload_of (c : Column) (p : PartialFormation.t) : option Value :=
  match c with
  | c_id => option_map v_string (PartialFormation.id p)
  | c_organization_id => option_map v_string (PartialFormation.organization_id p)
  | c_name => option_map v_string (PartialFormation.name p)
  | c_type => option_map v_type (PartialFormation.type p)
  | c_description =>
      option_map (fun s => v_nullable_string (Some s)) (PartialFormation.description p)
  | c_duration_minutes => option_map v_integer (PartialFormation.duration_minutes p)
  | c_status => option_map v_status (PartialFormation.status p)
  | c_file_url =>
      option_map (fun s => v_nullable_string (Some s)) (PartialFormation.file_url p)
  | c_file_name =>
      option_map (fun s => v_nullable_string (Some s)) (PartialFormation.file_name p)
  | c_file_size =>
      option_map (fun n => v_nullable_integer (Some n)) (PartialFormation.file_size p)
  | c_created_by => option_map v_string (PartialFormation.created_by p)
  | c_created_at => option_map v_integer (PartialFormation.created_at p)
  | c_updated_at => option_map v_integer (PartialFormation.updated_at p)
  end.

(** The rows the request that creates a quiz stores for its questions and
    for their answers, the database numbering its identifiers from [n]. *)
Fixpoint authored_questions (quizId : uuid) (n : nat) (questions : list QuestionDTO.t)
  : list QuizQuestion.t :=
  match questions with
  | [] => []
  | q :: rest =>
      QuizQuestion.mk (uuid_generate_v4 n) quizId (QuestionDTO.question_text q)
        (QuestionDTO.question_type q) (number_or (Some (QuestionDTO.points q)) 1)
        (number_or (QuestionDTO.order_index q) 0) None
      :: authored_questions quizId (S n + List.length (QuestionDTO.answers q)) rest
  end.

Fixpoint authored_answers_from (questionId : uuid) (n index : nat) (answers : list AnswerDTO.t)
  : list QuizAnswer.t :=
  match answers with
  | [] => []
  | a :: rest =>
      QuizAnswer.mk (uuid_generate_v4 n) questionId (AnswerDTO.answer_text a)
        (AnswerDTO.is_correct a) (number_or (AnswerDTO.order_index a) (Z.of_nat index))
      :: authored_answers_from questionId (S n) (S index) rest
  end.

Fixpoint authored_answers (n : nat) (questions : list QuestionDTO.t) : list QuizAnswer.t :=
  match questions with
  | [] => []
  | q :: rest =>
      (authored_answers_from (uuid_generate_v4 n) (S n) 0 (QuestionDTO.answers q)
       ++ authored_answers (S n + List.length (QuestionDTO.answers q)) rest)%list
  end.

(** The number of identifiers these rows take. *)
Fixpoint authored_count (questions : list QuestionDTO.t) : nat :=
  match questions with
  | [] => 0
  | q :: rest => S (List.length (QuestionDTO.answers q) + authored_count rest)
  end.

(** No stored row carries or references an identifier the database has
    yet to generate. *)
Definition fresh_identifiers (w : World) : Prop :=
  forall n, (uuid_counter w <= n)%nat ->
    (forall f, In f (formations w) -> Formation.id f <> uuid_generate_v4 n) /\
    (forall z, In z (quizzes w) ->
       Quiz.id z <> uuid_generate_v4 n /\ Quiz.formation_id z <> uuid_generate_v4 n) /\
    (forall q, In q (quiz_questions w) -> QuizQuestion.quiz_id q <> uuid_generate_v4 n) /\
    (forall a, In a (quiz_answers w) -> QuizAnswer.question_id a <> uuid_generate_v4 n).

(** What an author sent and what a reader gets of a question: its text,
    type and points, and the text and flag of each answer, in order. *)
Definition authored_view (q : QuestionDTO.t)
  : string * QuestionType * Z * list (string * bool) :=
  (QuestionDTO.question_text q, QuestionDTO.question_type q,
   number_or (Some (QuestionDTO.points q)) 1,
   map (fun a => (AnswerDTO.answer_text a, AnswerDTO.is_correct a)) (QuestionDTO.answers q)).

Definition fetched_view (q : QuizQuestion.t)
  : string * QuestionType * Z * list (string * bool) :=
  (QuizQuestion.question_text q, QuizQuestion.question_type q, QuizQuestion.points q,
   map (fun a => (QuizAnswer.answer_text a, QuizAnswer.is_correct a))
       (match QuizQuestion.quiz_answers q with Some l => l | None => [] end)).

(** The selects of [getQuizById] set no order on the embedded rows: two
    views of a question are the same when they differ at most in the order
    of the answers, and two lists of views when they differ at most in
    that and in the order of the questions. *)
Definition same_question (fetched authored : string * QuestionType * Z * list (string * bool))
  : Prop :=
  fst fetched = fst authored /\ Permutation (snd fetched) (snd authored).

Definition same_questions
    (fetched authored : list (string * QuestionType * Z * list (string * bool))) : Prop :=
  exists l, Permutation fetched l /\ Forall2 same_question l authored.

(* ================================================================== *)
(** ** Sample data *)
(* ================================================================== *)

Module Sample.

Definition a11 := QuizAnswer.mk "a11" "q1" "Oui" true 0.
Definition a12 := QuizAnswer.mk "a12" "q1" "Non" false 1.
Definition a21 := QuizAnswer.mk "a21" "q2" "Vrai" false 0.
Definition a22 := QuizAnswer.mk "a22" "q2" "Faux" true 1.
Definition q1 := QuizQuestion.mk "q1" "z1" "Question 1" multiple_choice 1 0 None.
Definition q2 := QuizQuestion.mk "q2" "z1" "Question 2" true_false 5 1 None.

(** Two questions of equal weight, passing score 70. *)
Definition z1 := Quiz.mk "z1" "f1" "Quiz" None (Some 70) (Some 3) None None.

(** A quiz left without questions, passing score 0. *)
Definition z0 := Quiz.mk "z0" "f1" "Vide" None (Some 0) (Some 3) None None.

(** A quiz with one question of type [text], whose single answer is
    flagged correct. *)
Definition z3 := Quiz.mk "z3" "f1" "Texte" None (Some 70) (Some 3) None None.
Definition q3 := QuizQuestion.mk "q3" "z3" "Expliquez" text 1 0 None.
Definition a31 := QuizAnswer.mk "a31" "q3" "Réponse attendue" true 0.

(** A quiz left without questions, passing score 70. *)
Definition z4 := Quiz.mk "z4" "f1" "Sans question" None (Some 70) (Some 3) None None.

Definition f1 :=
  Formation.mk "f1" "o1" "Sécurité" video None 30 active None None None "p1"
               1000 2000 None.

Definition world : World :=
  mkWorld [f1] [z1; z0; z3; z4] [q1; q2; q3] [a11; a12; a21; a22; a31] [] 0 [] 5003 5000.

(** One of two right, both right. *)
Definition one_of_two :=
  [SubmittedAnswer.mk "q1" (Some "a11") None; SubmittedAnswer.mk "q2" (Some "a21") None].
Definition two_of_two :=
  [SubmittedAnswer.mk "q1" (Some "a11") None; SubmittedAnswer.mk "q2" (Some "a22") None].

(** The answer to the text question, sent with the id of its answer. *)
Definition text_with_answerId :=
  [SubmittedAnswer.mk "q3" (Some "a31") (Some "ma réponse")].

(** The database is unreachable for the next request. *)
Definition unreachable : World :=
  Supabase.with_faults [Some {| message := "connection refused" |}] world.

(** The clock of the database reads the very instant the last update of
    [f1] carries; the clock of the server reads a later one. *)
Definition same_millisecond : World :=
  mkWorld [f1] [] [] [] [] 0 [] 2007 2000.

(** The clock of the database reads an instant before the one [f1]
    carries in updated_at (a clock that was set back, a row that was
    imported or restored). *)
Definition database_clock_behind : World :=
  mkWorld [f1] [] [] [] [] 0 [] 2007 1500.

Definition rename : PartialFormation.t :=
  PartialFormation.mk None None (Some "Sûreté") None None None None None None None
                      None None None.

(** A quiz of two questions, none with an [order_index]; the second
    answer of the first question asks for [order_index] 0. *)
Definition new_quiz : CreateQuizDTO.t :=
  CreateQuizDTO.mk "Nouveau" None 70 3 None
    [QuestionDTO.mk "Première" multiple_choice 1 None
       [AnswerDTO.mk "A" true None; AnswerDTO.mk "B" false (Some 0)];
     QuestionDTO.mk "Seconde" multiple_choice 1 None
       [AnswerDTO.mk "C" false None; AnswerDTO.mk "D" true None]].

(** The rows the first submissions of user u1 record. *)
Definition run_one_of_two :=
  FormationService.submitQuizResult "u1" "z1" one_of_two None world.
Definition row_one_of_two : UserQuizResult.t :=
  UserQuizResult.mk "uuid" "u1" "z1" (Number.of_Z 50) 2 1 None false 1 one_of_two.
Definition run_two_of_two :=
  FormationService.submitQuizResult "u1" "z1" two_of_two None world.
Definition row_two_of_two : UserQuizResult.t :=
  UserQuizResult.mk "uuid" "u1" "z1" (Number.of_Z 100) 2 2 None true 1 two_of_two.

(** The quizzes as [getQuizById] returns them. *)
Definition fetched_z1 : Quiz.t := embed_quiz_questions world z1.
Definition fetched_z3 : Quiz.t := embed_quiz_questions world z3.

(** The answer to the text question, sent as text only. *)
Definition text_only := [SubmittedAnswer.mk "q3" None (Some "ma réponse")].

(** Submissions of two users, one of them on a quiz that does not exist. *)
Definition trace : list Submission :=
  [mkSubmission "u1" "z1" one_of_two None;
   mkSubmission "u2" "z1" two_of_two None;
   mkSubmission "u1" "inconnu" two_of_two None;
   mkSubmission "u1" "z1" two_of_two (Some 12);
   mkSubmission "u2" "z3" text_only None;
   mkSubmission "u1" "z1" two_of_two None].

(** After a first submission of u1 on z1, the read of the previous
    attempts of the next one fails. *)
Definition failing_read : World :=
  Supabase.with_faults [None; Some {| message := "timeout" |}] (snd run_one_of_two).

(** The request that creates [new_quiz] under [f1]. *)
Definition create_new_quiz :=
  FormationController.createQuiz (mkRequest "f1" "p1" "o1" (inr new_quiz)) world.

(** The tables after that request, the rows of the questions and of the
    answers held in the reverse order. *)
Definition created_in_reverse : World :=
  Supabase.with_quiz_questions (rev (quiz_questions (snd create_new_quiz)))
    (Supabase.with_quiz_answers (rev (quiz_answers (snd create_new_quiz)))
       (snd create_new_quiz)).

(** The text question answered as text only, with another text. *)
Definition run_text_only :=
  FormationService.submitQuizResult "u1" "z3"
    (map (fun a => SubmittedAnswer.with_textAnswer (Some "autre texte") a) text_only)
    None world.
Definition row_text_only : UserQuizResult.t :=
  UserQuizResult.mk "uuid" "u1" "z3" (Number.of_Z 0) 1 0 None false 1
    [SubmittedAnswer.mk "q3" None (Some "autre texte")].

(** An empty submission on the quiz of two questions. *)
Definition run_empty := FormationService.submitQuizResult "u1" "z1" [] None world.
Definition row_empty : UserQuizResult.t :=
  UserQuizResult.mk "uuid" "u1" "z1" (Number.of_Z 0) 2 0 None false 1 [].

(** The two answers of [two_of_two], sent in the other order. *)
Definition two_of_two_reversed :=
  [SubmittedAnswer.mk "q2" (Some "a22") None; SubmittedAnswer.mk "q1" (Some "a11") None].
Definition run_two_of_two_reversed :=
  FormationService.submitQuizResult "u1" "z1" two_of_two_reversed None world.
Definition row_two_of_two_reversed : UserQuizResult.t :=
  UserQuizResult.mk "uuid" "u1" "z1" (Number.of_Z 100) 2 2 None true 1 two_of_two_reversed.

(** The update of [f1] that renames it, and the row it returns. *)
Definition run_rename := FormationService.updateFormation "f1" rename world.
Definition renamed_f1 : Formation.t :=
  Formation.mk "f1" "o1" "Sûreté" video None 30 active None None None "p1" 1000 5000 None.

(** A second formation, of another organization, and a world with both. *)
Definition f2 :=
  Formation.mk "f2" "o2" "Accueil" pdf None 10 draft None None None "p2" 3000 3000 None.
Definition f3 :=
  Formation.mk "f3" "o1" "Incendie" article None 20 draft None None None "p1" 4000 4000 None.
Definition two_organizations : World :=
  mkWorld [f1; f2; f3] [z1; z0; z3; z4] [q1; q2; q3] [a11; a12; a21; a22; a31]
          [row_one_of_two] 1 [] 6003 6000.

(** The same with a quiz under [f2], of one question and one answer. *)
Definition z5 := Quiz.mk "z5" "f2" "Accueil" None (Some 50) (Some 3) None None.
Definition q5 := QuizQuestion.mk "q5" "z5" "Bienvenue ?" true_false 1 0 None.
Definition a51 := QuizAnswer.mk "a51" "q5" "Vrai" true 0.
Definition with_other_quiz : World :=
  mkWorld [f1; f2; f3] [z1; z0; z3; z4; z5] [q1; q2; q3; q5]
          [a11; a12; a21; a22; a31; a51] [row_one_of_two] 1 [] 6003 6000.

(** The body of a request that creates a formation. *)
Definition new_formation : PartialFormation.t :=
  FormationController.formationData_of "Gestes et postures" video None 0 draft.

(** The creation of a quiz whose second request fails. *)
Definition second_request_fails : World :=
  Supabase.with_faults [None; Some {| message := "timeout" |}] world.

End Sample.

(* ================================================================== *)
(** ** binary64: the two facts about division the scoring relies on *)
(* ================================================================== *)

Section Binary64.

Let fexp64 := fexp Number.prec Number.emax.

Lemma div_eucl_shiftl_self (m : positive) :
  Z.div_eucl (Z.shiftl (Z.pos m) 53) (Z.pos m) = (2 ^ 53, 0).
Proof.
  rewrite Z.shiftl_mul_pow2 by lia.
  pose proof (Z.div_eucl_eq (Z.pos m * 2 ^ 53) (Z.pos m) ltac:(lia)) as E.
  pose proof (Z.mod_pos_bound (Z.pos m * 2 ^ 53) (Z.pos m) ltac:(lia)) as B.
  unfold Z.modulo in B.
  destruct (Z.div_eucl (Z.pos m * 2 ^ 53) (Z.pos m)) as [q r].
  assert (r = 0 /\ q = 2 ^ 53) as [-> ->]; [|reflexivity].
  assert (Z.pos m * (2 ^ 53 - q) = r) as D by lia.
  assert (2 ^ 53 - q = 0) by nia.
  split; nia.
Qed.

(** x / x = 1 for every finite positive x. *)
Lemma div_self (m : positive) (e : Z) :
  Number.div (S754_finite false m e) (S754_finite false m e) = Number.one.
Proof.
  unfold Number.div, Number.prec, Number.emax, SFdiv, SFdiv_core_binary.
  cbn [Zdigits2].
  rewrite !Z.sub_diag.
  change (Z.min (fexp 53 1024 0) 0) with (-53).
  change (0 - -53) with 53.
  cbv iota.
  rewrite div_eucl_shiftl_self.
  assert (new_location (Z.pos m) 0 = loc_Exact) as ->.
  { unfold new_location, new_location_even, new_location_odd.
    destruct (Z.even (Z.pos m)); reflexivity. }
  vm_compute. reflexivity.
Qed.

Lemma digits2_pos_iter_xO (k p : positive) :
  digits2_pos (Pos.iter xO p k) = (digits2_pos p + k)%positive.
Proof.
  induction k using Pos.peano_ind.
  - cbn. lia.
  - rewrite Pos.iter_succ. cbn [digits2_pos]. rewrite IHk. lia.
Qed.

Lemma digits2_pos_lower (q : positive) :
  2 ^ (Z.pos (digits2_pos q) - 1) <= Z.pos q.
Proof.
  induction q; cbn [digits2_pos]; rewrite ?Pos2Z.inj_succ.
  - replace (Z.succ (Z.pos (digits2_pos q)) - 1)
      with (Z.succ (Z.pos (digits2_pos q) - 1)) by lia.
    rewrite Z.pow_succ_r by lia. lia.
  - replace (Z.succ (Z.pos (digits2_pos q)) - 1)
      with (Z.succ (Z.pos (digits2_pos q) - 1)) by lia.
    rewrite Z.pow_succ_r by lia. lia.
  - cbn. lia.
Qed.

Lemma digits2_pos_bound (p : positive) :
  Z.pos p < 2 ^ 53 -> Z.pos (digits2_pos p) <= 53.
Proof.
  intros H. pose proof (digits2_pos_lower p) as L.
  destruct (Z_le_gt_dec (Z.pos (digits2_pos p)) 53) as [|G]; [assumption|exfalso].
  assert (2 ^ 53 <= 2 ^ (Z.pos (digits2_pos p) - 1)) by (apply Z.pow_le_mono_r; lia).
  lia.
Qed.

(** Rounding leaves a mantissa that is already in canonical position. *)
Lemma binary_round_aux_canonical (m : positive) (e : Z) :
  fexp64 (Z.pos (digits2_pos m) + e) = e -> e <= 971 ->
  binary_round_aux Number.prec Number.emax false (Z.pos m) e loc_Exact
  = S754_finite false m e.
Proof.
  unfold fexp64, Number.prec, Number.emax. intros C B.
  unfold binary_round_aux, shr_fexp. cbn [Zdigits2].
  rewrite C, Z.sub_diag.
  cbn [shr shr_record_of_loc shr_m loc_of_shr_record round_nearest_even Zdigits2].
  rewrite C, Z.sub_diag.
  cbn [shr shr_record_of_loc shr_m].
  change (1024 - 53) with 971.
  destruct (Z.leb_spec e 971); [reflexivity | lia].
Qed.

(** A positive integer below 2^53 is a finite positive number. *)
Lemma of_Z_pos_finite (p : positive) :
  Z.pos p < 2 ^ 53 -> exists m e, Number.of_Z (Z.pos p) = S754_finite false m e.
Proof.
  intros H. apply digits2_pos_bound in H.
  unfold Number.of_Z, binary_normalize, binary_round.
  set (d := digits2_pos p) in *.
  assert (fexp Number.prec Number.emax (Z.pos d + 0) = Z.pos d - 53) as ->.
  { unfold fexp, emin, Number.prec, Number.emax. lia. }
  unfold shl_align.
  destruct (Z.pos d - 53 - 0) eqn:E; try lia.
  - exists p, 0. apply binary_round_aux_canonical; [|lia].
    fold d. unfold fexp64, fexp, emin, Number.prec, Number.emax. lia.
  - exists (Pos.iter xO p p0), (Z.pos d - 53).
    apply binary_round_aux_canonical; [|lia].
    rewrite digits2_pos_iter_xO. fold d.
    unfold fexp64, fexp, emin, Number.prec, Number.emax. lia.
Qed.

Lemma div_of_nat_self (n : nat) :
  (0 < n)%nat -> Z.of_nat n < 2 ^ 53 ->
  Number.div (Number.of_nat n) (Number.of_nat n) = Number.one.
Proof.
  intros P B. unfold Number.of_nat.
  destruct (Z.of_nat n) as [|p|p] eqn:E; try lia.
  destruct (of_Z_pos_finite p B) as (m & e & ->).
  apply div_self.
Qed.

Lemma mul_one_hundred : Number.mul Number.one Number.hundred = Number.hundred.
Proof. vm_compute. reflexivity. Qed.

(** 100 reaches every passing score of the data model, 0 to 100, and
    the default that replaces a falsy one. *)
Lemma hundred_geb_passing_score (p : Z) :
  0 <= p <= 100 ->
  Number.geb Number.hundred (Number.of_Z (if p =? 0 then 70 else p)) = true.
Proof.
  intros B.
  assert (forallb (fun k => Number.geb Number.hundred
                     (Number.of_Z (if Z.of_nat k =? 0 then 70 else Z.of_nat k)))
                  (seq 0 101) = true) as A by (vm_compute; reflexivity).
  rewrite forallb_forall in A.
  specialize (A (Z.to_nat p)).
  rewrite Z2Nat.id in A by lia.
  apply A. apply in_seq. lia.
Qed.

End Binary64.


(* ================================================================== *)
(** ** The counting loop *)
(* ================================================================== *)

Lemma answered_correctly_iff (answers : list SubmittedAnswer.t) (question : QuizQuestion.t) :
  answered_correctly answers question = true <-> AnsweredCorrectly answers question.
Proof.
  unfold answered_correctly, AnsweredCorrectly. split.
  - destruct (submitted_answer answers question) as [ua|]; [|discriminate].
    destruct (designated_answer question) as [ca|]; [|discriminate].
    destruct (SubmittedAnswer.answerId ua) as [a|] eqn:E; [|discriminate].
    intros H. apply String.eqb_eq in H. subst a.
    exists ua, ca. auto.
  - intros (ua & ca & -> & -> & ->). apply String.eqb_refl.
Qed.

Lemma find_unique {A} (P : A -> bool) (l : list A) (x : A) :
  (forall y y', In y l -> In y' l -> P y = true -> P y' = true -> y = y') ->
  In x l -> P x = true -> find P l = Some x.
Proof.
  intros U I H. destruct (find P l) as [y|] eqn:F.
  - apply find_some in F. destruct F as [Iy Py]. f_equal. apply U; assumption.
  - rewrite (find_none _ _ F x I) in H. discriminate.
Qed.

(** Where a question has one answer flagged is_correct and the submission
    one entry for the question, "the" submitted answer and "the" correct
    answer are these, wherever they stand in their lists. *)
Lemma AnsweredCorrectly_unique answers question quiz_answers :
  QuizQuestion.quiz_answers question = Some quiz_answers ->
  (forall a a', In a quiz_answers -> In a' quiz_answers ->
                QuizAnswer.is_correct a = true -> QuizAnswer.is_correct a' = true -> a = a') ->
  (forall u u', In u answers -> In u' answers ->
                SubmittedAnswer.questionId u = QuizQuestion.id question ->
                SubmittedAnswer.questionId u' = QuizQuestion.id question -> u = u') ->
  AnsweredCorrectly answers question <->
  exists userAnswer correctAnswer,
    In userAnswer answers /\
    SubmittedAnswer.questionId userAnswer = QuizQuestion.id question /\
    In correctAnswer quiz_answers /\
    QuizAnswer.is_correct correctAnswer = true /\
    SubmittedAnswer.answerId userAnswer = Some (QuizAnswer.id correctAnswer).
Proof.
  intros Q Ua Us. unfold AnsweredCorrectly, submitted_answer, designated_answer.
  rewrite Q. split.
  - intros (ua & ca & Fu & Fc & E).
    apply find_some in Fu. destruct Fu as [Iu Pu]. apply String.eqb_eq in Pu.
    apply find_some in Fc. destruct Fc as [Ic Pc].
    exists ua, ca. auto.
  - intros (ua & ca & Iu & Pu & Ic & Pc & E).
    exists ua, ca. repeat split; trivial.
    + apply find_unique; trivial.
      * intros y y' Iy Iy' Py Py'. apply String.eqb_eq in Py, Py'. apply Us; assumption.
      * apply String.eqb_eq. exact Pu.
    + apply find_unique; trivial.
Qed.

(** One turn of the loop adds one exactly for a question answered
    correctly. *)
Lemma forEach_body_step answers correctAnswers question :
  forEach_body answers correctAnswers question =
  if answered_correctly answers question then S correctAnswers else correctAnswers.
Proof.
  unfold forEach_body, answered_correctly, submitted_answer, designated_answer, answerId_is.
  destruct (find _ answers) as [ua|]; [|reflexivity].
  destruct (QuizQuestion.quiz_answers question) as [l|]; [|reflexivity].
  destruct (find QuizAnswer.is_correct l) as [ca|]; reflexivity.
Qed.

Lemma forEach_counts answers questions :
  forall correctAnswers,
    fold_left (forEach_body answers) questions correctAnswers =
    (correctAnswers + correct_count answers questions)%nat.
Proof.
  unfold correct_count.
  induction questions as [|q qs IH]; intros c; cbn [fold_left filter].
  - cbn. lia.
  - rewrite IH, forEach_body_step.
    destruct (answered_correctly answers q); cbn [List.length]; lia.
Qed.

Lemma correctAnswers_of_count quiz answers :
  correctAnswers_of quiz answers = correct_count answers (questions_of quiz).
Proof.
  unfold correctAnswers_of, questions_of.
  destruct (Quiz.quiz_questions quiz); [|reflexivity].
  apply forEach_counts.
Qed.

Lemma totalQuestions_of_length quiz :
  totalQuestions_of quiz = List.length (questions_of quiz).
Proof. unfold totalQuestions_of, questions_of. destruct (Quiz.quiz_questions quiz); reflexivity. Qed.

Lemma correct_count_all answers questions :
  (forall q, In q questions -> AnsweredCorrectly answers q) ->
  correct_count answers questions = List.length questions.
Proof.
  intros H. unfold correct_count.
  induction questions as [|q qs IH]; [reflexivity|].
  cbn [filter].
  assert (answered_correctly answers q = true) as ->
    by (apply answered_correctly_iff, H; left; reflexivity).
  cbn [List.length]. f_equal. apply IH. intros q' I. apply H. right. exact I.
Qed.

(* ================================================================== *)
(** ** Requests and what they leave of the world *)
(* ================================================================== *)

(** A request fails on its scheduled fault, or runs on the world once
    the schedule moved on. *)
Lemma request_cases {T} (run : World -> Response T * World) (w : World) :
  (exists e rest, faults w = Some e :: rest /\
                  request run w = (Failure e, Supabase.with_faults rest w)) \/
  (exists rest, faults w = None :: rest /\
                request run w = run (Supabase.with_faults rest w)) \/
  (faults w = [] /\ request run w = run w).
Proof.
  unfold request. destruct (faults w) as [|[e|] rest].
  - right. right. auto.
  - left. exists e, rest. auto.
  - right. left. exists rest. auto.
Qed.

(** Case analysis on the fault a request meets. *)
Ltac by_request_cases :=
  match goal with
  | |- context [request ?run ?w] =>
      destruct (request_cases run w)
        as [(? & ? & _ & ->) | [(? & _ & ->) | (_ & ->)]]
  end.

Lemma select_quiz_tables quizId w r w' :
  select_quiz quizId w = (r, w') ->
  same_tables w w' /\ uuid_counter w' = uuid_counter w /\ clock w' = clock w.
Proof.
  unfold select_quiz, same_tables.
  by_request_cases;
    intros [= <- <-]; cbn; auto 10.
Qed.

Lemma select_quiz_success quizId w quiz w' :
  select_quiz quizId w = (Success quiz, w') ->
  exists z, filter (fun z => strict_eq (Quiz.id z) quizId) (quizzes w) = [z] /\
            quiz = embed_quiz_questions w' z.
Proof.
  unfold select_quiz.
  by_request_cases; [discriminate| |].
  - cbn [quizzes Supabase.with_faults].
    destruct (filter _ (quizzes w)) as [|z [|z' l]]; cbn; intros [= <- <-]; eauto.
  - destruct (filter _ (quizzes w)) as [|z [|z' l]]; cbn; intros [= <- <-]; eauto.
Qed.

Lemma select_previous_attempts_inv userId quizId w r w' :
  select_previous_attempts userId quizId w = (r, w') ->
  (same_tables w w' /\ uuid_counter w' = uuid_counter w /\ clock w' = clock w) /\
  (data_of r = None \/
   data_of r = Some (firstn 1 (order_desc (map UserQuizResult.attempt_number
                                               (attempts_of userId quizId w))))).
Proof.
  unfold select_previous_attempts, same_tables.
  by_request_cases;
    intros [= <- <-]; cbn; auto 10.
Qed.

Lemma insert_user_quiz_result_success row w r w' :
  insert_user_quiz_result row w = (Success r, w') ->
  r = row (uuid_generate_v4 (uuid_counter w)) /\
  user_quiz_results w' = (user_quiz_results w ++ [r])%list /\
  formations w' = formations w /\ quizzes w' = quizzes w /\
  quiz_questions w' = quiz_questions w /\ quiz_answers w' = quiz_answers w.
Proof.
  unfold insert_user_quiz_result.
  by_request_cases; [discriminate| |];
    cbn; intros [= <- <-]; cbn; auto 10.
Qed.

Lemma insert_user_quiz_result_failure row w e w' :
  insert_user_quiz_result row w = (Failure e, w') -> same_tables w w'.
Proof.
  unfold insert_user_quiz_result, same_tables.
  by_request_cases;
    cbn; intros [= <- <-] || intros [=]; cbn; auto 10.
Qed.

Lemma bind_eq {A B} (c : M A) (k : A -> M B) (w : World) :
  bind c k w = match c w with
               | (inl e, w') => (inl e, w')
               | (inr a, w') => k a w'
               end.
Proof. reflexivity. Qed.

(** [getQuizById] never throws: it answers with the quiz or with null. *)
Lemma getQuizById_eq quizId w :
  FormationService.getQuizById quizId w =
  (inr (data_of (fst (select_quiz quizId w))), snd (select_quiz quizId w)).
Proof.
  unfold FormationService.getQuizById, bind, await, ret.
  destruct (select_quiz quizId w) as [[quiz|e] w1]; reflexivity.
Qed.

(** The shape of every submission that records a row. *)
Lemma submitQuizResult_inr userId quizId answers timeSpent w w' result :
  FormationService.submitQuizResult userId quizId answers timeSpent w = (inr result, w') ->
  exists quiz w1 previousAttempts,
    FormationService.getQuizById quizId w = (inr (Some quiz), w1) /\
    (previousAttempts = None \/
     previousAttempts = Some (firstn 1 (order_desc (map UserQuizResult.attempt_number
                                                         (attempts_of userId quizId w))))) /\
    result = UserQuizResult.mk (UserQuizResult.id result) userId quizId
               (score_of (correctAnswers_of quiz answers) (totalQuestions_of quiz))
               (totalQuestions_of quiz) (correctAnswers_of quiz answers) timeSpent
               (passed_of quiz (score_of (correctAnswers_of quiz answers) (totalQuestions_of quiz)))
               (FormationService.attemptNumber_of previousAttempts) answers /\
    user_quiz_results w' = (user_quiz_results w ++ [result])%list.
Proof.
  unfold FormationService.submitQuizResult.
  unfold bind at 1. rewrite getQuizById_eq.
  destruct (select_quiz quizId w) as [[quiz|e] w1] eqn:Q; cbn [fst snd data_of];
    [|unfold throw; discriminate].
  unfold bind, await, ret, throw.
  destruct (select_previous_attempts userId quizId w1) as [previous w2] eqn:P.
  destruct (insert_user_quiz_result _ w2) as [[r|e] w3] eqn:I; [|discriminate].
  intros [= <- <-].
  destruct (select_quiz_tables _ _ _ _ Q) as ((_ & _ & _ & _ & R1) & _ & _).
  destruct (select_previous_attempts_inv _ _ _ _ _ P) as (((_ & _ & _ & _ & R2) & _ & _) & D).
  destruct (insert_user_quiz_result_success _ _ _ _ I) as (E & R3 & _).
  exists quiz, w1, (data_of previous). repeat split.
  - unfold attempts_of in *. rewrite R1 in D. exact D.
  - rewrite E. reflexivity.
  - rewrite R3, R2, R1. reflexivity.
Qed.

(* ================================================================== *)
(** ** Score and passed flag of a submission *)
(* ================================================================== *)

(** The quiz a recording submission scored is the one [getQuizById]
    returned. *)
Lemma submitQuizResult_scored userId quizId answers timeSpent w w' result quiz w1 :
  FormationService.submitQuizResult userId quizId answers timeSpent w = (inr result, w') ->
  FormationService.getQuizById quizId w = (inr (Some quiz), w1) ->
  UserQuizResult.total_questions result = totalQuestions_of quiz /\
  UserQuizResult.correct_answers result = correctAnswers_of quiz answers /\
  UserQuizResult.score result =
    score_of (correctAnswers_of quiz answers) (totalQuestions_of quiz) /\
  UserQuizResult.passed result = passed_of quiz (UserQuizResult.score result) /\
  In result (user_quiz_results w').
Proof.
  intros S G.
  destruct (submitQuizResult_inr _ _ _ _ _ _ _ S) as (quiz' & w1' & prev & G' & _ & E & R).
  rewrite G in G'. injection G' as -> _.
  rewrite E at 1 2 3 4 5. cbn. repeat split.
  rewrite R. apply in_or_app. right. left. reflexivity.
Qed.

(** With no fault scheduled, a submission on a quiz that exists records
    its row. *)
Lemma submitQuizResult_records userId quizId answers timeSpent w z :
  faults w = [] ->
  filter (fun q => strict_eq (Quiz.id q) quizId) (quizzes w) = [z] ->
  exists result,
    FormationService.submitQuizResult userId quizId answers timeSpent w =
    (inr result,
     Supabase.with_uuid_counter (S (uuid_counter w))
       (Supabase.with_user_quiz_results (user_quiz_results w ++ [result]) w)) /\
    UserQuizResult.attempt_number result =
      FormationService.attemptNumber_of
        (Some (firstn 1 (order_desc (map UserQuizResult.attempt_number
                                         (attempts_of userId quizId w))))).
Proof.
  intros F Q.
  unfold FormationService.submitQuizResult, FormationService.getQuizById, bind, await, ret,
    select_quiz, select_previous_attempts, insert_user_quiz_result, request.
  rewrite F, Q. cbn [single map]. rewrite F. cbn [data_of]. rewrite F.
  eexists. split; reflexivity.
Qed.

(** C1. For every quiz submission, the score recorded by submitQuizResult
    is correct_answers / total_questions × 100 (evaluated in binary64, as
    the program does), where total_questions is the number of questions of
    the quiz and correct_answers the number of questions whose submitted
    answerId is the id of the question's answer flagged is_correct; with no
    question the score is 0. *)
Theorem submitQuizResult_score userId quizId answers timeSpent w w' result quiz w1 :
  FormationService.submitQuizResult userId quizId answers timeSpent w = (inr result, w') ->
  FormationService.getQuizById quizId w = (inr (Some quiz), w1) ->
  In result (user_quiz_results w') /\
  UserQuizResult.total_questions result = List.length (questions_of quiz) /\
  UserQuizResult.correct_answers result = correct_count answers (questions_of quiz) /\
  UserQuizResult.score result =
    if (UserQuizResult.total_questions result =? 0)%nat
    then Number.of_Z 0
    else Number.mul
           (Number.div (Number.of_nat (UserQuizResult.correct_answers result))
                       (Number.of_nat (UserQuizResult.total_questions result)))
           Number.hundred.
Proof.
  intros S G.
  destruct (submitQuizResult_scored _ _ _ _ _ _ _ _ _ S G) as (T & C & Sc & _ & I).
  rewrite Sc, T, C. repeat split; trivial.
  - apply totalQuestions_of_length.
  - apply correctAnswers_of_count.
  - unfold score_of. destruct (totalQuestions_of quiz); reflexivity.
Qed.

Lemma submitQuizResult_score_witness :
  In Sample.row_one_of_two (user_quiz_results (snd Sample.run_one_of_two)) /\
  UserQuizResult.total_questions Sample.row_one_of_two
    = List.length (questions_of Sample.fetched_z1) /\
  UserQuizResult.correct_answers Sample.row_one_of_two
    = correct_count Sample.one_of_two (questions_of Sample.fetched_z1) /\
  UserQuizResult.score Sample.row_one_of_two =
    if (UserQuizResult.total_questions Sample.row_one_of_two =? 0)%nat
    then Number.of_Z 0
    else Number.mul
           (Number.div (Number.of_nat (UserQuizResult.correct_answers Sample.row_one_of_two))
                       (Number.of_nat (UserQuizResult.total_questions Sample.row_one_of_two)))
           Number.hundred.
Proof.
  apply (submitQuizResult_score "u1" "z1" Sample.one_of_two None Sample.world
           (snd Sample.run_one_of_two) Sample.row_one_of_two Sample.fetched_z1 Sample.world);
    vm_compute; reflexivity.
Defined.

(** The worked example of the specification: two questions of equal
    weight, passing score 70. *)
Example one_of_two_scores_50 :
  fst Sample.run_one_of_two = inr Sample.row_one_of_two /\
  UserQuizResult.score Sample.row_one_of_two = Number.of_Z 50 /\
  UserQuizResult.passed Sample.row_one_of_two = false.
Proof. vm_compute. auto. Qed.

Example two_of_two_scores_100 :
  fst Sample.run_two_of_two = inr Sample.row_two_of_two /\
  UserQuizResult.score Sample.row_two_of_two = Number.of_Z 100 /\
  UserQuizResult.passed Sample.row_two_of_two = true.
Proof. vm_compute. auto. Qed.

(** The quotient is rounded before it is multiplied: 29 right answers out
    of 100 score just below 29. *)
Example score_29_of_100_rounds_down :
  score_of 29 100 = S754_finite false 8162774324609023 (-48) /\
  Number.of_Z 29 = S754_finite false 8162774324609024 (-48) /\
  Number.geb (score_of 29 100) (Number.of_Z 29) = false.
Proof. vm_compute. auto. Qed.

(** The threshold the flag is compared with. *)
Lemma submitQuizResult_passed userId quizId answers timeSpent w w' result quiz w1 :
  FormationService.submitQuizResult userId quizId answers timeSpent w = (inr result, w') ->
  FormationService.getQuizById quizId w = (inr (Some quiz), w1) ->
  UserQuizResult.passed result =
    Number.geb (UserQuizResult.score result)
               (Number.of_Z (match Quiz.passing_score quiz with
                             | Some 0 | None => 70
                             | Some p => p
                             end)).
Proof.
  intros S G.
  destruct (submitQuizResult_scored _ _ _ _ _ _ _ _ _ S G) as (_ & _ & _ & P & _).
  rewrite P. unfold passed_of, passing_score_or_default.
  destruct (Quiz.passing_score quiz) as [[|p|p]|]; reflexivity.
Qed.

(** C2. The passed flag is compared with [quiz.passing_score || 70]: on a
    quiz whose passing_score is 0 and that has no question, the score 0
    reaches the passing score 0, and the recorded flag is false. *)
Theorem submitQuizResult_passing_score_zero :
  exists quiz w1 result w',
    FormationService.getQuizById "z0" Sample.world = (inr (Some quiz), w1) /\
    Quiz.passing_score quiz = Some 0 /\
    questions_of quiz = [] /\
    FormationService.submitQuizResult "u1" "z0" [] None Sample.world = (inr result, w') /\
    UserQuizResult.score result = Number.of_Z 0 /\
    Number.geb (UserQuizResult.score result) (Number.of_Z 0) = true /\
    UserQuizResult.passed result = false.
Proof. do 4 eexists. vm_compute. repeat split. Qed.

(** C3, as stated, fails on a quiz without questions: every question of
    it is answered correctly, vacuously, and the guard against the
    division by zero records the score 0 and the flag false. *)
Lemma all_correct_on_empty_quiz :
  exists quiz w1 result w',
    FormationService.getQuizById "z4" Sample.world = (inr (Some quiz), w1) /\
    (forall q, In q (questions_of quiz) -> AnsweredCorrectly [] q) /\
    FormationService.submitQuizResult "u1" "z4" [] None Sample.world = (inr result, w') /\
    UserQuizResult.score result = Number.of_Z 0 /\
    UserQuizResult.score result <> Number.hundred /\
    UserQuizResult.passed result = false.
Proof.
  do 4 eexists. vm_compute. repeat split.
  - intros q [].
  - discriminate.
Qed.

(** C3, amended. For every quiz with at least one question (an array
    holds fewer than 2^32 of them) and a passing_score that is absent or
    within 0..100, and every submission in which every question of the
    quiz maps to a submitted answer whose answerId is that question's
    designated correct answer, the recorded result has score = 100 and
    passed = true. *)
Theorem all_correct_scores_100 userId quizId answers timeSpent w w' result quiz w1 :
  FormationService.submitQuizResult userId quizId answers timeSpent w = (inr result, w') ->
  FormationService.getQuizById quizId w = (inr (Some quiz), w1) ->
  questions_of quiz <> [] ->
  Z.of_nat (List.length (questions_of quiz)) < 2 ^ 32 ->
  (forall p, Quiz.passing_score quiz = Some p -> 0 <= p <= 100) ->
  (forall q, In q (questions_of quiz) -> AnsweredCorrectly answers q) ->
  UserQuizResult.score result = Number.hundred /\
  UserQuizResult.passed result = true.
Proof.
  intros S G NE B P A.
  destruct (submitQuizResult_scored _ _ _ _ _ _ _ _ _ S G) as (_ & _ & Sc & Pa & _).
  assert (UserQuizResult.score result = Number.hundred) as H.
  { rewrite Sc, correctAnswers_of_count, totalQuestions_of_length.
    rewrite (correct_count_all _ _ A).
    unfold score_of.
    destruct (questions_of quiz) as [|q qs] eqn:E; [congruence|].
    cbn [List.length Nat.ltb Nat.leb].
    rewrite div_of_nat_self.
    - apply mul_one_hundred.
    - lia.
    - cbn [List.length] in B.
      assert (2 ^ 32 < 2 ^ 53) by (apply Z.pow_lt_mono_r; lia). lia. }
  split; [exact H|].
  rewrite Pa, H. unfold passed_of, passing_score_or_default.
  destruct (Quiz.passing_score quiz) as [p|] eqn:E.
  - apply hundred_geb_passing_score. apply P. reflexivity.
  - vm_compute. reflexivity.
Qed.

Lemma all_correct_scores_100_witness :
  UserQuizResult.score Sample.row_two_of_two = Number.hundred /\
  UserQuizResult.passed Sample.row_two_of_two = true.
Proof.
  apply (all_correct_scores_100 "u1" "z1" Sample.two_of_two None Sample.world
           (snd Sample.run_two_of_two) Sample.row_two_of_two Sample.fetched_z1 Sample.world).
  - vm_compute. reflexivity.
  - vm_compute. reflexivity.
  - vm_compute. discriminate.
  - vm_compute. reflexivity.
  - intros p [= <-]. lia.
  - intros q I. apply answered_correctly_iff.
    vm_compute in I. destruct I as [<- | [<- | []]]; vm_compute; reflexivity.
Defined.

(* ================================================================== *)
(** ** What the scoring does not read *)
(* ================================================================== *)

Lemma submitted_answer_retext (retext : SubmittedAnswer.t -> option string) answers question :
  submitted_answer (map (fun a => SubmittedAnswer.with_textAnswer (retext a) a) answers) question
  = option_map (fun a => SubmittedAnswer.with_textAnswer (retext a) a)
               (submitted_answer answers question).
Proof.
  unfold submitted_answer.
  induction answers as [|a l IH]; [reflexivity|].
  cbn [map find SubmittedAnswer.with_textAnswer SubmittedAnswer.questionId].
  destruct (strict_eq (SubmittedAnswer.questionId a) (QuizQuestion.id question));
    [reflexivity | exact IH].
Qed.

Lemma answered_correctly_retext (retext : SubmittedAnswer.t -> option string) answers question :
  answered_correctly (map (fun a => SubmittedAnswer.with_textAnswer (retext a) a) answers) question
  = answered_correctly answers question.
Proof.
  unfold answered_correctly. rewrite submitted_answer_retext.
  destruct (submitted_answer answers question) as [ua|]; reflexivity.
Qed.

(** C5, as stated, fails: a question of type text has answers like any
    other (the authoring schema requires at least one), and a submission
    that carries the id of the one flagged is_correct is counted. *)
Lemma text_question_counted :
  exists quiz w1 question result w',
    FormationService.getQuizById "z3" Sample.world = (inr (Some quiz), w1) /\
    questions_of quiz = [question] /\
    QuizQuestion.question_type question = text /\
    FormationService.submitQuizResult "u1" "z3" Sample.text_with_answerId None Sample.world
      = (inr result, w') /\
    UserQuizResult.correct_answers result = 1%nat /\
    UserQuizResult.score result = Number.hundred.
Proof. do 5 eexists. vm_compute. repeat split. Qed.

(** The count of a submission in which no text question carries an
    answerId: the other questions answered correctly. *)
Lemma correctAnswers_of_without_text
    (quiz : Quiz.t) (answers : list SubmittedAnswer.t)
    (retext : SubmittedAnswer.t -> option string) :
  (forall q ua, In q (questions_of quiz) -> is_text q = true ->
                submitted_answer answers q = Some ua ->
                SubmittedAnswer.answerId ua = None) ->
  correctAnswers_of quiz
    (map (fun a => SubmittedAnswer.with_textAnswer (retext a) a) answers)
  = List.length (filter (fun q => negb (is_text q) && answered_correctly answers q)
                        (questions_of quiz)).
Proof.
  intros H. rewrite correctAnswers_of_count. unfold correct_count.
  f_equal. apply filter_ext_in. intros q I.
  rewrite answered_correctly_retext.
  destruct (is_text q) eqn:T; [|reflexivity].
  cbn [negb andb]. unfold answered_correctly.
  destruct (submitted_answer answers q) as [ua|] eqn:U; [|reflexivity].
  rewrite (H q ua I T U).
  destruct (designated_answer q); reflexivity.
Qed.

(** C5, amended. The scoring reads neither question_type nor textAnswer:
    a question of type text whose submitted answer carries no answerId is
    never counted toward correct_answers, whatever textAnswer is
    submitted; the recorded correct_answers is then the number of the
    other questions answered correctly. *)
Theorem text_question_without_answerId_not_counted
    user quizId (answers : list SubmittedAnswer.t)
    (retext : SubmittedAnswer.t -> option string) timeSpent
    (w w' : World) result quiz w1 :
  FormationService.submitQuizResult user quizId
    (map (fun a => SubmittedAnswer.with_textAnswer (retext a) a) answers) timeSpent w
    = (inr result, w') ->
  FormationService.getQuizById quizId w = (inr (Some quiz), w1) ->
  (forall q ua, In q (questions_of quiz) -> is_text q = true ->
                submitted_answer answers q = Some ua ->
                SubmittedAnswer.answerId ua = None) ->
  UserQuizResult.correct_answers result
  = List.length (filter (fun q => negb (is_text q) && answered_correctly answers q)
                        (questions_of quiz)).
Proof.
  intros S G H.
  destruct (submitQuizResult_scored _ _ _ _ _ _ _ _ _ S G) as (_ & C & _).
  rewrite C. apply correctAnswers_of_without_text. exact H.
Qed.

Lemma text_question_without_answerId_not_counted_witness :
  UserQuizResult.correct_answers Sample.row_text_only
  = List.length (filter (fun q => negb (is_text q) && answered_correctly Sample.text_only q)
                        (questions_of Sample.fetched_z3)).
Proof.
  apply (text_question_without_answerId_not_counted "u1" "z3" Sample.text_only
           (fun _ => Some "autre texte") None Sample.world
           (snd Sample.run_text_only) Sample.row_text_only Sample.fetched_z3 Sample.world).
  - vm_compute. reflexivity.
  - vm_compute. reflexivity.
  - intros q ua I _ U. vm_compute in I. destruct I as [<- | []].
    vm_compute in U. injection U as <-. reflexivity.
Defined.

Lemma forEach_body_with_points answers correctAnswers p question :
  forEach_body answers correctAnswers (QuizQuestion.with_points p question)
  = forEach_body answers correctAnswers question.
Proof. reflexivity. Qed.

Lemma filter_map_commute {A} (P : A -> bool) (g : A -> A) (l : list A) :
  (forall x, P (g x) = P x) -> filter P (map g l) = map g (filter P l).
Proof.
  intros H. induction l as [|x l IH]; [reflexivity|].
  cbn [map filter]. rewrite H, IH. destruct (P x); reflexivity.
Qed.

(** The quiz fetched after the points were rewritten scores as before. *)
Lemma embed_quiz_questions_repoint f w z answers :
  let quiz := embed_quiz_questions w z in
  let quiz' := embed_quiz_questions (repoint f w) z in
  correctAnswers_of quiz' answers = correctAnswers_of quiz answers /\
  totalQuestions_of quiz' = totalQuestions_of quiz /\
  Quiz.passing_score quiz' = Quiz.passing_score quiz.
Proof.
  cbn zeta. unfold correctAnswers_of, totalQuestions_of, embed_quiz_questions, repoint.
  cbn [Quiz.with_quiz_questions Quiz.quiz_questions Quiz.passing_score
       quiz_questions Supabase.with_quiz_questions].
  rewrite filter_map_commute by reflexivity.
  rewrite map_map, !length_map.
  repeat split.
  generalize 0%nat.
  induction (filter _ (quiz_questions w)) as [|q l IH]; intros c; [reflexivity|].
  cbn [map fold_left]. rewrite IH. reflexivity.
Qed.

Lemma select_quiz_repoint f quizId w :
  select_quiz quizId (repoint f w) =
  (match fst (select_quiz quizId w) with
   | Success _ =>
       single (map (embed_quiz_questions (repoint f (snd (select_quiz quizId w))))
                   (filter (fun z => strict_eq (Quiz.id z) quizId) (quizzes w)))
   | Failure e => Failure e
   end,
   repoint f (snd (select_quiz quizId w))).
Proof.
  unfold select_quiz, request. cbn [faults repoint Supabase.with_quiz_questions].
  destruct (faults w) as [|[e|] rest];
    cbn [fst snd quizzes Supabase.with_faults repoint Supabase.with_quiz_questions];
    try reflexivity;
    destruct (filter _ (quizzes w)) as [|z [|z' l]]; reflexivity.
Qed.

(** C9. For every quiz and every submission, what submitQuizResult
    records (score and passed flag among the rest) is unchanged under any
    modification of the points of the questions. *)
Theorem submitQuizResult_points_irrelevant
    (f : QuizQuestion.t -> Z) userId quizId answers timeSpent (w : World) :
  fst (FormationService.submitQuizResult userId quizId answers timeSpent (repoint f w))
  = fst (FormationService.submitQuizResult userId quizId answers timeSpent w).
Proof.
  unfold FormationService.submitQuizResult.
  rewrite !bind_eq, !getQuizById_eq, select_quiz_repoint.
  cbn [fst snd].
  destruct (select_quiz quizId w) as [[quiz|e] w1] eqn:Q; cbn [fst snd data_of];
    [|reflexivity].
  destruct (select_quiz_success _ _ _ _ Q) as (z & Fz & ->).
  destruct (select_quiz_tables _ _ _ _ Q) as ((_ & Tz & _) & _).
  rewrite Fz. cbn [map single data_of].
  destruct (embed_quiz_questions_repoint f w1 z answers) as (C & T & P).
  unfold passed_of, passing_score_or_default. rewrite C, T, P.
  generalize (embed_quiz_questions w1 z). intros quiz.
  clear. destruct w1 as [fo qz qq qa ur uc fl ck nw].
  unfold bind, await, ret, throw, select_previous_attempts, insert_user_quiz_result,
    request, repoint.
  cbn [faults Supabase.with_quiz_questions Supabase.with_faults].
  destruct fl as [|[e|] [|[e'|] rest]]; reflexivity.
Qed.

(* ================================================================== *)
(** ** A quiz that cannot be found *)
(* ================================================================== *)

Lemma filter_none {A} (P : A -> bool) (l : list A) :
  (forall x, In x l -> P x = false) -> filter P l = [].
Proof.
  intros H. induction l as [|x l IH]; [reflexivity|].
  cbn [filter]. rewrite H by (left; reflexivity).
  apply IH. intros y I. apply H. right. exact I.
Qed.

Lemma select_quiz_absent quizId w :
  (forall z, In z (quizzes w) -> Quiz.id z <> quizId) ->
  data_of (fst (select_quiz quizId w)) = None /\
  same_tables w (snd (select_quiz quizId w)).
Proof.
  intros H.
  assert (filter (fun z => strict_eq (Quiz.id z) quizId) (quizzes w) = []) as E.
  { apply filter_none. intros z I. apply String.eqb_neq. apply H. exact I. }
  unfold select_quiz, request, same_tables.
  destruct (faults w) as [|[e|] rest];
    cbn [quizzes Supabase.with_faults]; rewrite ?E; cbn; auto 10.
Qed.

(** C10. For every submission whose quizId does not resolve to an
    existing quiz, submitQuizResult throws 'Quiz non trouvé' before any
    scoring or insertion: the tables are unchanged, no row is added to
    user_quiz_results, and the request layer answers 500, not 404. *)
Theorem submitQuizResult_quiz_not_found
    user quizId organization answers timeSpent (w : World) :
  (forall z, In z (quizzes w) -> Quiz.id z <> quizId) ->
  exists w',
    FormationService.submitQuizResult user quizId answers timeSpent w
      = (inl (Error "Quiz non trouvé"), w') /\
    same_tables w w' /\
    user_quiz_results w' = user_quiz_results w /\
    FormationController.submitQuiz
      (mkRequest quizId user organization (inr (SubmitQuizDTO.mk answers timeSpent))) w
      = (mkHttp 500 false None "Quiz non trouvé" [], w').
Proof.
  intros H. destruct (select_quiz_absent quizId w H) as (D & T).
  exists (snd (select_quiz quizId w)).
  assert (FormationService.submitQuizResult user quizId answers timeSpent w
          = (inl (Error "Quiz non trouvé"), snd (select_quiz quizId w))) as S.
  { unfold FormationService.submitQuizResult.
    rewrite bind_eq, getQuizById_eq, D. reflexivity. }
  repeat split; try apply T; [exact S|].
  unfold FormationController.submitQuiz, FormationController.try_catch,
    FormationController.parse.
  cbn [body]. rewrite bind_eq. cbn [ret]. rewrite bind_eq.
  cbn [SubmitQuizDTO.answers SubmitQuizDTO.timeSpent userId param].
  rewrite S. reflexivity.
Qed.

Lemma submitQuizResult_quiz_not_found_witness :
  exists w',
    FormationService.submitQuizResult "u1" "inconnu" Sample.two_of_two None Sample.world
      = (inl (Error "Quiz non trouvé"), w') /\
    same_tables Sample.world w' /\
    user_quiz_results w' = user_quiz_results Sample.world /\
    FormationController.submitQuiz
      (mkRequest "inconnu" "u1" "o1" (inr (SubmitQuizDTO.mk Sample.two_of_two None)))
      Sample.world
      = (mkHttp 500 false None "Quiz non trouvé" [], w').
Proof.
  apply (submitQuizResult_quiz_not_found "u1" "inconnu" "o1" Sample.two_of_two None
           Sample.world).
  intros z I. vm_compute in I.
  destruct I as [<- | [<- | [<- | [<- | []]]]]; vm_compute; discriminate.
Defined.

(* ================================================================== *)
(** ** Fetching a formation *)
(* ================================================================== *)

Lemma select_formation_tables formationId w :
  same_tables w (snd (select_formation formationId w)).
Proof.
  unfold select_formation, request, same_tables.
  destruct (faults w) as [|[e|] rest]; cbn; auto 10.
Qed.

(** C6, as stated, fails: with the formation stored and the database
    unreachable, the service throws nothing and returns null, and the
    request layer answers 404 with the message of a formation that does
    not exist, exactly as it does for an identifier that is not stored. *)
Lemma persistence_failure_answers_404 :
  In Sample.f1 (formations Sample.unreachable) /\
  fst (select_formation "f1" Sample.unreachable)
    = Failure {| message := "connection refused" |} /\
  fst (FormationService.getFormationById "f1" Sample.unreachable) = inr None /\
  fst (FormationController.getFormationById (mkRequest "f1" "u1" "o1" (inr tt))
         Sample.unreachable)
    = mkHttp 404 false None "Formation non trouvée" [] /\
  fst (FormationController.getFormationById (mkRequest "inconnue" "u1" "o1" (inr tt))
         Sample.world)
    = mkHttp 404 false None "Formation non trouvée" [].
Proof. vm_compute. auto 10. Qed.

(** C6, amended. For every fetch of a formation by id, the service throws
    nothing: a formation that is not found and a persistence failure
    during the fetch both yield a null result, which the request layer maps
    to HTTP 404; the underlying message is logged, not carried, and the two
    outcomes are not distinguished.  A formation that is found is answered
    with 200. *)
Theorem getFormationById_null_on_any_error formationId userId organization (w : World) :
  let response := fst (select_formation formationId w) in
  let w' := snd (select_formation formationId w) in
  FormationService.getFormationById formationId w = (inr (data_of response), w') /\
  (forall error, response = Failure error -> data_of response = None) /\
  same_tables w w' /\
  FormationController.getFormationById (mkRequest formationId userId organization (inr tt)) w
  = (match data_of response with
     | Some formation =>
         mkHttp 200 true (Some formation) "Formation récupérée avec succès" []
     | None => mkHttp 404 false None "Formation non trouvée" []
     end, w').
Proof.
  cbn zeta.
  assert (FormationService.getFormationById formationId w
          = (inr (data_of (fst (select_formation formationId w))),
             snd (select_formation formationId w))) as S.
  { unfold FormationService.getFormationById, bind, await, ret.
    destruct (select_formation formationId w) as [[f|e] w1]; reflexivity. }
  repeat split; try apply select_formation_tables; [exact S | intros e ->; reflexivity |].
  unfold FormationController.getFormationById, FormationController.try_catch.
  cbn [param]. rewrite bind_eq, S.
  destruct (data_of (fst (select_formation formationId w))); reflexivity.
Qed.

(* ================================================================== *)
(** ** Attempt numbers *)
(* ================================================================== *)

Lemma firstn_1_insert_desc (a : Z) (l : list Z) :
  firstn 1 (insert_desc a l) = [match l with [] => a | b :: _ => Z.max a b end].
Proof.
  destruct l as [|b l]; [reflexivity|].
  cbn [insert_desc]. destruct (Z.leb_spec b a); cbn [firstn]; f_equal; lia.
Qed.

(** The first row of the descending order carries the highest number. *)
Lemma firstn_1_order_desc (l : list Z) :
  firstn 1 (order_desc l) = match highest l with Some h => [h] | None => [] end.
Proof.
  induction l as [|a l IH]; [reflexivity|].
  cbn [order_desc fold_right highest]. fold (order_desc l).
  rewrite firstn_1_insert_desc.
  destruct (order_desc l) as [|b s]; destruct (highest l) as [h|];
    cbn [firstn] in IH; try discriminate; [reflexivity|].
  injection IH as ->. reflexivity.
Qed.

Lemma attemptNumber_of_highest (l : list Z) :
  FormationService.attemptNumber_of (Some (firstn 1 (order_desc l)))
  = match highest l with Some h => h + 1 | None => 1 end.
Proof. rewrite firstn_1_order_desc. destruct (highest l); reflexivity. Qed.

Lemma highest_app (l : list Z) (x : Z) :
  highest (l ++ [x]) = Some (match highest l with Some h => Z.max h x | None => x end).
Proof.
  induction l as [|a l IH]; [reflexivity|].
  cbn [app highest]. rewrite IH. f_equal.
  destruct (highest l); lia.
Qed.

(** What a submission does when no fault is scheduled: it records one row
    and changes nothing else, or throws and changes nothing. *)
Lemma submitQuizResult_no_fault user quiz answers timeSpent (w : World) :
  faults w = [] ->
  (exists z result,
     filter (fun q => strict_eq (Quiz.id q) quiz) (quizzes w) = [z] /\
     FormationService.submitQuizResult user quiz answers timeSpent w =
       (inr result,
        Supabase.with_uuid_counter (S (uuid_counter w))
          (Supabase.with_user_quiz_results (user_quiz_results w ++ [result]) w)) /\
     UserQuizResult.user_id result = user /\
     UserQuizResult.quiz_id result = quiz /\
     UserQuizResult.attempt_number result =
       match highest_attempt user quiz w with Some h => h + 1 | None => 1 end)
  \/
  (filter (fun q => strict_eq (Quiz.id q) quiz) (quizzes w) <>
     [hd Sample.z1 (filter (fun q => strict_eq (Quiz.id q) quiz) (quizzes w))] /\
   FormationService.submitQuizResult user quiz answers timeSpent w
     = (inl (Error "Quiz non trouvé"), w)).
Proof.
  intros F.
  destruct (filter (fun q => strict_eq (Quiz.id q) quiz) (quizzes w))
    as [|z [|z' l]] eqn:Q.
  - right. split; [discriminate|].
    unfold FormationService.submitQuizResult, FormationService.getQuizById, bind, await,
      ret, select_quiz, request.
    rewrite F, Q. reflexivity.
  - left. exists z.
    unfold FormationService.submitQuizResult, FormationService.getQuizById, bind, await,
      ret, select_quiz, select_previous_attempts, insert_user_quiz_result, request.
    rewrite F, Q. cbn [single map]. rewrite F. cbn [data_of]. rewrite F.
    eexists. split; [reflexivity|]. split; [reflexivity|].
    cbn [UserQuizResult.user_id UserQuizResult.quiz_id UserQuizResult.attempt_number].
    repeat split. apply attemptNumber_of_highest.
  - right. split; [discriminate|].
    unfold FormationService.submitQuizResult, FormationService.getQuizById, bind, await,
      ret, select_quiz, request.
    rewrite F, Q. reflexivity.
Qed.

Lemma attempts_of_append user quiz (w : World) (r : UserQuizResult.t) n :
  attempts_of user quiz
    (Supabase.with_uuid_counter n
       (Supabase.with_user_quiz_results (user_quiz_results w ++ [r]) w))
  = (attempts_of user quiz w ++
     if strict_eq (UserQuizResult.user_id r) user && strict_eq (UserQuizResult.quiz_id r) quiz
     then [r] else [])%list.
Proof.
  unfold attempts_of.
  cbn [user_quiz_results Supabase.with_uuid_counter Supabase.with_user_quiz_results].
  rewrite filter_app. cbn [filter].
  destruct (_ && _); reflexivity.
Qed.

(** From a state in which the highest attempt number of the user on the
    quiz is the number of their rows, the coming submissions are numbered
    from there on. *)
Lemma submit_all_numbers user quiz z (trace : list Submission) :
  forall w : World,
    faults w = [] ->
    filter (fun q => strict_eq (Quiz.id q) quiz) (quizzes w) = [z] ->
    highest_attempt user quiz w
      = match List.length (attempts_of user quiz w) with
        | O => None
        | S k => Some (Z.of_nat (S k))
        end ->
    attempts_logged user quiz (fst (submit_all trace w))
    = map (fun n => Some (Z.of_nat n))
          (seq (S (List.length (attempts_of user quiz w)))
               (List.length (filter (is_submission_of user quiz) trace))).
Proof.
  induction trace as [|s rest IH]; intros w F Q H; [reflexivity|].
  cbn [submit_all filter].
  destruct (submitQuizResult_no_fault (by_user s) (on_quiz s) (with_answers s) (in_time s) w F)
    as [(z' & result & Q' & -> & U & Qz & A) | (N & ->)].
  - set (w1 := Supabase.with_uuid_counter _ _).
    specialize (IH w1 F Q).
    destruct (submit_all rest w1) as [log w2] eqn:R. cbn [fst] in *.
    unfold attempts_logged in *. cbn [filter fst snd].
    unfold w1 in IH. rewrite attempts_of_append in IH.
    unfold highest_attempt in IH. rewrite attempts_of_append in IH.
    rewrite U, Qz in IH. fold (is_submission_of user quiz s) in IH.
    destruct (is_submission_of user quiz s) eqn:I.
    + unfold is_submission_of in I. apply andb_prop in I. destruct I as [I1 I2].
      apply String.eqb_eq in I1, I2. rewrite I1, I2 in A.
      cbn [map List.length seq fst snd].
      unfold highest_attempt in *.
      f_equal.
      * rewrite A, H. f_equal.
        destruct (List.length (attempts_of user quiz w)); lia.
      * rewrite length_app in IH. cbn [List.length] in IH. rewrite Nat.add_1_r in IH.
        apply IH. rewrite map_app. cbn [map]. rewrite highest_app, A, H. f_equal.
        destruct (List.length (attempts_of user quiz w)); lia.
    + rewrite app_nil_r in IH. apply IH. exact H.
  - specialize (IH w F Q H).
    destruct (submit_all rest w) as [log w2] eqn:R. cbn [fst] in *.
    unfold attempts_logged in *. cbn [filter fst snd].
    destruct (is_submission_of user quiz s) eqn:I; [|exact IH].
    exfalso. unfold is_submission_of in I. apply andb_prop in I. destruct I as [_ I2].
    apply String.eqb_eq in I2. rewrite I2, Q in N. apply N. reflexivity.
Qed.

(** The number a recorded row carries, under any schedule of faults. *)
Lemma submitQuizResult_attempt_number user quiz answers timeSpent (w w' : World) result :
  FormationService.submitQuizResult user quiz answers timeSpent w = (inr result, w') ->
  In result (user_quiz_results w') /\
  UserQuizResult.attempt_number result
  = if read_of_attempts_fails w then 1
    else match highest_attempt user quiz w with Some h => h + 1 | None => 1 end.
Proof.
  unfold FormationService.submitQuizResult, FormationService.getQuizById, bind, await,
    ret, throw, select_quiz, select_previous_attempts, insert_user_quiz_result, request,
    read_of_attempts_fails, highest_attempt, attempts_of.
  destruct w as [fo qz qq qa ur uc fl ck nw].
  destruct fl as [|[e1|] [|[e2|] [|[e3|] rest]]];
    cbn [faults quizzes user_quiz_results uuid_counter
         Supabase.with_faults Supabase.with_uuid_counter Supabase.with_user_quiz_results];
    try discriminate;
    (destruct (filter (fun z => strict_eq (Quiz.id z) quiz) qz) as [|z [|z' l]];
     cbn [map single data_of faults quizzes user_quiz_results uuid_counter
          Supabase.with_faults Supabase.with_uuid_counter Supabase.with_user_quiz_results];
     try discriminate);
    intros [= <- <-];
    cbn [user_quiz_results UserQuizResult.attempt_number
         Supabase.with_faults Supabase.with_uuid_counter Supabase.with_user_quiz_results];
    (split; [apply in_or_app; right; left; reflexivity|]);
    try reflexivity; apply attemptNumber_of_highest.
Qed.

(** The failure of the read of the previous attempts is not looked at:
    [previousAttempts] is then null and the guard numbers the row 1.
    After a first submission of u1 on z1 has recorded attempt 1, the next
    one, whose read fails, records attempt 1 again, where C4 says 2. *)
Lemma failed_read_numbers_1 :
  highest_attempt "u1" "z1" Sample.failing_read = Some 1 /\
  exists result w',
    FormationService.submitQuizResult "u1" "z1" Sample.two_of_two None Sample.failing_read
      = (inr result, w') /\
    UserQuizResult.attempt_number result = 1 /\
    map UserQuizResult.attempt_number (attempts_of "u1" "z1" w') = [1; 1].
Proof. split; [reflexivity|]. do 2 eexists. vm_compute. repeat split; reflexivity. Qed.

(** C4, amended. For every user and quiz: whatever requests fail, a row
    that submitQuizResult records carries 1 plus the user's highest prior
    attempt_number for this quiz (1 if there is no prior attempt) when the
    read of the previous attempts is answered, and 1 when that read fails.
    With every request answered and the quiz stored, the submission is
    recorded, it is numbered 1 when it is the user's first on the quiz, and
    from there the N-th of the submissions handled one after the other,
    whatever other submissions come in between, records N. *)
Theorem attempt_number_sequential
    (trace : list Submission) user quiz answers timeSpent z (w : World) :
  filter (fun q => strict_eq (Quiz.id q) quiz) (quizzes w) = [z] ->
  (forall result w',
     FormationService.submitQuizResult user quiz answers timeSpent w = (inr result, w') ->
     In result (user_quiz_results w') /\
     UserQuizResult.attempt_number result
     = if read_of_attempts_fails w then 1
       else match highest_attempt user quiz w with Some h => h + 1 | None => 1 end) /\
  (faults w = [] ->
   (exists result w',
      FormationService.submitQuizResult user quiz answers timeSpent w = (inr result, w') /\
      In result (user_quiz_results w') /\
      UserQuizResult.attempt_number result
        = match highest_attempt user quiz w with Some h => h + 1 | None => 1 end /\
      (attempts_of user quiz w = [] -> UserQuizResult.attempt_number result = 1)) /\
   (attempts_of user quiz w = [] ->
    attempts_logged user quiz (fst (submit_all trace w))
    = map (fun n => Some (Z.of_nat n))
          (seq 1 (List.length (filter (is_submission_of user quiz) trace))))).
Proof.
  intros Q. split; [intros result w'; apply submitQuizResult_attempt_number|].
  intros F. split.
  - destruct (submitQuizResult_no_fault user quiz answers timeSpent w F)
      as [(z' & result & _ & S & _ & _ & A) | (N & _)].
    + exists result. eexists. split; [exact S|]. split; [|split; [exact A|]].
      * cbn [user_quiz_results Supabase.with_uuid_counter Supabase.with_user_quiz_results].
        apply in_or_app. right. left. reflexivity.
      * intros E. rewrite A. unfold highest_attempt. rewrite E. reflexivity.
    + exfalso. rewrite Q in N. apply N. reflexivity.
  - intros E.
    rewrite (submit_all_numbers user quiz z trace w F Q).
    + rewrite E. reflexivity.
    + unfold highest_attempt. rewrite E. reflexivity.
Qed.

Lemma attempt_number_sequential_witness :
  (forall result w',
     FormationService.submitQuizResult "u1" "z1" Sample.one_of_two None Sample.world
       = (inr result, w') ->
     In result (user_quiz_results w') /\
     UserQuizResult.attempt_number result
     = if read_of_attempts_fails Sample.world then 1
       else match highest_attempt "u1" "z1" Sample.world with Some h => h + 1 | None => 1 end) /\
  (faults Sample.world = [] ->
   (exists result w',
      FormationService.submitQuizResult "u1" "z1" Sample.one_of_two None Sample.world
        = (inr result, w') /\
      In result (user_quiz_results w') /\
      UserQuizResult.attempt_number result
        = match highest_attempt "u1" "z1" Sample.world with Some h => h + 1 | None => 1 end /\
      (attempts_of "u1" "z1" Sample.world = [] -> UserQuizResult.attempt_number result = 1)) /\
   (attempts_of "u1" "z1" Sample.world = [] ->
    attempts_logged "u1" "z1" (fst (submit_all Sample.trace Sample.world))
    = map (fun n => Some (Z.of_nat n))
          (seq 1 (List.length (filter (is_submission_of "u1" "z1") Sample.trace))))).
Proof.
  apply (attempt_number_sequential Sample.trace "u1" "z1" Sample.one_of_two None
           Sample.z1 Sample.world); reflexivity.
Defined.

(** The three submissions of u1 on z1 are numbered 1, 2, 3; the two of
    u2, on different quizzes, are each a first one. *)
Example trace_attempt_numbers :
  attempts_logged "u1" "z1" (fst (submit_all Sample.trace Sample.world))
    = [Some 1; Some 2; Some 3] /\
  attempts_logged "u2" "z1" (fst (submit_all Sample.trace Sample.world)) = [Some 1] /\
  attempts_logged "u2" "z3" (fst (submit_all Sample.trace Sample.world)) = [Some 1] /\
  attempts_logged "u1" "inconnu" (fst (submit_all Sample.trace Sample.world)) = [None].
Proof. vm_compute. auto. Qed.

(* ================================================================== *)
(** ** Updating a formation *)
(* ================================================================== *)

Lemma patch_formation_columns (p : PartialFormation.t) (f : Formation.t) (c : Column) :
  column_of c (patch_formation p f)
  = match payload_of c p with Some v => v | None => column_of c f end.
Proof.
  destruct p as [a1 a2 a3 a4 a5 a6 a7 a8 a9 a10 a11 a12 a13].
  destruct c; cbn;
    [ destruct a1 | destruct a2 | destruct a3 | destruct a4 | destruct a5
    | destruct a6 | destruct a7 | destruct a8 | destruct a9 | destruct a10
    | destruct a11 | destruct a12 | destruct a13 ]; reflexivity.
Qed.

Lemma payload_of_with_updated_at (now : Z) (p : PartialFormation.t) (c : Column) :
  c <> c_updated_at ->
  payload_of c (PartialFormation.with_updated_at now p) = payload_of c p.
Proof. destruct c; intros H; try reflexivity. congruence. Qed.

Lemma updated_row_columns payload (w : World) (f : Formation.t) (c : Column) :
  c <> c_updated_at ->
  column_of c (updated_row payload w f) = column_of c (patch_formation payload f).
Proof. destruct c; intros H; try reflexivity. congruence. Qed.

Lemma update_formation_success payload formationId (w w' : World) formation' :
  update_formation payload formationId w = (Success formation', w') ->
  exists formation,
    In formation (formations w) /\ Formation.id formation = formationId /\
    formation' = Formation.with_updated_at (NOW w) (patch_formation payload formation) /\
    In formation' (formations w') /\ clock w' = clock w.
Proof.
  unfold update_formation, updated_row, update_updated_at_column.
  by_request_cases; [discriminate| |].
  - cbn [formations Supabase.with_faults Supabase.with_formations clock NOW].
    destruct (filter _ (formations w)) as [|f [|f' l]] eqn:E; cbn [map single];
      intros [= <- <-].
    assert (In f (filter (fun f => strict_eq (Formation.id f) formationId) (formations w))) as I
      by (rewrite E; left; reflexivity).
    apply filter_In in I. destruct I as [I H].
    exists f. repeat split; trivial.
    + apply String.eqb_eq. exact H.
    + cbn [formations]. apply in_map_iff. exists f. rewrite H. auto.
  - destruct (filter _ (formations w)) as [|f [|f' l]] eqn:E; cbn [map single];
      intros [= <- <-].
    assert (In f (filter (fun f => strict_eq (Formation.id f) formationId) (formations w))) as I
      by (rewrite E; left; reflexivity).
    apply filter_In in I. destruct I as [I H].
    exists f. repeat split; trivial.
    + apply String.eqb_eq. exact H.
    + cbn [formations Supabase.with_formations]. apply in_map_iff. exists f.
      rewrite H. auto.
Qed.

(** C8, as stated, fails: the trigger writes the reading of the
    database's clock and compares it with nothing.  When that reading is
    the instant the stored updated_at carries, the update leaves updated_at
    where it was, and when it is an earlier one updated_at moves back,
    although the reading the service sends is later in both cases. *)
Lemma updated_at_not_advanced :
  In Sample.f1 (formations Sample.same_millisecond) /\
  Formation.updated_at Sample.f1 < clock Sample.same_millisecond /\
  (exists formation' w',
     FormationService.updateFormation "f1" Sample.rename Sample.same_millisecond
       = (inr formation', w') /\
     formations w' = [formation'] /\
     Formation.name formation' = "Sûreté" /\
     Formation.updated_at formation' = Formation.updated_at Sample.f1 /\
     ~ Formation.updated_at Sample.f1 < Formation.updated_at formation') /\
  In Sample.f1 (formations Sample.database_clock_behind) /\
  Formation.updated_at Sample.f1 < clock Sample.database_clock_behind /\
  (exists formation' w',
     FormationService.updateFormation "f1" Sample.rename Sample.database_clock_behind
       = (inr formation', w') /\
     formations w' = [formation'] /\
     Formation.updated_at formation' < Formation.updated_at Sample.f1).
Proof.
  split; [left; reflexivity|]. split; [reflexivity|]. split.
  - do 2 eexists. split; [vm_compute; reflexivity|].
    cbn. repeat split; lia.
  - split; [left; reflexivity|]. split; [reflexivity|].
    do 2 eexists. split; [vm_compute; reflexivity|].
    cbn. repeat split; lia.
Qed.

(** C8, amended. For every update of a Formation with a partial payload,
    every field not present in the payload keeps its prior stored value and
    every field present takes the value of the payload, except
    updated_at: whatever the payload carries and whatever reading of its own
    clock the service sends, the trigger of the migration stores the
    reading of the database's clock at the update (it is later than before
    exactly when that reading is). *)
Theorem updateFormation_frame formationId updateData (w w' : World) formation' :
  FormationService.updateFormation formationId updateData w = (inr formation', w') ->
  exists formation,
    In formation (formations w) /\
    Formation.id formation = formationId /\
    In formation' (formations w') /\
    Formation.updated_at formation' = NOW w /\
    forall c, c <> c_updated_at ->
      column_of c formation'
      = match payload_of c updateData with
        | Some v => v
        | None => column_of c formation
        end.
Proof.
  unfold FormationService.updateFormation, Date_now.
  rewrite bind_eq, bind_eq. unfold await.
  destruct (update_formation _ formationId w) as [[f'|e] w1] eqn:U; [|discriminate].
  intros [= <- <-].
  destruct (update_formation_success _ _ _ _ _ U) as (f & I & Id & -> & I' & _).
  exists f. repeat split; trivial.
  intros c H.
  change (Formation.with_updated_at (NOW w) (patch_formation ?p f))
    with (updated_row p w f).
  rewrite updated_row_columns, patch_formation_columns, payload_of_with_updated_at
    by exact H.
  reflexivity.
Qed.

Lemma updateFormation_frame_witness :
  exists formation,
    In formation (formations Sample.world) /\
    Formation.id formation = "f1" /\
    In (Formation.mk "f1" "o1" "Sûreté" video None 30 active None None None "p1" 1000 5000 None)
       (formations (snd (FormationService.updateFormation "f1" Sample.rename Sample.world))) /\
    Formation.updated_at
      (Formation.mk "f1" "o1" "Sûreté" video None 30 active None None None "p1" 1000 5000 None)
      = NOW Sample.world /\
    forall c, c <> c_updated_at ->
      column_of c
        (Formation.mk "f1" "o1" "Sûreté" video None 30 active None None None "p1" 1000 5000 None)
      = match payload_of c Sample.rename with
        | Some v => v
        | None => column_of c formation
        end.
Proof.
  apply (updateFormation_frame "f1" Sample.rename Sample.world
           (snd (FormationService.updateFormation "f1" Sample.rename Sample.world))).
  vm_compute. reflexivity.
Defined.

(* ================================================================== *)
(** ** Authoring a quiz *)
(* ================================================================== *)

(** A question inserted on its own is at index 0 of its array. *)
Lemma addQuizQuestions_singleton quizId (q : PartialQuizQuestion.t) (w w' : World) rows :
  FormationService.addQuizQuestions quizId [q] w = (inr rows, w') ->
  forall r, In r rows ->
    QuizQuestion.order_index r = number_or (PartialQuizQuestion.order_index q) 0.
Proof.
  unfold FormationService.addQuizQuestions, insert_quiz_questions.
  rewrite bind_eq. unfold await. by_request_cases; [discriminate| |];
    cbn [map_index map_index_from question_rows QuizQuestionInsert.question_text];
    destruct (PartialQuizQuestion.question_text q); try discriminate;
    cbn; intros [= <- <-] r [<- | []]; reflexivity.
Qed.

(** C7. The request that creates a quiz of two questions, neither with an
    order_index, stores both with order_index 0 (the positions are 0 and
    1); and in the first question the answer at position 1 that asks for
    order_index 0 is stored with order_index 1. *)
Theorem createQuiz_order_index :
  status (fst Sample.create_new_quiz) = 201%nat /\
  map QuestionDTO.order_index (CreateQuizDTO.questions Sample.new_quiz) = [None; None] /\
  map (fun q => (QuizQuestion.question_text q, QuizQuestion.order_index q))
      (filter (fun q => strict_eq (QuizQuestion.quiz_id q) "uuid")
              (quiz_questions (snd Sample.create_new_quiz)))
    = [("Première", 0); ("Seconde", 0)] /\
  map (fun a => (QuizAnswer.answer_text a, QuizAnswer.order_index a))
      (filter (fun a => strict_eq (QuizAnswer.question_id a) "+uuid")
              (quiz_answers (snd Sample.create_new_quiz)))
    = [("A", 0); ("B", 1)].
Proof. vm_compute. auto. Qed.


(* ================================================================== *)
(** ** More on submissions *)
(* ================================================================== *)

(** X1. A submission adds exactly one row to user_quiz_results when it
    returns and none when it throws; it rewrites no row of that table and
    leaves the four other tables as they are, whatever faults are
    scheduled. *)
Theorem submitQuizResult_appends_or_nothing user quizId answers timeSpent (w : World) :
  let outcome := fst (FormationService.submitQuizResult user quizId answers timeSpent w) in
  let w' := snd (FormationService.submitQuizResult user quizId answers timeSpent w) in
  formations w' = formations w /\ quizzes w' = quizzes w /\
  quiz_questions w' = quiz_questions w /\ quiz_answers w' = quiz_answers w /\
  user_quiz_results w' =
    (user_quiz_results w ++ match outcome with inr result => [result] | inl _ => [] end)%list.
Proof.
  cbn zeta. unfold FormationService.submitQuizResult.
  rewrite bind_eq, getQuizById_eq.
  destruct (select_quiz quizId w) as [[quiz|e] w1] eqn:Q; cbn [fst snd data_of];
    destruct (select_quiz_tables _ _ _ _ Q) as ((T1 & T2 & T3 & T4 & T5) & _ & _).
  - unfold bind, await, ret, throw.
    destruct (select_previous_attempts user quizId w1) as [previous w2] eqn:P.
    destruct (select_previous_attempts_inv _ _ _ _ _ P)
      as (((U1 & U2 & U3 & U4 & U5) & _ & _) & _).
    destruct (insert_user_quiz_result _ w2) as [[r|e] w3] eqn:I; cbn [fst snd].
    + destruct (insert_user_quiz_result_success _ _ _ _ I) as (_ & R & V1 & V2 & V3 & V4).
      rewrite V1, V2, V3, V4, R, U1, U2, U3, U4, U5, T1, T2, T3, T4, T5. auto.
    + destruct (insert_user_quiz_result_failure _ _ _ _ I) as (V1 & V2 & V3 & V4 & V5).
      rewrite V1, V2, V3, V4, V5, U1, U2, U3, U4, U5, T1, T2, T3, T4, T5, app_nil_r. auto.
  - unfold throw. cbn [fst snd]. rewrite T1, T2, T3, T4, T5, app_nil_r. auto.
Qed.

Lemma correct_count_le answers questions :
  (correct_count answers questions <= List.length questions)%nat.
Proof.
  unfold correct_count.
  induction questions as [|q qs IH]; cbn [filter List.length]; [lia|].
  destruct (answered_correctly answers q); cbn [List.length]; lia.
Qed.

(** X2. The correct_answers of a recorded row never exceeds its
    total_questions, whatever the submission holds: entries for unknown
    questions and repeated entries for one question add nothing. *)
Theorem correct_answers_le_total_questions user quizId answers timeSpent (w w' : World) result :
  FormationService.submitQuizResult user quizId answers timeSpent w = (inr result, w') ->
  (UserQuizResult.correct_answers result <= UserQuizResult.total_questions result)%nat.
Proof.
  intros S.
  destruct (submitQuizResult_inr _ _ _ _ _ _ _ S) as (quiz & w1 & prev & _ & _ & E & _).
  rewrite E. cbn [UserQuizResult.correct_answers UserQuizResult.total_questions].
  rewrite correctAnswers_of_count, totalQuestions_of_length. apply correct_count_le.
Qed.

Lemma correct_answers_le_total_questions_witness :
  (UserQuizResult.correct_answers Sample.row_one_of_two
   <= UserQuizResult.total_questions Sample.row_one_of_two)%nat.
Proof.
  apply (correct_answers_le_total_questions "u1" "z1" Sample.one_of_two None Sample.world
           (snd Sample.run_one_of_two) Sample.row_one_of_two).
  vm_compute. reflexivity.
Defined.

Lemma score_of_nothing_correct (totalQuestions : nat) :
  Z.of_nat totalQuestions < 2 ^ 53 -> score_of 0 totalQuestions = Number.of_Z 0.
Proof.
  intros B. unfold score_of.
  destruct totalQuestions as [|n]; [reflexivity|].
  cbn [Nat.ltb Nat.leb]. unfold Number.of_nat.
  destruct (Z.of_nat (S n)) as [|p|p] eqn:E; try lia.
  destruct (of_Z_pos_finite p B) as (m & e & ->).
  reflexivity.
Qed.

Lemma zero_below_passing_score (p : Z) :
  0 <= p <= 100 ->
  Number.geb (Number.of_Z 0) (Number.of_Z (if p =? 0 then 70 else p)) = false.
Proof.
  intros B.
  assert (forallb (fun k => negb (Number.geb (Number.of_Z 0)
                       (Number.of_Z (if Z.of_nat k =? 0 then 70 else Z.of_nat k))))
                  (seq 0 101) = true) as A by (vm_compute; reflexivity).
  rewrite forallb_forall in A.
  specialize (A (Z.to_nat p)).
  rewrite Z2Nat.id in A by lia.
  apply negb_true_iff, A, in_seq. lia.
Qed.

(** X3. A recorded submission with no correct answer, an empty submission
    among them, has score 0 and passed = false, on every quiz whose
    passing_score is absent or within 0..100, the passing_score 0
    included. *)
Theorem nothing_correct_never_passes
    user quizId answers timeSpent (w w' : World) result quiz w1 :
  FormationService.submitQuizResult user quizId answers timeSpent w = (inr result, w') ->
  FormationService.getQuizById quizId w = (inr (Some quiz), w1) ->
  Z.of_nat (List.length (questions_of quiz)) < 2 ^ 32 ->
  (forall p, Quiz.passing_score quiz = Some p -> 0 <= p <= 100) ->
  UserQuizResult.correct_answers result = 0%nat ->
  UserQuizResult.score result = Number.of_Z 0 /\
  UserQuizResult.passed result = false.
Proof.
  intros S G B P C.
  destruct (submitQuizResult_scored _ _ _ _ _ _ _ _ _ S G) as (_ & C' & Sc & Pa & _).
  rewrite C in C'.
  assert (UserQuizResult.score result = Number.of_Z 0) as H.
  { rewrite Sc, <- C', totalQuestions_of_length. apply score_of_nothing_correct.
    assert (2 ^ 32 < 2 ^ 53) by (apply Z.pow_lt_mono_r; lia). lia. }
  split; [exact H|].
  rewrite Pa, H. unfold passed_of, passing_score_or_default.
  destruct (Quiz.passing_score quiz) as [p|] eqn:E.
  - apply zero_below_passing_score, P. reflexivity.
  - vm_compute. reflexivity.
Qed.

Lemma nothing_correct_never_passes_witness :
  UserQuizResult.score Sample.row_empty = Number.of_Z 0 /\
  UserQuizResult.passed Sample.row_empty = false.
Proof.
  apply (nothing_correct_never_passes "u1" "z1" [] None Sample.world
           (snd Sample.run_empty) Sample.row_empty Sample.fetched_z1 Sample.world).
  - vm_compute. reflexivity.
  - vm_compute. reflexivity.
  - vm_compute. reflexivity.
  - intros p [= <-]. lia.
  - reflexivity.
Defined.

Lemma find_none_iff {A} (P : A -> bool) (l : list A) :
  find P l = None <-> forall x, In x l -> P x = false.
Proof.
  split; [apply find_none|].
  intros H. destruct (find P l) as [x|] eqn:F; [|reflexivity].
  apply find_some in F. destruct F as [I Px]. rewrite (H x I) in Px. discriminate.
Qed.

(** Among entries with distinct keys the one found does not depend on
    their order. *)
Lemma find_permutation {A} (P : A -> bool) (l l' : list A) :
  Permutation l l' ->
  (forall y y', In y l -> In y' l -> P y = true -> P y' = true -> y = y') ->
  find P l' = find P l.
Proof.
  intros Pe U. destruct (find P l) as [x|] eqn:F.
  - apply find_some in F. destruct F as [I Px].
    apply find_unique; trivial.
    + intros y y' Iy Iy'.
      apply U; apply (Permutation_in _ (Permutation_sym Pe)); assumption.
    + apply (Permutation_in _ Pe). exact I.
  - apply find_none_iff. intros x I.
    rewrite find_none_iff in F. apply F.
    apply (Permutation_in _ (Permutation_sym Pe)). exact I.
Qed.

Lemma NoDup_map_unique {A B} (key : A -> B) (l : list A) :
  NoDup (map key l) ->
  forall y y', In y l -> In y' l -> key y = key y' -> y = y'.
Proof.
  induction l as [|a l IH]; intros N y y' I I' E; [destruct I|].
  cbn [map] in N. inversion N as [|? ? Na Nl]; subst.
  destruct I as [<-|I], I' as [<-|I']; trivial.
  - exfalso. apply Na. rewrite E. apply in_map. exact I'.
  - exfalso. apply Na. rewrite <- E. apply in_map. exact I.
  - apply IH; assumption.
Qed.

Lemma correctAnswers_of_permutation quiz answers answers' :
  Permutation answers answers' ->
  NoDup (map SubmittedAnswer.questionId answers) ->
  correctAnswers_of quiz answers' = correctAnswers_of quiz answers.
Proof.
  intros Pe N. rewrite !correctAnswers_of_count. unfold correct_count.
  f_equal. apply filter_ext. intros q.
  unfold answered_correctly, submitted_answer.
  rewrite (find_permutation _ answers answers' Pe); [reflexivity|].
  intros y y' I I' Py Py'. apply String.eqb_eq in Py, Py'.
  apply (NoDup_map_unique SubmittedAnswer.questionId answers N); trivial.
  congruence.
Qed.

(** X4. Two submissions of the same entries in different orders, with at
    most one entry per question, record the same correct_answers, score
    and passed flag. *)
Theorem submission_order_irrelevant
    user quizId answers answers' timeSpent (w w1 w2 : World) result result' :
  Permutation answers answers' ->
  NoDup (map SubmittedAnswer.questionId answers) ->
  FormationService.submitQuizResult user quizId answers timeSpent w = (inr result, w1) ->
  FormationService.submitQuizResult user quizId answers' timeSpent w = (inr result', w2) ->
  UserQuizResult.correct_answers result' = UserQuizResult.correct_answers result /\
  UserQuizResult.score result' = UserQuizResult.score result /\
  UserQuizResult.passed result' = UserQuizResult.passed result.
Proof.
  intros Pe N S S'.
  destruct (submitQuizResult_inr _ _ _ _ _ _ _ S) as (quiz & wq & prev & G & _ & E & _).
  destruct (submitQuizResult_scored _ _ _ _ _ _ _ _ _ S' G) as (_ & C' & Sc' & Pa' & _).
  destruct (submitQuizResult_scored _ _ _ _ _ _ _ _ _ S G) as (_ & C & Sc & Pa & _).
  rewrite Pa', Pa, Sc', Sc, C', C, (correctAnswers_of_permutation quiz _ _ Pe N).
  auto.
Qed.

Lemma submission_order_irrelevant_witness :
  UserQuizResult.correct_answers Sample.row_two_of_two_reversed
    = UserQuizResult.correct_answers Sample.row_two_of_two /\
  UserQuizResult.score Sample.row_two_of_two_reversed
    = UserQuizResult.score Sample.row_two_of_two /\
  UserQuizResult.passed Sample.row_two_of_two_reversed
    = UserQuizResult.passed Sample.row_two_of_two.
Proof.
  apply (submission_order_irrelevant "u1" "z1" Sample.two_of_two Sample.two_of_two_reversed
           None Sample.world (snd Sample.run_two_of_two) (snd Sample.run_two_of_two_reversed)).
  - apply perm_swap.
  - repeat constructor; cbn; intuition discriminate.
  - vm_compute. reflexivity.
  - vm_compute. reflexivity.
Defined.

Lemma correct_count_permutation answers questions questions' :
  Permutation questions questions' ->
  correct_count answers questions' = correct_count answers questions.
Proof.
  unfold correct_count. intros Pe.
  induction Pe as [|q l l' Pe IH|q q' l|l l' l'' Pe1 IH1 Pe2 IH2]; cbn [filter].
  - reflexivity.
  - destruct (answered_correctly answers q); cbn [List.length]; lia.
  - destruct (answered_correctly answers q), (answered_correctly answers q');
      reflexivity.
  - lia.
Qed.

(** X5. The count of correct answers, the number of questions and the
    score do not depend on the order in which the nested select returns
    the questions of the quiz (the query sets none). *)
Theorem question_order_irrelevant (quiz : Quiz.t) (questions' : list QuizQuestion.t) answers :
  Permutation (questions_of quiz) questions' ->
  let quiz' := Quiz.with_quiz_questions (Some questions') quiz in
  correctAnswers_of quiz' answers = correctAnswers_of quiz answers /\
  totalQuestions_of quiz' = totalQuestions_of quiz /\
  passed_of quiz' (score_of (correctAnswers_of quiz' answers) (totalQuestions_of quiz'))
  = passed_of quiz (score_of (correctAnswers_of quiz answers) (totalQuestions_of quiz)).
Proof.
  intros Pe. cbn zeta.
  assert (correctAnswers_of (Quiz.with_quiz_questions (Some questions') quiz) answers
          = correctAnswers_of quiz answers) as C.
  { rewrite !correctAnswers_of_count. unfold questions_of at 1. cbn.
    apply correct_count_permutation. exact Pe. }
  assert (totalQuestions_of (Quiz.with_quiz_questions (Some questions') quiz)
          = totalQuestions_of quiz) as T.
  { rewrite !totalQuestions_of_length. unfold questions_of at 1. cbn.
    symmetry. apply Permutation_length. exact Pe. }
  rewrite C, T. repeat split.
Qed.

Lemma question_order_irrelevant_witness :
  let quiz' := Quiz.with_quiz_questions (Some (rev (questions_of Sample.fetched_z1)))
                                        Sample.fetched_z1 in
  correctAnswers_of quiz' Sample.one_of_two = correctAnswers_of Sample.fetched_z1 Sample.one_of_two /\
  totalQuestions_of quiz' = totalQuestions_of Sample.fetched_z1 /\
  passed_of quiz' (score_of (correctAnswers_of quiz' Sample.one_of_two) (totalQuestions_of quiz'))
  = passed_of Sample.fetched_z1
      (score_of (correctAnswers_of Sample.fetched_z1 Sample.one_of_two)
                (totalQuestions_of Sample.fetched_z1)).
Proof.
  apply (question_order_irrelevant Sample.fetched_z1 (rev (questions_of Sample.fetched_z1))
           Sample.one_of_two).
  apply Permutation_rev.
Defined.

Lemma submit_all_rows user quiz z (trace : list Submission) :
  forall w : World,
    faults w = [] ->
    filter (fun q => strict_eq (Quiz.id q) quiz) (quizzes w) = [z] ->
    List.length (attempts_of user quiz (snd (submit_all trace w)))
    = (List.length (attempts_of user quiz w)
       + List.length (filter (is_submission_of user quiz) trace))%nat.
Proof.
  induction trace as [|s rest IH]; intros w F Q; [cbn; lia|].
  cbn [submit_all filter].
  destruct (submitQuizResult_no_fault (by_user s) (on_quiz s) (with_answers s) (in_time s) w F)
    as [(z' & result & Q' & -> & U & Qz & _) | (N & ->)].
  - set (w1 := Supabase.with_uuid_counter _ _).
    specialize (IH w1 F Q).
    destruct (submit_all rest w1) as [log w2]. cbn [snd] in *.
    rewrite IH. unfold w1. rewrite attempts_of_append, length_app, U, Qz.
    fold (is_submission_of user quiz s).
    destruct (is_submission_of user quiz s); cbn [List.length]; lia.
  - specialize (IH w F Q).
    destruct (submit_all rest w) as [log w2]. cbn [snd] in *.
    rewrite IH.
    destruct (is_submission_of user quiz s) eqn:I; [|reflexivity].
    exfalso. unfold is_submission_of in I. apply andb_prop in I. destruct I as [_ I2].
    apply String.eqb_eq in I2. rewrite I2, Q in N. apply N. reflexivity.
Qed.

(** X6. max_attempts is never enforced: with the persistence service
    answering, every submission of a user on a stored quiz adds a row,
    however many they recorded before and whatever max_attempts the quiz
    holds. *)
Theorem max_attempts_not_enforced
    (trace : list Submission) user quiz z (w : World) :
  faults w = [] ->
  filter (fun q => strict_eq (Quiz.id q) quiz) (quizzes w) = [z] ->
  List.length (attempts_of user quiz (snd (submit_all trace w)))
  = (List.length (attempts_of user quiz w)
     + List.length (filter (is_submission_of user quiz) trace))%nat.
Proof. intros F Q. exact (submit_all_rows user quiz z trace w F Q). Qed.

Lemma max_attempts_not_enforced_witness :
  Quiz.max_attempts Sample.z1 = Some 3 /\
  List.length (attempts_of "u1" "z1"
     (snd (submit_all (Sample.trace ++ Sample.trace) Sample.world)))
  = (List.length (attempts_of "u1" "z1" Sample.world)
     + List.length (filter (is_submission_of "u1" "z1") (Sample.trace ++ Sample.trace)))%nat.
Proof.
  split; [reflexivity|].
  apply (max_attempts_not_enforced (Sample.trace ++ Sample.trace) "u1" "z1" Sample.z1
           Sample.world); reflexivity.
Defined.

(* ================================================================== *)
(** ** Fetching a quiz *)
(* ================================================================== *)

(** X7. The fetch of a quiz by id throws nothing and changes no table:
    every error of the request, a missing row like a persistence failure,
    is answered 404 'Quiz non trouvé', and a quiz that is found is answered
    200 with its questions and their answers embedded. *)
Theorem getQuiz_null_on_any_error quizId user organization (w : World) :
  let response := fst (select_quiz quizId w) in
  let w' := snd (select_quiz quizId w) in
  same_tables w w' /\
  FormationController.getQuiz (mkRequest quizId user organization (inr tt)) w
  = (match response with
     | Success quiz => mkHttp 200 true (Some quiz) "Quiz récupéré avec succès" []
     | Failure _ => mkHttp 404 false None "Quiz non trouvé" []
     end, w') /\
  (forall quiz, response = Success quiz ->
     exists z, In z (quizzes w) /\ Quiz.id z = quizId /\
       Quiz.quiz_questions quiz =
         Some (map (embed_quiz_answers w)
                   (filter (fun q => strict_eq (QuizQuestion.quiz_id q) quizId)
                           (quiz_questions w)))).
Proof.
  cbn zeta. split; [|split].
  - destruct (select_quiz quizId w) as [r w1] eqn:Q.
    apply (select_quiz_tables _ _ _ _ Q).
  - unfold FormationController.getQuiz, FormationController.try_catch.
    cbn [param]. rewrite bind_eq, getQuizById_eq.
    destruct (fst (select_quiz quizId w)); reflexivity.
  - intros quiz E.
    destruct (select_quiz quizId w) as [r w1] eqn:Q. cbn [fst] in E. subst r.
    destruct (select_quiz_tables _ _ _ _ Q) as ((_ & T2 & T3 & T4 & _) & _ & _).
    destruct (select_quiz_success _ _ _ _ Q) as (z & Fz & ->).
    assert (In z (filter (fun z => strict_eq (Quiz.id z) quizId) (quizzes w))) as I
      by (rewrite Fz; left; reflexivity).
    apply filter_In in I. destruct I as [I H]. apply String.eqb_eq in H.
    exists z. repeat split; trivial.
    unfold embed_quiz_questions, embed_quiz_answers.
    cbn [Quiz.with_quiz_questions Quiz.quiz_questions].
    rewrite T3, T4, H. reflexivity.
Qed.

(* ================================================================== *)
(** ** More on the update of a formation *)
(* ================================================================== *)

Lemma update_formation_absent payload formationId (w : World) :
  (forall f, In f (formations w) -> Formation.id f <> formationId) ->
  exists error,
    fst (update_formation payload formationId w) = Failure error /\
    same_tables w (snd (update_formation payload formationId w)).
Proof.
  intros H.
  assert (forall x, In x (formations w) -> strict_eq (Formation.id x) formationId = false) as N
    by (intros x I; apply String.eqb_neq, H, I).
  unfold update_formation, request, same_tables.
  destruct (faults w) as [|[e|] rest];
    cbn [formations Supabase.with_faults]; rewrite ?(filter_none _ _ N);
    cbn [map single fst snd formations quizzes quiz_questions quiz_answers user_quiz_results
         Supabase.with_formations Supabase.with_faults];
    eexists; (split; [reflexivity|]); repeat split;
    rewrite <- (map_id (formations w)) at 2; apply map_ext_in; intros f I;
    rewrite (N f I); reflexivity.
Qed.

(** X8. The update of a formation whose id is not stored throws, changes
    no table, and is answered 500 with the message of the failed request,
    not 404. *)
Theorem updateFormation_unknown_id formationId updateData user organization (w : World) :
  (forall f, In f (formations w) -> Formation.id f <> formationId) ->
  exists error w',
    FormationService.updateFormation formationId updateData w
      = (inl (Error ("Erreur lors de la mise à jour de la formation: " ++ message error)), w') /\
    same_tables w w' /\
    FormationController.updateFormation
      (mkRequest formationId user organization (inr updateData)) w
      = (mkHttp 500 false None
           ("Erreur lors de la mise à jour de la formation: " ++ message error) [], w').
Proof.
  intros H.
  destruct (update_formation_absent
              (PartialFormation.with_updated_at (clock w) updateData) formationId w H)
    as (error & E & T).
  exists error, (snd (update_formation
                        (PartialFormation.with_updated_at (clock w) updateData) formationId w)).
  assert (FormationService.updateFormation formationId updateData w
          = (inl (Error ("Erreur lors de la mise à jour de la formation: " ++ message error)),
             snd (update_formation
                    (PartialFormation.with_updated_at (clock w) updateData) formationId w))) as S.
  { unfold FormationService.updateFormation, Date_now.
    rewrite bind_eq, bind_eq. unfold await.
    destruct (update_formation _ formationId w) as [r w1]. cbn [fst snd] in *.
    rewrite E. reflexivity. }
  repeat split; try apply T; [exact S|].
  unfold FormationController.updateFormation, FormationController.try_catch,
    FormationController.parse.
  cbn [body param]. rewrite bind_eq. cbn [ret]. rewrite bind_eq, S. reflexivity.
Qed.

Lemma updateFormation_unknown_id_witness :
  exists error w',
    FormationService.updateFormation "inconnue" Sample.rename Sample.world
      = (inl (Error ("Erreur lors de la mise à jour de la formation: " ++ message error)), w') /\
    same_tables Sample.world w' /\
    FormationController.updateFormation
      (mkRequest "inconnue" "u1" "o1" (inr Sample.rename)) Sample.world
      = (mkHttp 500 false None
           ("Erreur lors de la mise à jour de la formation: " ++ message error) [], w').
Proof.
  apply (updateFormation_unknown_id "inconnue" Sample.rename "u1" "o1" Sample.world).
  intros f [<- | []]. vm_compute. discriminate.
Defined.

Lemma updateFormation_inr formationId updateData (w w' : World) formation' :
  FormationService.updateFormation formationId updateData w = (inr formation', w') ->
  update_formation (PartialFormation.with_updated_at (clock w) updateData) formationId w
  = (Success formation', w').
Proof.
  unfold FormationService.updateFormation, Date_now.
  rewrite bind_eq, bind_eq. unfold await.
  destruct (update_formation _ formationId w) as [[f'|e] w1]; [|discriminate].
  intros [= <- <-]. reflexivity.
Qed.

Lemma update_formation_tables payload formationId (w w' : World) formation' :
  update_formation payload formationId w = (Success formation', w') ->
  (exists f,
     filter (fun f => strict_eq (Formation.id f) formationId) (formations w) = [f] /\
     formation' = updated_row payload w f) /\
  formations w' =
    map (fun f => if strict_eq (Formation.id f) formationId
                  then updated_row payload w f else f) (formations w) /\
  quizzes w' = quizzes w /\ quiz_questions w' = quiz_questions w /\
  quiz_answers w' = quiz_answers w /\ user_quiz_results w' = user_quiz_results w /\
  (faults w = [] -> faults w' = []).
Proof.
  unfold update_formation, request, updated_row, update_updated_at_column.
  destruct (faults w) as [|[e|] rest] eqn:Fa; [| discriminate |];
    cbn [formations Supabase.with_faults Supabase.with_formations clock NOW];
    destruct (filter _ (formations w)) as [|f [|f' l]] eqn:E; cbn [map single];
    intros [= <- <-]; cbn; repeat split; trivial; try discriminate;
    exists f; split; reflexivity.
Qed.

(** X9. A successful update rewrites the one row that carries the id and
    no other: the table keeps its length, every row with another id keeps
    its place and its content, and the four other tables are unchanged. *)
Theorem updateFormation_other_rows formationId updateData (w w' : World) formation' :
  FormationService.updateFormation formationId updateData w = (inr formation', w') ->
  List.length (formations w') = List.length (formations w) /\
  (forall i f, nth_error (formations w) i = Some f ->
               Formation.id f <> formationId ->
               nth_error (formations w') i = Some f) /\
  quizzes w' = quizzes w /\ quiz_questions w' = quiz_questions w /\
  quiz_answers w' = quiz_answers w /\ user_quiz_results w' = user_quiz_results w.
Proof.
  intros S. apply updateFormation_inr in S.
  destruct (update_formation_tables _ _ _ _ _ S) as (_ & F & T2 & T3 & T4 & T5 & _).
  rewrite F, length_map. repeat split; trivial.
  intros i f N D. rewrite nth_error_map, N. cbn [option_map].
  apply String.eqb_neq in D. unfold strict_eq. rewrite D. reflexivity.
Qed.

Lemma updateFormation_other_rows_witness :
  List.length (formations (snd (FormationService.updateFormation "f2" Sample.rename
                                  Sample.two_organizations)))
    = List.length (formations Sample.two_organizations) /\
  (forall i f, nth_error (formations Sample.two_organizations) i = Some f ->
               Formation.id f <> "f2" ->
               nth_error (formations (snd (FormationService.updateFormation "f2" Sample.rename
                                             Sample.two_organizations))) i = Some f) /\
  quizzes (snd (FormationService.updateFormation "f2" Sample.rename Sample.two_organizations))
    = quizzes Sample.two_organizations /\
  quiz_questions (snd (FormationService.updateFormation "f2" Sample.rename
                         Sample.two_organizations))
    = quiz_questions Sample.two_organizations /\
  quiz_answers (snd (FormationService.updateFormation "f2" Sample.rename
                       Sample.two_organizations))
    = quiz_answers Sample.two_organizations /\
  user_quiz_results (snd (FormationService.updateFormation "f2" Sample.rename
                            Sample.two_organizations))
    = user_quiz_results Sample.two_organizations.
Proof.
  apply (updateFormation_other_rows "f2" Sample.rename Sample.two_organizations
           (snd (FormationService.updateFormation "f2" Sample.rename Sample.two_organizations))
           (Formation.mk "f2" "o2" "Sûreté" pdf None 10 draft None None None "p2" 3000 6000 None)).
  vm_compute. reflexivity.
Defined.

Lemma filter_map_if {A} (hit : A -> bool) (g : A -> A) (l : list A) :
  (forall x, hit (g x) = hit x) ->
  filter hit (map (fun x => if hit x then g x else x) l) = map g (filter hit l).
Proof.
  intros H. induction l as [|x l IH]; [reflexivity|].
  cbn [map filter]. destruct (hit x) eqn:E.
  - rewrite H, E. cbn [map]. f_equal. exact IH.
  - rewrite E. exact IH.
Qed.

(** X10. Read your writes: after a successful update whose payload does
    not carry the id, with no fault scheduled, the fetch of the formation
    by the same id returns the row the update returned, column by column,
    with its quizzes embedded. *)
Theorem updateFormation_then_getFormationById
    formationId updateData (w w' : World) formation' :
  faults w = [] ->
  PartialFormation.id updateData = None ->
  FormationService.updateFormation formationId updateData w = (inr formation', w') ->
  exists fetched,
    FormationService.getFormationById formationId w' = (inr (Some fetched), w') /\
    (forall c, column_of c fetched = column_of c formation') /\
    Formation.quizzes fetched =
      Some (map (embed_quiz_questions w')
                (filter (fun z => strict_eq (Quiz.formation_id z) formationId) (quizzes w'))).
Proof.
  intros F I S. apply updateFormation_inr in S.
  destruct (update_formation_tables _ _ _ _ _ S) as ((f & E & P) & Fo & _ & _ & _ & _ & F').
  specialize (F' F).
  set (payload := PartialFormation.with_updated_at (clock w) updateData) in *.
  assert (forall x, strict_eq (Formation.id (updated_row payload w x)) formationId
                    = strict_eq (Formation.id x) formationId) as K.
  { intros x. unfold updated_row, update_updated_at_column, patch_formation, payload.
    cbn. rewrite I. reflexivity. }
  assert (filter (fun f => strict_eq (Formation.id f) formationId) (formations w')
          = [formation']) as E'.
  { rewrite Fo, (filter_map_if (fun f => strict_eq (Formation.id f) formationId)
                               (updated_row payload w) _ K), E, P.
    reflexivity. }
  assert (strict_eq (Formation.id formation') formationId = true) as H.
  { assert (In formation' (filter (fun f => strict_eq (Formation.id f) formationId)
                                  (formations w'))) as M by (rewrite E'; left; reflexivity).
    apply filter_In in M. apply M. }
  apply String.eqb_eq in H.
  exists (embed_quizzes w' formation'). split; [|split].
  - unfold FormationService.getFormationById, select_formation, request.
    rewrite bind_eq. unfold await. rewrite F', E'. reflexivity.
  - intros c. destruct c; reflexivity.
  - unfold embed_quizzes. cbn [Formation.with_quizzes Formation.quizzes].
    rewrite H. reflexivity.
Qed.

Lemma updateFormation_then_getFormationById_witness :
  exists fetched,
    FormationService.getFormationById "f1" (snd Sample.run_rename)
      = (inr (Some fetched), snd Sample.run_rename) /\
    (forall c, column_of c fetched = column_of c Sample.renamed_f1) /\
    Formation.quizzes fetched =
      Some (map (embed_quiz_questions (snd Sample.run_rename))
                (filter (fun z => strict_eq (Quiz.formation_id z) "f1")
                        (quizzes (snd Sample.run_rename)))).
Proof.
  apply (updateFormation_then_getFormationById "f1" Sample.rename Sample.world
           (snd Sample.run_rename) Sample.renamed_f1); reflexivity.
Defined.

(* ================================================================== *)
(** ** More on the authoring of a quiz *)
(* ================================================================== *)

(** X11. A quiz stored by createQuiz never holds the passing_score 0 or
    the max_attempts 0: a requested 0, like an absent value, is stored as
    70, respectively 3; the row is appended to the table of quizzes under
    the formation it was created for. *)
Theorem createQuiz_stores_defaults formationId quizData (w w' : World) quiz :
  FormationService.createQuiz formationId quizData w = (inr quiz, w') ->
  quizzes w' = (quizzes w ++ [quiz])%list /\
  Quiz.formation_id quiz = formationId /\
  Quiz.passing_score quiz
    = Some (match PartialQuiz.passing_score quizData with
            | Some 0 | None => 70
            | Some p => p
            end) /\
  Quiz.max_attempts quiz
    = Some (match PartialQuiz.max_attempts quizData with
            | Some 0 | None => 3
            | Some m => m
            end) /\
  Quiz.passing_score quiz <> Some 0 /\
  Quiz.max_attempts quiz <> Some 0.
Proof.
  unfold FormationService.createQuiz, insert_quiz.
  rewrite bind_eq. unfold await.
  by_request_cases; [discriminate| |];
    destruct (PartialQuiz.title quizData) as [title|]; cbn; try discriminate;
    intros [= <- <-]; cbn;
    destruct (PartialQuiz.passing_score quizData) as [[|p|p]|];
    destruct (PartialQuiz.max_attempts quizData) as [[|m|m]|];
    cbn; repeat split; discriminate.
Qed.

Lemma createQuiz_stores_defaults_witness :
  let quiz := Quiz.mk "uuid" "f1" "Zéro" None (Some 70) (Some 3) None None in
  let w' := snd (FormationService.createQuiz "f1"
                   (PartialQuiz.mk (Some "Zéro") None (Some 0) (Some 0) None) Sample.world) in
  quizzes w' = (quizzes Sample.world ++ [quiz])%list /\
  Quiz.formation_id quiz = "f1" /\
  Quiz.passing_score quiz = Some 70 /\
  Quiz.max_attempts quiz = Some 3 /\
  Quiz.passing_score quiz <> Some 0 /\
  Quiz.max_attempts quiz <> Some 0.
Proof.
  apply (createQuiz_stores_defaults "f1"
           (PartialQuiz.mk (Some "Zéro") None (Some 0) (Some 0) None) Sample.world).
  vm_compute. reflexivity.
Defined.

(** X12. The creation of a quiz is not undone when a later request fails:
    if the insertion of the quiz goes through and the insertion of its
    first question fails, the request is answered 500 with the message of
    that failure, and the quiz stays stored, without any question. *)
Theorem createQuiz_no_rollback
    formationId user organization (validatedData : CreateQuizDTO.t) e rest (w : World) :
  faults w = None :: Some e :: rest ->
  CreateQuizDTO.questions validatedData <> [] ->
  exists quiz w',
    FormationController.createQuiz
      (mkRequest formationId user organization (inr validatedData)) w
    = (mkHttp 500 false None ("Erreur lors de l'ajout des questions: " ++ message e) [], w') /\
    quizzes w' = (quizzes w ++ [quiz])%list /\
    Quiz.formation_id quiz = formationId /\
    Quiz.title quiz = CreateQuizDTO.title validatedData /\
    quiz_questions w' = quiz_questions w /\
    quiz_answers w' = quiz_answers w.
Proof.
  intros F N.
  destruct (CreateQuizDTO.questions validatedData) as [|q qs] eqn:Q; [congruence|].
  unfold FormationController.createQuiz, FormationController.try_catch,
    FormationController.parse.
  cbn [body param]. rewrite bind_eq. cbn [ret]. rewrite bind_eq.
  unfold FormationService.createQuiz, insert_quiz, request.
  rewrite bind_eq. unfold await. rewrite F.
  cbn [FormationController.quizData_of PartialQuiz.title QuizInsert.title ret].
  rewrite bind_eq, Q. cbn [FormationController.for_questions].
  rewrite bind_eq.
  unfold FormationService.addQuizQuestions, insert_quiz_questions, request.
  rewrite bind_eq. unfold await.
  cbn [faults Supabase.with_uuid_counter Supabase.with_quizzes Supabase.with_faults].
  cbn [throw string_or].
  do 2 eexists. split; [reflexivity|]. cbn. auto 10.
Qed.

Lemma createQuiz_no_rollback_witness :
  exists quiz w',
    FormationController.createQuiz
      (mkRequest "f1" "p1" "o1" (inr Sample.new_quiz)) Sample.second_request_fails
    = (mkHttp 500 false None ("Erreur lors de l'ajout des questions: " ++ "timeout") [], w') /\
    quizzes w' = (quizzes Sample.second_request_fails ++ [quiz])%list /\
    Quiz.formation_id quiz = "f1" /\
    Quiz.title quiz = CreateQuizDTO.title Sample.new_quiz /\
    quiz_questions w' = quiz_questions Sample.second_request_fails /\
    quiz_answers w' = quiz_answers Sample.second_request_fails.
Proof.
  apply (createQuiz_no_rollback "f1" "p1" "o1" Sample.new_quiz {| message := "timeout" |} []
           Sample.second_request_fails).
  - reflexivity.
  - discriminate.
Defined.

Lemma uuid_generate_v4_injective (n m : nat) :
  uuid_generate_v4 n = uuid_generate_v4 m -> n = m.
Proof.
  revert m. induction n as [|n IH]; intros [|m]; cbn; intros E;
    try discriminate; [reflexivity|].
  f_equal. apply IH. injection E as E. exact E.
Qed.

Lemma answer_rows_authored questionId (answers : list AnswerDTO.t) :
  forall n index,
    answer_rows n
      (map_index_from
         (fun a index =>
            QuizAnswerInsert.mk questionId (PartialQuizAnswer.answer_text a)
              (bool_or_false (PartialQuizAnswer.is_correct a))
              (number_or (PartialQuizAnswer.order_index a) (Z.of_nat index)))
         index (map FormationController.answerData_of answers))
    = Some (authored_answers_from questionId n index answers).
Proof.
  induction answers as [|a l IH]; intros n index; [reflexivity|].
  cbn [map map_index_from answer_rows authored_answers_from].
  rewrite IH. reflexivity.
Qed.

Lemma authored_answers_from_length questionId (answers : list AnswerDTO.t) :
  forall n index,
    List.length (authored_answers_from questionId n index answers) = List.length answers.
Proof.
  induction answers as [|a l IH]; intros n index; [reflexivity|].
  cbn [authored_answers_from List.length]. rewrite IH. reflexivity.
Qed.

Lemma addQuizQuestions_one_no_fault quizId (q : QuestionDTO.t) fo qz qq qa ur uc ck nw :
  FormationService.addQuizQuestions quizId [FormationController.questionData_of q]
    (mkWorld fo qz qq qa ur uc [] ck nw)
  = (inr (authored_questions quizId uc [q]),
     mkWorld fo qz (qq ++ authored_questions quizId uc [q]) qa ur (uc + 1) [] ck nw).
Proof. reflexivity. Qed.

Lemma addQuizAnswers_no_fault questionId (answers : list AnswerDTO.t) fo qz qq qa ur uc ck nw :
  FormationService.addQuizAnswers questionId (map FormationController.answerData_of answers)
    (mkWorld fo qz qq qa ur uc [] ck nw)
  = (inr (authored_answers_from questionId uc 0 answers),
     mkWorld fo qz qq (qa ++ authored_answers_from questionId uc 0 answers) ur
             (uc + List.length answers) [] ck nw).
Proof.
  unfold FormationService.addQuizAnswers, insert_quiz_answers, request.
  rewrite bind_eq. unfold await. cbn [faults uuid_counter]. unfold map_index.
  rewrite answer_rows_authored, authored_answers_from_length. reflexivity.
Qed.

(** With no fault scheduled, the loop over the questions appends their
    rows and the rows of their answers, and nothing else. *)
Lemma for_questions_no_fault quizId (questions : list QuestionDTO.t) :
  forall fo qz qq qa ur uc ck nw,
    FormationController.for_questions quizId questions
      (mkWorld fo qz qq qa ur uc [] ck nw)
    = (inr tt,
       mkWorld fo qz (qq ++ authored_questions quizId uc questions)
               (qa ++ authored_answers uc questions) ur
               (uc + authored_count questions) [] ck nw).
Proof.
  induction questions as [|q rest IH]; intros fo qz qq qa ur uc ck nw.
  - cbn. rewrite !app_nil_r, Nat.add_0_r. reflexivity.
  - cbn [FormationController.for_questions].
    rewrite bind_eq, addQuizQuestions_one_no_fault.
    cbn [authored_questions]. cbv beta iota.
    rewrite bind_eq, bind_eq. cbn [QuizQuestion.id].
    rewrite addQuizAnswers_no_fault. cbn [ret].
    rewrite IH. f_equal.
    cbn [authored_questions authored_answers authored_count].
    replace (uc + 1)%nat with (S uc) by lia.
    rewrite <- !app_assoc. cbn [app].
    f_equal. lia.
Qed.

Lemma filter_all {A} (P : A -> bool) (l : list A) :
  (forall x, In x l -> P x = true) -> filter P l = l.
Proof.
  intros H. induction l as [|x l IH]; [reflexivity|].
  cbn [filter]. rewrite H by (left; reflexivity).
  f_equal. apply IH. intros y I. apply H. right. exact I.
Qed.

Lemma authored_questions_quiz_id quizId (questions : list QuestionDTO.t) :
  forall n q, In q (authored_questions quizId n questions) -> QuizQuestion.quiz_id q = quizId.
Proof.
  induction questions as [|d rest IH]; intros n q I; [destruct I|].
  cbn [authored_questions] in I. destruct I as [<-|I]; [reflexivity|].
  exact (IH _ _ I).
Qed.

Lemma authored_answers_from_question_id questionId (answers : list AnswerDTO.t) :
  forall n index a,
    In a (authored_answers_from questionId n index answers) ->
    QuizAnswer.question_id a = questionId.
Proof.
  induction answers as [|d rest IH]; intros n index a I; [destruct I|].
  cbn [authored_answers_from] in I. destruct I as [<-|I]; [reflexivity|].
  exact (IH _ _ _ I).
Qed.

(** The answers of the questions numbered from [n] reference identifiers
    numbered from [n]. *)
Lemma authored_answers_question_id (questions : list QuestionDTO.t) :
  forall n a, In a (authored_answers n questions) ->
    exists m, (n <= m)%nat /\ QuizAnswer.question_id a = uuid_generate_v4 m.
Proof.
  induction questions as [|d rest IH]; intros n a I; [destruct I|].
  cbn [authored_answers] in I. apply in_app_or in I. destruct I as [I|I].
  - exists n. split; [lia|]. exact (authored_answers_from_question_id _ _ _ _ _ I).
  - destruct (IH _ _ I) as (m & L & E). exists m. split; [lia | exact E].
Qed.

Lemma authored_answers_from_view questionId (answers : list AnswerDTO.t) :
  forall n index,
    map (fun a => (QuizAnswer.answer_text a, QuizAnswer.is_correct a))
        (authored_answers_from questionId n index answers)
    = map (fun a => (AnswerDTO.answer_text a, AnswerDTO.is_correct a)) answers.
Proof.
  induction answers as [|d rest IH]; intros n index; [reflexivity|].
  cbn [authored_answers_from map QuizAnswer.answer_text QuizAnswer.is_correct].
  rewrite IH. reflexivity.
Qed.

(** Each authored question is fetched with its own answers, in order. *)
Lemma authored_questions_fetched quizId (questions : list QuestionDTO.t) :
  forall n (base : list QuizAnswer.t) (w : World),
    quiz_answers w = (base ++ authored_answers n questions)%list ->
    (forall a m, In a base -> (n <= m)%nat ->
                 QuizAnswer.question_id a <> uuid_generate_v4 m) ->
    map fetched_view (map (embed_quiz_answers w) (authored_questions quizId n questions))
    = map authored_view questions.
Proof.
  induction questions as [|d rest IH]; intros n base w E B; [reflexivity|].
  cbn [authored_questions authored_answers map] in *.
  f_equal.
  - unfold fetched_view, authored_view, embed_quiz_answers.
    cbn [QuizQuestion.with_quiz_answers QuizQuestion.quiz_answers QuizQuestion.id
         QuizQuestion.question_text QuizQuestion.question_type QuizQuestion.points].
    f_equal. rewrite E, !filter_app.
    rewrite (filter_none _ base), (filter_all _ (authored_answers_from _ _ _ _)), filter_none.
    + rewrite app_nil_r. cbn [app]. apply authored_answers_from_view.
    + intros a I. destruct (authored_answers_question_id _ _ _ I) as (m & L & Q).
      apply String.eqb_neq. rewrite Q. intros H.
      apply uuid_generate_v4_injective in H. lia.
    + intros a I. apply String.eqb_eq.
      exact (authored_answers_from_question_id _ _ _ _ _ I).
    + intros a I. apply String.eqb_neq. apply (B a n I). lia.
  - apply (IH _ (base ++ authored_answers_from (uuid_generate_v4 n) (S n) 0
                                              (QuestionDTO.answers d))%list).
    + rewrite E, app_assoc. reflexivity.
    + intros a m I L. apply in_app_or in I. destruct I as [I|I].
      * apply B; [exact I | lia].
      * rewrite (authored_answers_from_question_id _ _ _ _ _ I). intros H.
        apply uuid_generate_v4_injective in H. lia.
Qed.

Lemma createQuiz_no_fault formationId (d : CreateQuizDTO.t) fo qz qq qa ur uc ck nw :
  let quiz := Quiz.mk (uuid_generate_v4 uc) formationId (CreateQuizDTO.title d)
                (CreateQuizDTO.description d)
                (Some (number_or (Some (CreateQuizDTO.passing_score d)) 70))
                (Some (number_or (Some (CreateQuizDTO.max_attempts d)) 3))
                (CreateQuizDTO.time_limit_minutes d) None in
  FormationService.createQuiz formationId (FormationController.quizData_of d)
    (mkWorld fo qz qq qa ur uc [] ck nw)
  = (inr quiz, mkWorld fo (qz ++ [quiz]) qq qa ur (S uc) [] ck nw).
Proof. reflexivity. Qed.

Lemma filter_Permutation {A} (P : A -> bool) (l l' : list A) :
  Permutation l l' -> Permutation (filter P l) (filter P l').
Proof.
  induction 1 as [|x l l' H IH|x y l|l l' l'' H1 IH1 H2 IH2]; cbn [filter].
  - constructor.
  - destruct (P x); [constructor|]; exact IH.
  - destruct (P x), (P y); try apply perm_swap; apply Permutation_refl.
  - eapply perm_trans; eassumption.
Qed.

(** A quiz is fetched with the same questions from two states of the
    tables that hold the same rows in another order. *)
Lemma embed_quiz_questions_same (w1 w2 : World) (z : Quiz.t) :
  Permutation (quiz_questions w1) (quiz_questions w2) ->
  Permutation (quiz_answers w1) (quiz_answers w2) ->
  same_questions (map fetched_view (questions_of (embed_quiz_questions w1 z)))
                 (map fetched_view (questions_of (embed_quiz_questions w2 z))).
Proof.
  intros Pq Pa. unfold questions_of, embed_quiz_questions.
  cbn [Quiz.with_quiz_questions Quiz.quiz_questions].
  set (mine := fun q => strict_eq (QuizQuestion.quiz_id q) (Quiz.id z)).
  exists (map fetched_view (map (embed_quiz_answers w1) (filter mine (quiz_questions w2)))).
  split.
  - do 2 apply Permutation_map. apply filter_Permutation, Pq.
  - induction (filter mine (quiz_questions w2)) as [|q l IH]; cbn [map]; constructor;
      [|exact IH].
    split; [reflexivity|].
    unfold fetched_view, embed_quiz_answers.
    cbn [snd QuizQuestion.with_quiz_answers QuizQuestion.quiz_answers].
    apply Permutation_map, filter_Permutation, Pa.
Qed.

(** X13. What is authored is what is fetched: with no fault scheduled and
    fresh identifiers, the request that creates a quiz is answered 201
    with the quiz under its formation and title and with the questions that
    were sent, each with its text, type and points and with its own
    answers, text and is_correct flag; and the quiz is fetched so afterwards
    in whatever order the database holds and returns the rows of the
    questions and of the answers, the selects setting none. *)
Theorem createQuiz_round_trip
    formationId user organization (validatedData : CreateQuizDTO.t) (w : World) :
  faults w = [] ->
  fresh_identifiers w ->
  exists quiz w',
    FormationController.createQuiz
      (mkRequest formationId user organization (inr validatedData)) w
    = (mkHttp 201 true (Some (Some quiz)) "Quiz créé avec succès" [], w') /\
    Quiz.formation_id quiz = formationId /\
    Quiz.title quiz = CreateQuizDTO.title validatedData /\
    same_questions (map fetched_view (questions_of quiz))
                   (map authored_view (CreateQuizDTO.questions validatedData)) /\
    forall w'' : World,
      faults w'' = [] ->
      quizzes w'' = quizzes w' ->
      Permutation (quiz_questions w'') (quiz_questions w') ->
      Permutation (quiz_answers w'') (quiz_answers w') ->
      exists fetched,
        FormationService.getQuizById (Quiz.id quiz) w'' = (inr (Some fetched), w'') /\
        same_questions (map fetched_view (questions_of fetched))
                       (map authored_view (CreateQuizDTO.questions validatedData)).
Proof.
  intros F Fr. destruct w as [fo qz qq qa ur uc fl ck nw]. cbn [faults] in F. subst fl.
  destruct (Fr uc (Nat.le_refl _)) as (_ & Fz & Fq & _). cbn in Fz, Fq.
  unfold FormationController.createQuiz, FormationController.try_catch,
    FormationController.parse.
  cbn [body param]. rewrite bind_eq. cbn [ret]. rewrite bind_eq.
  rewrite createQuiz_no_fault. cbv zeta.
  rewrite bind_eq, for_questions_no_fault.
  cbn [Quiz.id]. rewrite bind_eq, getQuizById_eq.
  unfold select_quiz, request. cbn [faults fst snd quizzes].
  rewrite filter_app, (filter_none _ qz).
  2:{ intros z I. apply String.eqb_neq. apply (Fz z I). }
  cbn [filter app Quiz.id]. unfold strict_eq at 1. rewrite String.eqb_refl.
  cbn [map single data_of ret].
  do 2 eexists. split; [reflexivity|].
  split; [reflexivity|]. split; [reflexivity|].
  match goal with
  | |- same_questions (map fetched_view (questions_of (embed_quiz_questions ?W ?Z))) _ /\ _ =>
      set (w1 := W); set (z := Z)
  end.
  assert (map fetched_view (questions_of (embed_quiz_questions w1 z))
          = map authored_view (CreateQuizDTO.questions validatedData)) as E.
  { unfold questions_of, embed_quiz_questions, w1, z.
    cbn [Quiz.with_quiz_questions Quiz.quiz_questions quiz_questions Quiz.id].
    rewrite filter_app, (filter_none _ qq), filter_all.
    - cbn [app].
      apply (authored_questions_fetched _ _ _ qa); [reflexivity|].
      intros a m I L.
      assert (uc <= m)%nat as L' by lia.
      destruct (Fr m L') as (_ & _ & _ & Fa). apply (Fa a I).
    - intros q I. apply String.eqb_eq. exact (authored_questions_quiz_id _ _ _ _ I).
    - intros q I. apply String.eqb_neq. apply (Fq q I). }
  rewrite <- E. split.
  - apply embed_quiz_questions_same; apply Permutation_refl.
  - intros w2 F2 Qz Pq Pa. exists (embed_quiz_questions w2 z). split.
    + rewrite getQuizById_eq. unfold select_quiz, request. rewrite F2, Qz.
      change (Quiz.id (embed_quiz_questions w1 z)) with (uuid_generate_v4 uc).
      change (quizzes w1) with (qz ++ [z])%list. cbn [fst snd].
      rewrite filter_app, (filter_none _ qz).
      2:{ intros y I. apply String.eqb_neq. apply (Fz y I). }
      cbn [filter app]. change (Quiz.id z) with (uuid_generate_v4 uc).
      unfold strict_eq at 1. rewrite String.eqb_refl.
      cbn [map single data_of]. reflexivity.
    + apply embed_quiz_questions_same; assumption.
Qed.

Lemma sample_world_fresh : fresh_identifiers Sample.world.
Proof.
  intros n _.
  assert (forall s, String.get 0 s <> String.get 0 (uuid_generate_v4 n) ->
                    s <> uuid_generate_v4 n) as K by (intros s H E; apply H; rewrite E; reflexivity).
  split; [|split; [|split]]; intros x I; vm_compute in I;
    repeat (destruct I as [<-|I];
            [try split; apply K; destruct n; cbn; discriminate|]);
    destruct I.
Qed.

Lemma createQuiz_round_trip_witness :
  exists quiz w',
    FormationController.createQuiz
      (mkRequest "f1" "p1" "o1" (inr Sample.new_quiz)) Sample.world
    = (mkHttp 201 true (Some (Some quiz)) "Quiz créé avec succès" [], w') /\
    Quiz.formation_id quiz = "f1" /\
    Quiz.title quiz = CreateQuizDTO.title Sample.new_quiz /\
    same_questions (map fetched_view (questions_of quiz))
                   (map authored_view (CreateQuizDTO.questions Sample.new_quiz)) /\
    forall w'' : World,
      faults w'' = [] ->
      quizzes w'' = quizzes w' ->
      Permutation (quiz_questions w'') (quiz_questions w') ->
      Permutation (quiz_answers w'') (quiz_answers w') ->
      exists fetched,
        FormationService.getQuizById (Quiz.id quiz) w'' = (inr (Some fetched), w'') /\
        same_questions (map fetched_view (questions_of fetched))
                       (map authored_view (CreateQuizDTO.questions Sample.new_quiz)).
Proof.
  apply (createQuiz_round_trip "f1" "p1" "o1" Sample.new_quiz Sample.world).
  - reflexivity.
  - exact sample_world_fresh.
Defined.

(** From tables that hold the rows in the reverse order the new quiz is
    fetched with its second question first, and the answers of each in
    the reverse order. *)
Example createQuiz_fetched_in_reverse :
  exists fetched,
    FormationService.getQuizById "uuid" Sample.created_in_reverse
      = (inr (Some fetched), Sample.created_in_reverse) /\
    map fetched_view (questions_of fetched)
    = [("Seconde", multiple_choice, 1, [("D", true); ("C", false)]);
       ("Première", multiple_choice, 1, [("B", false); ("A", true)])].
Proof. eexists. split; vm_compute; reflexivity. Qed.

(* ================================================================== *)
(** ** Creating, listing and deleting formations *)
(* ================================================================== *)

(** X14. A formation is created in the organization of the caller and in
    the caller's name, whatever the payload carries in organization_id,
    created_by or id, with duration_minutes 0 for an absent or zero value
    and status draft for an absent one; with no fault scheduled and fresh
    identifiers the request is answered 201, the row is appended, and the
    fetch by its id returns it, column by column, with no quiz. *)
Theorem createFormation_round_trip
    (req : Request PartialFormation.t) (validatedData : PartialFormation.t)
    (nm : string) (ty : FormationType) (w : World) :
  body req = inr validatedData ->
  PartialFormation.name validatedData = Some nm ->
  PartialFormation.type validatedData = Some ty ->
  faults w = [] ->
  fresh_identifiers w ->
  exists formation w',
    FormationController.createFormation req w
    = (mkHttp 201 true (Some formation) "Formation créée avec succès" [], w') /\
    formations w' = (formations w ++ [formation])%list /\
    Formation.organization_id formation = organizationId req /\
    Formation.created_by formation = userId req /\
    Formation.name formation = nm /\ Formation.type formation = ty /\
    Formation.duration_minutes formation
      = number_or (PartialFormation.duration_minutes validatedData) 0 /\
    Formation.status formation
      = match PartialFormation.status validatedData with Some st => st | None => draft end /\
    exists fetched,
      FormationService.getFormationById (Formation.id formation) w' = (inr (Some fetched), w') /\
      (forall c, column_of c fetched = column_of c formation) /\
      Formation.quizzes fetched = Some [].
Proof.
  intros B N T F Fr. destruct w as [fo qz qq qa ur uc fl ck nw]. cbn [faults] in F. subst fl.
  destruct (Fr uc (Nat.le_refl _)) as (Ff & Fz & _). cbn in Ff, Fz.
  unfold FormationController.createFormation, FormationController.try_catch,
    FormationController.parse.
  rewrite B, bind_eq. cbn [ret]. rewrite bind_eq.
  unfold FormationService.createFormation, insert_formation, request.
  rewrite bind_eq. unfold await.
  cbn [faults FormationInsert.name FormationInsert.type]. rewrite N, T.
  cbn [ret]. do 2 eexists. split; [reflexivity|].
  cbn [formations Supabase.with_uuid_counter Supabase.with_formations uuid_counter clock
       Formation.organization_id Formation.created_by Formation.name Formation.type
       Formation.duration_minutes Formation.status Formation.id
       FormationInsert.organization_id FormationInsert.created_by
       FormationInsert.duration_minutes FormationInsert.status].
  repeat (split; [reflexivity|]).
  eexists. split; [|split].
  - unfold FormationService.getFormationById, select_formation, request.
    rewrite bind_eq. unfold await.
    cbn [faults formations Supabase.with_uuid_counter Supabase.with_formations].
    rewrite filter_app, (filter_none _ fo).
    2:{ intros f I. apply String.eqb_neq. apply (Ff f I). }
    cbn [filter app Formation.id]. unfold strict_eq at 1. rewrite String.eqb_refl.
    cbn [map single ret]. reflexivity.
  - intros c. destruct c; reflexivity.
  - unfold embed_quizzes.
    cbn [Formation.with_quizzes Formation.quizzes Formation.id quizzes
         Supabase.with_uuid_counter Supabase.with_formations].
    rewrite filter_none; [reflexivity|].
    intros z I. apply String.eqb_neq. apply (Fz z I).
Qed.

Lemma createFormation_round_trip_witness :
  exists formation w',
    FormationController.createFormation
      (mkRequest "" "p1" "o1" (inr Sample.new_formation)) Sample.world
    = (mkHttp 201 true (Some formation) "Formation créée avec succès" [], w') /\
    formations w' = (formations Sample.world ++ [formation])%list /\
    Formation.organization_id formation = "o1" /\
    Formation.created_by formation = "p1" /\
    Formation.name formation = "Gestes et postures" /\ Formation.type formation = video /\
    Formation.duration_minutes formation
      = number_or (PartialFormation.duration_minutes Sample.new_formation) 0 /\
    Formation.status formation
      = match PartialFormation.status Sample.new_formation with
        | Some st => st
        | None => draft
        end /\
    exists fetched,
      FormationService.getFormationById (Formation.id formation) w' = (inr (Some fetched), w') /\
      (forall c, column_of c fetched = column_of c formation) /\
      Formation.quizzes fetched = Some [].
Proof.
  apply (createFormation_round_trip (mkRequest "" "p1" "o1" (inr Sample.new_formation))
           Sample.new_formation "Gestes et postures" video Sample.world);
    try reflexivity.
  exact sample_world_fresh.
Defined.

Lemma insert_by_created_at_perm (x : FormationListItem.t) (l : list FormationListItem.t) :
  Permutation (x :: l) (insert_by_created_at x l).
Proof.
  induction l as [|y l IH]; [apply Permutation_refl|].
  cbn [insert_by_created_at]. destruct (item_created_at y <=? item_created_at x).
  - apply Permutation_refl.
  - apply Permutation_trans with (y :: x :: l); [apply perm_swap|].
    apply perm_skip. exact IH.
Qed.

Lemma order_by_created_at_desc_perm (l : list FormationListItem.t) :
  Permutation l (order_by_created_at_desc l).
Proof.
  induction l as [|x l IH]; [apply Permutation_refl|].
  cbn [order_by_created_at_desc fold_right]. fold (order_by_created_at_desc l).
  apply Permutation_trans with (x :: order_by_created_at_desc l).
  - apply perm_skip. exact IH.
  - apply insert_by_created_at_perm.
Qed.

Lemma insert_by_created_at_sorted (x : FormationListItem.t) (l : list FormationListItem.t) :
  StronglySorted (fun a b => item_created_at b <= item_created_at a) l ->
  StronglySorted (fun a b => item_created_at b <= item_created_at a)
                 (insert_by_created_at x l).
Proof.
  induction l as [|y l IH]; intros S.
  - cbn. constructor; constructor.
  - cbn [insert_by_created_at]. inversion S as [|? ? S' A]; subst.
    destruct (Z.leb_spec (item_created_at y) (item_created_at x)) as [L|L].
    + constructor; [exact S|]. constructor; [exact L|].
      rewrite Forall_forall in *. intros b I. specialize (A b I). lia.
    + constructor; [apply IH; exact S'|].
      rewrite Forall_forall in *. intros b I.
      apply (Permutation_in _ (Permutation_sym (insert_by_created_at_perm x l))) in I.
      destruct I as [<-|I]; [lia | apply A; exact I].
Qed.

Lemma order_by_created_at_desc_sorted (l : list FormationListItem.t) :
  StronglySorted (fun a b => item_created_at b <= item_created_at a)
                 (order_by_created_at_desc l).
Proof.
  induction l as [|x l IH]; [constructor|].
  cbn [order_by_created_at_desc fold_right]. fold (order_by_created_at_desc l).
  apply insert_by_created_at_sorted. exact IH.
Qed.

(** X15. The list of formations holds the formations of the caller's
    organization and no other: exactly the stored rows of that
    organization, restricted to the status asked for when one is given
    (an absent or empty status restricts nothing), each once, the most
    recently created first; listing changes no table. *)
Theorem getFormations_of_the_organization organization status (w w' : World) items :
  FormationService.getFormations organization status w = (inr items, w') ->
  same_tables w w' /\
  Permutation
    (map (embed_quiz_summaries w)
         (filter (fun f =>
                    strict_eq (Formation.organization_id f) organization &&
                    match status with
                    | Some st => String.eqb st "" || strict_eq (status_name (Formation.status f)) st
                    | None => true
                    end) (formations w)))
    items /\
  (forall x, In x items ->
     Formation.organization_id (FormationListItem.formation x) = organization) /\
  StronglySorted (fun a b => item_created_at b <= item_created_at a) items.
Proof.
  unfold FormationService.getFormations, select_formations.
  rewrite bind_eq. unfold await.
  assert (forall f,
            formation_matches organization (FormationService.status_filter status) f
            = strict_eq (Formation.organization_id f) organization &&
              match status with
              | Some st => String.eqb st "" || strict_eq (status_name (Formation.status f)) st
              | None => true
              end) as K.
  { intros f. unfold formation_matches, FormationService.status_filter.
    destruct status as [st|]; [|reflexivity].
    destruct (String.eqb st ""); reflexivity. }
  unfold request.
  assert (forall w0 : World,
            formations w0 = formations w -> quizzes w0 = quizzes w ->
            Permutation
              (map (embed_quiz_summaries w)
                 (filter (fun f =>
                    strict_eq (Formation.organization_id f) organization &&
                    match status with
                    | Some st =>
                        String.eqb st "" || strict_eq (status_name (Formation.status f)) st
                    | None => true
                    end) (formations w)))
              (order_by_created_at_desc
                 (map (embed_quiz_summaries w0)
                    (filter (formation_matches organization
                               (FormationService.status_filter status)) (formations w0)))) /\
            forall x, In x (order_by_created_at_desc
                 (map (embed_quiz_summaries w0)
                    (filter (formation_matches organization
                               (FormationService.status_filter status)) (formations w0)))) ->
              Formation.organization_id (FormationListItem.formation x) = organization) as P.
  { intros w0 E1 E2. rewrite E1, (filter_ext _ _ K).
    assert (map (embed_quiz_summaries w0) = map (embed_quiz_summaries w)) as ->.
    { f_equal. unfold embed_quiz_summaries. rewrite E2. reflexivity. }
    split; [apply order_by_created_at_desc_perm|].
    intros x I.
    apply (Permutation_in _ (Permutation_sym (order_by_created_at_desc_perm _))) in I.
    apply in_map_iff in I. destruct I as (f & <- & I).
    apply filter_In in I. destruct I as [_ I]. apply andb_prop in I.
    destruct I as [I _]. apply String.eqb_eq in I. exact I. }
  unfold ret, throw.
  destruct (faults w) as [|[e|] rest]; cbv beta iota zeta; try discriminate;
    intros [= <- <-].
  - destruct (P w eq_refl eq_refl) as [P1 P2].
    split; [unfold same_tables; auto 10|].
    split; [exact P1|]. split; [exact P2 | apply order_by_created_at_desc_sorted].
  - destruct (P (Supabase.with_faults rest w) eq_refl eq_refl) as [P1 P2].
    split; [unfold same_tables; cbn; auto 10|].
    split; [exact P1|]. split; [exact P2 | apply order_by_created_at_desc_sorted].
Qed.

Lemma getFormations_of_the_organization_witness :
  let items := order_by_created_at_desc
                 (map (embed_quiz_summaries Sample.two_organizations) [Sample.f1; Sample.f3]) in
  same_tables Sample.two_organizations Sample.two_organizations /\
  Permutation
    (map (embed_quiz_summaries Sample.two_organizations)
         (filter (fun f =>
                    strict_eq (Formation.organization_id f) "o1" &&
                    match Some "" with
                    | Some st => String.eqb st "" || strict_eq (status_name (Formation.status f)) st
                    | None => true
                    end) (formations Sample.two_organizations)))
    items /\
  (forall x, In x items ->
     Formation.organization_id (FormationListItem.formation x) = "o1") /\
  StronglySorted (fun a b => item_created_at b <= item_created_at a) items.
Proof.
  apply (getFormations_of_the_organization "o1" (Some "") Sample.two_organizations
           Sample.two_organizations).
  vm_compute. reflexivity.
Defined.

Lemma filter_filter_implied {A} (P Q : A -> bool) (l : list A) :
  (forall x, In x l -> P x = true -> Q x = true) ->
  filter P (filter Q l) = filter P l.
Proof.
  intros H. induction l as [|x l IH]; [reflexivity|].
  cbn [filter]. destruct (Q x) eqn:E.
  - cbn [filter]. rewrite IH; [reflexivity|]. intros y I. apply H. right. exact I.
  - rewrite IH by (intros y I; apply H; right; exact I).
    destruct (P x) eqn:E'; [|reflexivity].
    rewrite (H x (or_introl eq_refl) E') in E. discriminate.
Qed.

Lemma getFormationById_eq formationId w :
  FormationService.getFormationById formationId w =
  (inr (data_of (fst (select_formation formationId w))), snd (select_formation formationId w)).
Proof.
  unfold FormationService.getFormationById, bind, await, ret.
  destruct (select_formation formationId w) as [[f|e] w1]; reflexivity.
Qed.

(** What the tables hold once the deletion went through. *)
Lemma deleteFormation_inr formationId (w w' : World) :
  FormationService.deleteFormation formationId w = (inr tt, w') ->
  let gone_f := filter (fun f => strict_eq (Formation.id f) formationId) (formations w) in
  let gone_z := filter (references Quiz.formation_id Formation.id gone_f) (quizzes w) in
  let gone_q := filter (references QuizQuestion.quiz_id Quiz.id gone_z) (quiz_questions w) in
  formations w' = filter (fun f => negb (strict_eq (Formation.id f) formationId)) (formations w) /\
  quizzes w'
    = filter (fun z => negb (references Quiz.formation_id Formation.id gone_f z)) (quizzes w) /\
  quiz_questions w'
    = filter (fun q => negb (references QuizQuestion.quiz_id Quiz.id gone_z q))
             (quiz_questions w) /\
  quiz_answers w'
    = filter (fun a => negb (references QuizAnswer.question_id QuizQuestion.id gone_q a))
             (quiz_answers w) /\
  (faults w = [] -> faults w' = []).
Proof.
  unfold FormationService.deleteFormation.
  rewrite bind_eq. unfold await, delete_formation, request, ret, throw.
  destruct (faults w) as [|[e|] rest] eqn:Fa; cbv beta iota zeta; try discriminate;
    intros [= <-];
    cbn [formations quizzes quiz_questions quiz_answers faults Supabase.with_faults];
    repeat split; trivial; discriminate.
Qed.

(** A quiz that goes with the formation references it. *)
Lemma gone_quiz_formation_id formationId (l : list Formation.t) (z : Quiz.t) :
  references Quiz.formation_id Formation.id
    (filter (fun f => strict_eq (Formation.id f) formationId) l) z = true ->
  Quiz.formation_id z = formationId.
Proof.
  unfold references. intros H. apply existsb_exists in H. destruct H as (f & I & E).
  apply filter_In in I. destruct I as [_ I].
  apply String.eqb_eq in E, I. congruence.
Qed.

(** X16. After a formation is deleted, the fetch by its id returns null
    and the request is answered 404, whatever requests fail; and, with the
    persistence service answering and the identifiers of the quizzes and of
    the questions unique, as their primary keys make them, every formation
    with another id is fetched as before the deletion, with the same
    quizzes, questions and answers. *)
Theorem deleteFormation_then_getFormationById
    formationId user organization (w w' : World) :
  NoDup (map Quiz.id (quizzes w)) ->
  NoDup (map QuizQuestion.id (quiz_questions w)) ->
  FormationService.deleteFormation formationId w = (inr tt, w') ->
  fst (FormationService.getFormationById formationId w') = inr None /\
  fst (FormationController.getFormationById
         (mkRequest formationId user organization (inr tt)) w')
    = mkHttp 404 false None "Formation non trouvée" [] /\
  (faults w = [] ->
   forall other, other <> formationId ->
     fst (FormationService.getFormationById other w')
     = fst (FormationService.getFormationById other w)).
Proof.
  intros Nz Nq S.
  destruct (deleteFormation_inr _ _ _ S) as (Ef & Ez & Eq & Ea & F'). cbv zeta in *.
  set (gone_f := filter (fun f => strict_eq (Formation.id f) formationId) (formations w)) in *.
  set (gone_z := filter (references Quiz.formation_id Formation.id gone_f) (quizzes w)) in *.
  set (gone_q := filter (references QuizQuestion.quiz_id Quiz.id gone_z) (quiz_questions w)) in *.
  assert (fst (FormationService.getFormationById formationId w') = inr None) as G.
  { rewrite getFormationById_eq. cbn [fst]. unfold select_formation, request.
    assert (filter (fun f => strict_eq (Formation.id f) formationId) (formations w') = []) as N.
    { rewrite Ef. apply filter_none. intros f I. apply filter_In in I.
      destruct I as [_ I]. apply negb_true_iff in I. exact I. }
    destruct (faults w') as [|[e|] rest]; cbn [fst formations Supabase.with_faults];
      rewrite ?N; reflexivity. }
  split; [exact G|]. split.
  - unfold FormationController.getFormationById, FormationController.try_catch.
    cbn [param]. rewrite bind_eq.
    destruct (FormationService.getFormationById formationId w') as [r w1].
    cbn [fst] in G. rewrite G. reflexivity.
  - intros F other D. specialize (F' F).
    rewrite !getFormationById_eq. cbn [fst]. unfold select_formation, request.
    rewrite F, F'. cbn [fst]. do 3 f_equal.
    assert (forall g, In g gone_z -> In g (quizzes w) /\ Quiz.formation_id g = formationId) as Gz.
    { intros g I. apply filter_In in I. destruct I as [I R]. split; [exact I|].
      exact (gone_quiz_formation_id _ _ _ R). }
    assert (forall z q, In z (quizzes w) -> Quiz.formation_id z = other ->
                        QuizQuestion.quiz_id q = Quiz.id z ->
                        references QuizQuestion.quiz_id Quiz.id gone_z q = false) as Kq.
    { intros z q Iz Fz Qz.
      destruct (references QuizQuestion.quiz_id Quiz.id gone_z q) eqn:R; [exfalso|reflexivity].
      unfold references in R. apply existsb_exists in R. destruct R as (g & Ig & Eg).
      apply String.eqb_eq in Eg. destruct (Gz g Ig) as [Ig' Fg].
      assert (g = z) as -> by (apply (NoDup_map_unique Quiz.id _ Nz); congruence).
      congruence. }
    assert (forall z q a, In z (quizzes w) -> Quiz.formation_id z = other ->
                          In q (quiz_questions w) -> QuizQuestion.quiz_id q = Quiz.id z ->
                          QuizAnswer.question_id a = QuizQuestion.id q ->
                          references QuizAnswer.question_id QuizQuestion.id gone_q a = false)
      as Ka.
    { intros z q a Iz Fz Iq Qz Aq.
      destruct (references QuizAnswer.question_id QuizQuestion.id gone_q a) eqn:R;
        [exfalso|reflexivity].
      unfold references in R. apply existsb_exists in R. destruct R as (g & Ig & Eg).
      apply String.eqb_eq in Eg. apply filter_In in Ig. destruct Ig as [Ig R].
      assert (g = q) as -> by (apply (NoDup_map_unique QuizQuestion.id _ Nq); congruence).
      rewrite (Kq z q Iz Fz Qz) in R. discriminate. }
    rewrite Ef, filter_filter_implied.
    2:{ intros f _ E. apply String.eqb_eq in E. apply negb_true_iff, String.eqb_neq.
        congruence. }
    apply map_ext_in. intros f If. apply filter_In in If. destruct If as [_ If].
    apply String.eqb_eq in If.
    unfold embed_quizzes. do 2 f_equal.
    rewrite Ez, filter_filter_implied.
    2:{ intros z _ E. apply String.eqb_eq in E. apply negb_true_iff.
        destruct (references Quiz.formation_id Formation.id gone_f z) eqn:R; [|reflexivity].
        apply gone_quiz_formation_id in R. congruence. }
    apply map_ext_in. intros z Iz. apply filter_In in Iz. destruct Iz as [Iz Fz].
    apply String.eqb_eq in Fz. rewrite If in Fz.
    unfold embed_quiz_questions. do 2 f_equal.
    rewrite Eq, filter_filter_implied.
    2:{ intros q _ E. apply String.eqb_eq in E. apply negb_true_iff.
        exact (Kq z q Iz Fz E). }
    apply map_ext_in. intros q Iq. apply filter_In in Iq. destruct Iq as [Iq Qz].
    apply String.eqb_eq in Qz.
    unfold embed_quiz_answers. do 2 f_equal.
    rewrite Ea, filter_filter_implied; [reflexivity|].
    intros a _ E. apply String.eqb_eq in E. apply negb_true_iff.
    exact (Ka z q a Iz Fz Iq Qz E).
Qed.

Lemma deleteFormation_then_getFormationById_witness :
  fst (FormationService.getFormationById "f1"
         (snd (FormationService.deleteFormation "f1" Sample.with_other_quiz)))
    = inr None /\
  fst (FormationController.getFormationById (mkRequest "f1" "u1" "o1" (inr tt))
         (snd (FormationService.deleteFormation "f1" Sample.with_other_quiz)))
    = mkHttp 404 false None "Formation non trouvée" [] /\
  (faults Sample.with_other_quiz = [] ->
   forall other, other <> "f1" ->
     fst (FormationService.getFormationById other
            (snd (FormationService.deleteFormation "f1" Sample.with_other_quiz)))
     = fst (FormationService.getFormationById other Sample.with_other_quiz)).
Proof.
  apply (deleteFormation_then_getFormationById "f1" "u1" "o1" Sample.with_other_quiz
           (snd (FormationService.deleteFormation "f1" Sample.with_other_quiz))).
  - repeat (constructor; [cbn; intuition discriminate|]). constructor.
  - repeat (constructor; [cbn; intuition discriminate|]). constructor.
  - vm_compute. reflexivity.
Defined.

(** Once f1 is deleted, f2 is still fetched with its quiz, the question
    of the quiz and the answer of the question. *)
Example delete_f1_keeps_f2 :
  let w' := snd (FormationService.deleteFormation "f1" Sample.with_other_quiz) in
  fst (FormationService.getFormationById "f2" w')
  = inr (Some (Formation.with_quizzes
                 (Some [Quiz.with_quiz_questions
                          (Some [QuizQuestion.with_quiz_answers (Some [Sample.a51]) Sample.q5])
                          Sample.z5])
                 Sample.f2)).
Proof. vm_compute. reflexivity. Qed.

(** The formation f1 goes with its four quizzes, their three questions,
    five answers and one result; the two other formations stay. *)
Example delete_f1 :
  let w' := snd (FormationService.deleteFormation "f1" Sample.two_organizations) in
  map Formation.id (formations w') = ["f2"; "f3"] /\
  quizzes w' = [] /\ quiz_questions w' = [] /\ quiz_answers w' = [] /\
  user_quiz_results w' = [].
Proof. vm_compute. auto 10. Qed.

(** X17. Deleting a formation whose id is not stored is no error: with
    the persistence service answering, the request is answered 200
    'Formation supprimée avec succès', not 404, and no table changes. *)
Theorem deleteFormation_unknown_id formationId user organization (w : World) :
  faults w = [] ->
  (forall f, In f (formations w) -> Formation.id f <> formationId) ->
  exists w',
    FormationController.deleteFormation (mkRequest formationId user organization (inr tt)) w
    = (mkHttp 200 true None "Formation supprimée avec succès" [], w') /\
    same_tables w w'.
Proof.
  intros F H.
  assert (forall x, In x (formations w) -> strict_eq (Formation.id x) formationId = false) as N
    by (intros x I; apply String.eqb_neq, H, I).
  unfold FormationController.deleteFormation, FormationController.try_catch.
  cbn [param]. rewrite bind_eq.
  unfold FormationService.deleteFormation. rewrite bind_eq.
  unfold await, delete_formation, request. rewrite F.
  assert (forall A B (key : A -> uuid) (id_of : B -> uuid) l,
            filter (references key id_of []) l = []) as R
    by (intros; apply filter_none; reflexivity).
  rewrite (filter_none _ _ N), !R. cbn [ret].
  eexists. split; [reflexivity|].
  unfold same_tables.
  cbn [formations quizzes quiz_questions quiz_answers user_quiz_results].
  repeat split; apply filter_all; intros x I; try reflexivity.
  rewrite (N x I). reflexivity.
Qed.

Lemma deleteFormation_unknown_id_witness :
  exists w',
    FormationController.deleteFormation (mkRequest "inconnue" "p1" "o1" (inr tt)) Sample.world
    = (mkHttp 200 true None "Formation supprimée avec succès" [], w') /\
    same_tables Sample.world w'.
Proof.
  apply (deleteFormation_unknown_id "inconnue" "p1" "o1" Sample.world).
  - reflexivity.
  - intros f [<- | []]. vm_compute. discriminate.
Defined.

(* ================================================================== *)
(** ** Content types *)
(* ================================================================== *)

Lemma toLowerCase_ascii_idempotent (c : ascii) :
  FormationService.toLowerCase_ascii (FormationService.toLowerCase_ascii c)
  = FormationService.toLowerCase_ascii c.
Proof. destruct c as [[] [] [] [] [] [] [] []]; vm_compute; reflexivity. Qed.

Lemma toLowerCase_idempotent (s : string) :
  FormationService.toLowerCase (FormationService.toLowerCase s) = FormationService.toLowerCase s.
Proof.
  induction s as [|c s IH]; [reflexivity|].
  cbn [FormationService.toLowerCase]. rewrite toLowerCase_ascii_idempotent, IH. reflexivity.
Qed.

(** X18. The content type of an upload depends on the extension up to
    case only; an extension that is, up to case, one of the eleven listed
    keys gets the type listed for that key, and
    application/octet-stream is the answer exactly when the extension is,
    up to case, neither a listed key nor one of the two names constructor
    and __proto__: for these two the lookup finds an inherited member of
    the object, which is truthy, so that the default is not taken and the
    result is no string. *)
Theorem getContentType_total (extension : string) :
  FormationService.getContentType (FormationService.toLowerCase extension)
    = FormationService.getContentType extension /\
  (forall key type, In (key, type) FormationService.contentTypes ->
     FormationService.toLowerCase extension = key ->
     FormationService.getContentType extension = FormationService.mime type) /\
  (FormationService.getContentType extension = FormationService.mime "application/octet-stream"
   <-> ~ In (FormationService.toLowerCase extension) (map fst FormationService.contentTypes) /\
       FormationService.toLowerCase extension <> "constructor" /\
       FormationService.toLowerCase extension <> "__proto__") /\
  (FormationService.getContentType extension = FormationService.Object_constructor
   <-> FormationService.toLowerCase extension = "constructor") /\
  (FormationService.getContentType extension = FormationService.Object_prototype
   <-> FormationService.toLowerCase extension = "__proto__").
Proof.
  split; [|split].
  - unfold FormationService.getContentType. rewrite toLowerCase_idempotent. reflexivity.
  - intros key type I E. unfold FormationService.getContentType. rewrite E.
    cbn in I.
    repeat (destruct I as [I|I]; [injection I as <- <-; reflexivity|]).
    destruct I.
  - unfold FormationService.getContentType.
    destruct (find _ FormationService.contentTypes) as [kv|] eqn:E.
    + pose proof (find_some _ _ E) as [I K]. cbn beta in K. apply String.eqb_eq in K.
      assert (In (FormationService.toLowerCase extension)
                 (map fst FormationService.contentTypes)) as M
        by (rewrite <- K; apply in_map; exact I).
      assert (FormationService.toLowerCase extension <> "constructor" /\
              FormationService.toLowerCase extension <> "__proto__") as [C P].
      { rewrite <- K. clear - I. cbn in I.
        repeat (destruct I as [<-|I]; [split; discriminate|]). destruct I. }
      assert (snd kv <> "application/octet-stream") as O.
      { clear - I. cbn in I.
        repeat (destruct I as [<-|I]; [discriminate|]). destruct I. }
      repeat split; try discriminate; try tauto; congruence.
    + assert (~ In (FormationService.toLowerCase extension)
                   (map fst FormationService.contentTypes)) as M.
      { intros I. apply in_map_iff in I. destruct I as (kv & K & I).
        pose proof (find_none _ _ E kv I) as N. cbn beta in N.
        rewrite K, String.eqb_refl in N. discriminate. }
      destruct (String.eqb_spec (FormationService.toLowerCase extension) "constructor")
        as [C|C].
      { rewrite C. repeat split; try discriminate; try tauto; try congruence. }
      destruct (String.eqb_spec (FormationService.toLowerCase extension) "__proto__")
        as [P|P]; repeat split; try discriminate; try tauto; try congruence.
Qed.

(** pdf in any case; an extension that is not listed; the two inherited
    names. *)
Example getContentType_samples :
  FormationService.getContentType "PDF" = FormationService.mime "application/pdf" /\
  FormationService.getContentType "docx" = FormationService.mime "application/octet-stream" /\
  FormationService.getContentType "Constructor" = FormationService.Object_constructor /\
  FormationService.getContentType "__PROTO__" = FormationService.Object_prototype.
Proof. vm_compute. auto. Qed.

(** X19. Every type the file filter lets through is the content type of
    some extension, but not conversely: the content type stored with a
    file is computed from the extension of its name, and the extensions
    jpg, jpeg, png and gif give types the filter refuses. *)
Theorem fileFilter_accepts_content_types (mimetype : string) :
  FormationController.fileFilter mimetype = inr true ->
  (exists extension, FormationService.getContentType extension = FormationService.mime mimetype) /\
  forall extension, In extension ["jpg"; "jpeg"; "png"; "gif"] ->
    exists refused,
      FormationService.getContentType extension = FormationService.mime refused /\
      FormationController.fileFilter refused = inl (Error "Type de fichier non autorisé").
Proof.
  intros H. split.
  - unfold FormationController.fileFilter in H.
    destruct (existsb _ FormationController.allowedTypes) eqn:E; [|discriminate].
    apply existsb_exists in E. destruct E as (m & I & E). apply String.eqb_eq in E. subst m.
    cbn in I.
    destruct I as [<-|[<-|[<-|[<-|[<-|[<-|[<-|[]]]]]]]].
    + exists "pdf". reflexivity.
    + exists "ppt". reflexivity.
    + exists "pptx". reflexivity.
    + exists "mp4". reflexivity.
    + exists "avi". reflexivity.
    + exists "mov". reflexivity.
    + exists "wmv". reflexivity.
  - intros extension I. cbn in I.
    destruct I as [<-|[<-|[<-|[<-|[]]]]]; eexists; split; reflexivity.
Qed.

Lemma fileFilter_accepts_content_types_witness :
  (exists extension,
     FormationService.getContentType extension = FormationService.mime "video/mp4") /\
  forall extension, In extension ["jpg"; "jpeg"; "png"; "gif"] ->
    exists refused,
      FormationService.getContentType extension = FormationService.mime refused /\
      FormationController.fileFilter refused = inl (Error "Type de fichier non autorisé").
Proof.
  apply (fileFilter_accepts_content_types "video/mp4"). reflexivity.
Defined.
